(** * Office / membership state synchronisation of discord-office-panel

    Shallow embedding of [server/storage.ts] (both [MemStorage] and
    [DatabaseStorage]), of the Discord gateway module [server/discord.ts]
    and of the route handlers of [server/routes.ts], followed by the
    properties of the specification that concern them and by further
    properties of the same code.

    Conventions of the embedding:
    - a JS [number] holding an id or a bitmask is a [Z]; a JS [string] is a
      [string]; [null] and [undefined] are [None];
    - a JS [Map] is an association list in insertion order ([JsMap]);
    - a relational table is the list of its rows in insertion order;
    - [async] code is run to completion, one call after the other: the
      state it reads and writes, the requests it sends to Discord and the
      clock are threaded through the monad [M];
    - a rejected promise / thrown exception is the outcome [Thrown];
    - [console.log] and [console.error] have no effect on the state and are
      left out. *)

From Stdlib Require Import Ascii ZArith Lia.
From stdpp Require Import base list strings pretty numbers.

Local Open Scope Z_scope.
Local Open Scope string_scope.
Local Open Scope list_scope.

(** ** JavaScript fragments *)

(** Truthiness of an optional string ([undefined], [null] and the empty
    string are falsy). *)
Definition truthy (s : option string) : bool :=
  match s with
  | Some s => negb (String.eqb s EmptyString)
  | None => false
  end.

(** [x || null] on an optional string. *)
Definition or_null (s : option string) : option string :=
  if truthy s then s else None.

(** [x || false] and plain truthiness of an optional boolean. *)
Definition or_false (b : option bool) : bool := default false b.

(** [s.includes(c)] for a one-character needle. *)
Fixpoint includes (c : ascii) (s : string) : bool :=
  match s with
  | EmptyString => false
  | String a r => if Ascii.eqb a c then true else includes c r
  end.

(** [s.split(c)] for a one-character separator; the accumulator holds the
    characters of the current piece, last one first. *)
Fixpoint split_go (c : ascii) (acc : string) (s : string) : list string :=
  match s with
  | EmptyString => [String.rev acc]
  | String a r =>
      if Ascii.eqb a c then String.rev acc :: split_go c EmptyString r
      else split_go c (String a acc) r
  end.
Definition split (c : ascii) (s : string) : list string :=
  split_go c EmptyString s.

(** The insertion-ordered [Map] of JavaScript. *)
Module JsMap.
Section JsMap.
Context {K V : Type} `{EqDecision K}.

Fixpoint get (k : K) (m : list (K * V)) : option V :=
  match m with
  | [] => None
  | (k', v) :: r => if decide (k = k') then Some v else get k r
  end.

Definition has (k : K) (m : list (K * V)) : bool :=
  match get k m with Some _ => true | None => false end.

(** [set] keeps the position of a key that is already present and
    appends a new key at the end. *)
Fixpoint set (k : K) (v : V) (m : list (K * V)) : list (K * V) :=
  match m with
  | [] => [(k, v)]
  | (k', v') :: r =>
      if decide (k = k') then (k, v) :: r else (k', v') :: set k v r
  end.

Fixpoint delete (k : K) (m : list (K * V)) : list (K * V) :=
  match m with
  | [] => []
  | (k', v') :: r =>
      if decide (k = k') then delete k r else (k', v') :: delete k r
  end.

Definition values (m : list (K * V)) : list V := m.*2.
Definition keys (m : list (K * V)) : list K := m.*1.
End JsMap.
End JsMap.

(** ** Data model ([shared/schema.ts]) *)

Module User.
Record t := mk {
  id : string;
  username : string;
  discriminator : string;
  avatar : option string;
  isAdmin : bool;
  accessToken : option string;
  refreshToken : option string;
  tokenExpiry : option Z
}.

(** The placeholder used where a referenced user is missing. *)
Definition unknown (uid : string) : t :=
  {| id := uid; username := "Unknown"; discriminator := "0000";
     isAdmin := false; avatar := None; accessToken := None;
     refreshToken := None; tokenExpiry := None |}.
End User.

Module InsertUser.
Record t := mk {
  id : string;
  username : string;
  discriminator : string;
  avatar : option string;
  isAdmin : option bool;
  accessToken : option string;
  refreshToken : option string;
  tokenExpiry : option Z
}.
End InsertUser.

(** [Partial<User>]: [None] is an absent key; for a column that may be
    [null], [Some None] is the key given as [null].  A key given as
    [undefined] is not represented. *)
Module UserUpdates.
Record t := mk {
  id : option string;
  username : option string;
  discriminator : option string;
  avatar : option (option string);
  isAdmin : option bool;
  accessToken : option (option string);
  refreshToken : option (option string);
  tokenExpiry : option (option Z)
}.

(** No key is given: [Object.entries(updates)] is empty. *)
Definition is_empty (d : t) : bool :=
  match d with
  | mk None None None None None None None None => true
  | _ => false
  end.
End UserUpdates.

Module Office.
(** [voiceChannelId] is the column [storage.ts] reads and writes next to
    the columns of the [offices] table. *)
Record t := mk {
  id : Z;
  name : string;
  description : option string;
  isPrivate : bool;
  ownerId : string;
  status : string;
  createdAt : Z;
  voiceChannelId : option string
}.

Definition with_voiceChannelId (c : option string) (o : t) : t :=
  {| id := id o; name := name o; description := description o;
     isPrivate := isPrivate o; ownerId := ownerId o; status := status o;
     createdAt := createdAt o; voiceChannelId := c |}.
End Office.

Module InsertOffice.
(** [isPrivate] has a column default, so the insert schema makes it
    optional. *)
Record t := mk {
  name : string;
  description : option string;
  isPrivate : option bool;
  ownerId : string
}.

Definition with_ownerId (u : string) (o : t) : t :=
  {| name := name o; description := description o;
     isPrivate := isPrivate o; ownerId := u |}.
End InsertOffice.

Module OfficeMember.
Record t := mk {
  id : Z;
  officeId : Z;
  userId : string;
  isOwner : bool;
  joinedAt : Z
}.
End OfficeMember.

Module InsertOfficeMember.
Record t := mk {
  officeId : Z;
  userId : string;
  isOwner : option bool
}.
End InsertOfficeMember.

(** A membership row together with its resolved user. *)
Module EnrichedMember.
Record t := mk {
  member : OfficeMember.t;
  user : User.t
}.
Definition userId (m : t) : string := OfficeMember.userId (member m).
End EnrichedMember.

(** An office together with its resolved owner, members and member count. *)
Module EnrichedOffice.
Record t := mk {
  office : Office.t;
  owner : User.t;
  members : list EnrichedMember.t;
  memberCount : nat
}.
Definition id (o : t) : Z := Office.id (office o).
Definition ownerId (o : t) : string := Office.ownerId (office o).
Definition isPrivate (o : t) : bool := Office.isPrivate (office o).
Definition voiceChannelId (o : t) : option string :=
  Office.voiceChannelId (office o).
End EnrichedOffice.

#[global] Instance User_eq_dec : EqDecision User.t.
Proof. solve_decision. Defined.
#[global] Instance Office_eq_dec : EqDecision Office.t.
Proof. solve_decision. Defined.
#[global] Instance OfficeMember_eq_dec : EqDecision OfficeMember.t.
Proof. solve_decision. Defined.

(** ** Requests to and responses from the Discord API *)

Module PermissionOverwrite.
Record t := mk {
  id : string;
  type : Z;
  allow : string;
  deny : string
}.
End PermissionOverwrite.

(** The payload of a channel creation. *)
Module ChannelPayload.
Record t := mk {
  name : string;
  type : Z;
  permission_overwrites : list PermissionOverwrite.t;
  parent_id : option string
}.
End ChannelPayload.

(** The body of a permission update. *)
Module PermissionBody.
Record t := mk {
  allow : string;
  deny : string;
  type : Z
}.
End PermissionBody.

Inductive Body :=
  | NoBody
  | ChannelBody (p : ChannelPayload.t)
  | PermissionsBody (p : PermissionBody.t).

Module Request.
Record t := mk {
  method : string;
  url : string;
  headers : list (string * string);
  body : Body
}.
End Request.

Module DiscordUser.
Record t := mk {
  id : string;
  username : string;
  discriminator : string;
  avatar : option string
}.
End DiscordUser.

Module DiscordGuildMember.
Record t := mk {
  user : option DiscordUser.t;
  nick : option string;
  roles : list string
}.
End DiscordGuildMember.

(** The shapes of JSON the code reads from a response. *)
Inductive Json :=
  | JChannel (id : string)
  | JMember (m : DiscordGuildMember.t)
  | JMembers (l : list DiscordGuildMember.t).

(** [json = None]: the body does not parse and [response.json()] rejects. *)
Module Response.
Record t := mk {
  ok : bool;
  status : Z;
  statusText : string;
  json : option Json;
  text : string
}.
End Response.

(** What the process is started with and what it cannot control:
    the environment variables and the behaviour of the network, which
    answers a request in view of the requests sent before it ([None]: the
    [fetch] promise rejects). *)
Module Env.
Record t := mk {
  BOT_TOKEN : string;
  GUILD_ID : string;
  VC_CATEGORY_ID : option string;
  ADMIN_ROLE : option string;
  network : list Request.t → Request.t → option Response.t
}.
End Env.

(** ** The monad of the server code *)

(** The storage object, the requests sent so far and the clock. *)
Record World (S : Type) := mkWorld {
  store : S;
  sent : list Request.t;
  now : Z
}.
Arguments mkWorld {S} _ _ _.
Arguments store {S} _.
Arguments sent {S} _.
Arguments now {S} _.

Inductive outcome (A : Type) :=
  | Returned (a : A)
  | Thrown (e : string).
Arguments Returned {A} _.
Arguments Thrown {A} _.

Definition M (S A : Type) : Type := World S → outcome A * World S.

Definition ret {S A} (a : A) : M S A := λ w, (Returned a, w).
Definition throw {S A} (e : string) : M S A := λ w, (Thrown e, w).
Definition bind {S A B} (m : M S A) (k : A → M S B) : M S B :=
  λ w, match m w with
       | (Returned a, w') => k a w'
       | (Thrown e, w') => (Thrown e, w')
       end.

(** [try { m } catch (error) { h error }]: what [m] did before it threw
    stays done. *)
Definition try_catch {S A} (m : M S A) (h : string → M S A) : M S A :=
  λ w, match m w with
       | (Returned a, w') => (Returned a, w')
       | (Thrown e, w') => h e w'
       end.

Definition gets {S A} (f : S → A) : M S A :=
  λ w, (Returned (f (store w)), w).
Definition modify {S} (f : S → S) : M S unit :=
  λ w, (Returned tt, mkWorld (f (store w)) (sent w) (now w)).
(** [new Date()] *)
Definition new_Date {S} : M S Z := λ w, (Returned (now w), w).

Declare Scope js_scope.
Delimit Scope js_scope with js.
Notation "'let*' x ':=' m 'in' k" := (bind m (λ x, k))
  (at level 10, x name, m at level 100, k at level 200) : js_scope.
Notation "m ';;' k" := (bind m (λ _, k))
  (at level 100, k at level 200, right associativity) : js_scope.
Local Open Scope js_scope.

(** [for (const x of xs) { await f x }] *)
Fixpoint for_of {S A} (xs : list A) (f : A → M S unit) : M S unit :=
  match xs with
  | [] => ret tt
  | x :: r => f x ;; for_of r f
  end.

(** ** The gateway module ([server/discord.ts])

    The module as [storage.ts] calls it: [updateChannelPermissions] takes
    [allow] and [deny] with defaults, so that it can be called with a
    channel and a user only, and [createVoiceChannel] sends the overwrite
    for [@everyone]. *)

Section Discord.
Variable env : Env.t.
Context {S : Type}.

(** [await fetch(url, init)] *)
Definition fetch (r : Request.t) : M S Response.t :=
  λ w, let w' := mkWorld (store w) (sent w ++ [r]) (now w) in
       match Env.network env (sent w) r with
       | Some resp => (Returned resp, w')
       | None => (Thrown "fetch failed", w')
       end.

(** [await response.json()] *)
Definition response_json (r : Response.t) : M S Json :=
  match Response.json r with
  | Some j => ret j
  | None => throw "SyntaxError"
  end.

Definition bot_headers : list (string * string) :=
  [("Authorization", "Bot " +:+ Env.BOT_TOKEN env)].
Definition bot_json_headers : list (string * string) :=
  [("Authorization", "Bot " +:+ Env.BOT_TOKEN env);
   ("Content-Type", "application/json")].

(** Discord permission flags, as the comments of the module give them. *)
Definition CONNECT : Z := Z.shiftl 1 20.
Definition SPEAK : Z := Z.shiftl 1 21.

(** The object a response is cast to when it is read as a guild member. *)
Definition as_member (j : Json) : DiscordGuildMember.t :=
  match j with
  | JMember m => m
  | _ => DiscordGuildMember.mk None None []
  end.

Definition getGuildMember (userId : string)
  : M S (option DiscordGuildMember.t) :=
  let* response := fetch
    (Request.mk "GET"
       ("https://discord.com/api/guilds/" +:+ Env.GUILD_ID env
          +:+ "/members/" +:+ userId)
       bot_headers NoBody) in
  if Z.eqb (Response.status response) 404 then ret None
  else if negb (Response.ok response) then
    throw ("Failed to fetch guild member: " +:+ Response.statusText response)
  else
    let* j := response_json response in
    ret (Some (as_member j)).

Definition getMemberRoles (member : DiscordGuildMember.t) : list string :=
  DiscordGuildMember.roles member.

Definition fetchGuildMembers : M S (list DiscordGuildMember.t) :=
  let* response := fetch
    (Request.mk "GET"
       ("https://discord.com/api/guilds/" +:+ Env.GUILD_ID env
          +:+ "/members?limit=1000")
       bot_headers NoBody) in
  if negb (Response.ok response) then
    throw ("Failed to fetch guild members: " +:+ Response.statusText response)
  else
    let* j := response_json response in
    match j with
    | JMembers l => ret l
    | _ => throw "TypeError: guildMembers.find is not a function"
    end.

(** The payload [createVoiceChannel] posts. *)
Definition channel_payload (name : string) (categoryId : option string)
  : ChannelPayload.t :=
  {| ChannelPayload.name := name;
     ChannelPayload.type := 2;
     ChannelPayload.permission_overwrites :=
       [ {| PermissionOverwrite.id := Env.GUILD_ID env;
            PermissionOverwrite.type := 0;
            PermissionOverwrite.allow := "0";
            PermissionOverwrite.deny := "3145728" |} ];
     ChannelPayload.parent_id :=
       if truthy categoryId then categoryId else None |}.

Definition create_channel_request (name : string)
    (categoryId : option string) : Request.t :=
  Request.mk "POST"
    ("https://discord.com/api/guilds/" +:+ Env.GUILD_ID env +:+ "/channels")
    bot_json_headers (ChannelBody (channel_payload name categoryId)).

(** Returns [channel.id], which is [undefined] when the JSON read is not
    an object with an [id]. *)
Definition createVoiceChannel (name : string) (categoryId : option string)
  : M S (option string) :=
  let* response := fetch (create_channel_request name categoryId) in
  if negb (Response.ok response) then
    throw ("Failed to create voice channel: " +:+ Response.statusText response)
  else
    let* channel := response_json response in
    match channel with
    | JChannel id => ret (Some id)
    | _ => ret None
    end.

Definition deleteVoiceChannel (channelId : string) : M S unit :=
  let* response := fetch
    (Request.mk "DELETE"
       ("https://discord.com/api/channels/" +:+ channelId)
       bot_headers NoBody) in
  if negb (Response.ok response) then
    throw ("Failed to delete voice channel: " +:+ Response.statusText response)
  else ret tt.

(** [n || d] on numbers: [0] is falsy. *)
Definition num_or (n d : Z) : Z := if Z.eqb n 0 then d else n.

Definition permissions_request (channelId userId : string)
    (finalAllow deny : Z) : Request.t :=
  Request.mk "PUT"
    ("https://discord.com/api/channels/" +:+ channelId
       +:+ "/permissions/" +:+ userId)
    bot_json_headers
    (PermissionsBody
       {| PermissionBody.allow := pretty finalAllow;
          PermissionBody.deny := pretty deny;
          PermissionBody.type := 1 |}).

(** [allow] and [deny] default to [0] when the caller leaves them out. *)
Definition updateChannelPermissions (channelId userId : string)
    (allow deny : option Z) : M S unit :=
  let allow := default 0 allow in
  let deny := default 0 deny in
  let defaultAllow := 3145728 in
  let finalAllow := num_or allow defaultAllow in
  let* response :=
    fetch (permissions_request channelId userId finalAllow deny) in
  if negb (Response.ok response) then
    throw ("Failed to update channel permissions: "
             +:+ Response.statusText response
             +:+ ". Details: " +:+ Response.text response)
  else ret tt.

End Discord.

(** ** The storage interface ([IStorage])

    The methods that only read are functions of the storage object; the
    others run in [M].  A method whose result is cast to its declared type
    although it may be [undefined] returns an option.  [updateOffice] is
    not embedded: the gateway function it calls to rename a channel is not
    part of [discord.ts]. *)

Class IStorage (S : Type) := {
  getUserById : string → S → option User.t;
  createUser : InsertUser.t → M S User.t;
  updateUser : string → UserUpdates.t → M S (option User.t);
  userHasOffice : string → S → bool;
  getAllOffices : S → list EnrichedOffice.t;
  getOfficeById : Z → S → option EnrichedOffice.t;
  getUserOffice : string → S → option EnrichedOffice.t;
  getAvailableOffices : string → S → list EnrichedOffice.t;
  createOffice : InsertOffice.t → M S (option EnrichedOffice.t);
  deleteOffice : Z → M S unit;
  getOfficeMembers : Z → S → list EnrichedMember.t;
  isOfficeMember : Z → string → S → bool;
  addOfficeMember : InsertOfficeMember.t → M S EnrichedMember.t;
  removeOfficeMember : Z → string → M S unit
}.

(** [{...user, ...updates}] *)
Definition apply_user_updates (u : User.t) (d : UserUpdates.t) : User.t :=
  {| User.id := default (User.id u) (UserUpdates.id d);
     User.username := default (User.username u) (UserUpdates.username d);
     User.discriminator :=
       default (User.discriminator u) (UserUpdates.discriminator d);
     User.avatar := default (User.avatar u) (UserUpdates.avatar d);
     User.isAdmin := default (User.isAdmin u) (UserUpdates.isAdmin d);
     User.accessToken :=
       default (User.accessToken u) (UserUpdates.accessToken d);
     User.refreshToken :=
       default (User.refreshToken u) (UserUpdates.refreshToken d);
     User.tokenExpiry :=
       default (User.tokenExpiry u) (UserUpdates.tokenExpiry d) |}.

(** The enriched view both backends build from an office row, its owner
    (if found) and its resolved members. *)
Definition enrich (office : Office.t) (owner : option User.t)
    (members : list EnrichedMember.t) : EnrichedOffice.t :=
  {| EnrichedOffice.office := office;
     EnrichedOffice.owner := default (User.unknown (Office.ownerId office)) owner;
     EnrichedOffice.members := members;
     EnrichedOffice.memberCount := length members |}.

(** [office.members.some(member => member.userId === userId)] *)
Definition some_member (userId : string) (o : EnrichedOffice.t) : bool :=
  existsb (λ member, bool_decide (EnrichedMember.userId member = userId))
          (EnrichedOffice.members o).

(** ** The in-memory backend ([MemStorage]) *)

Module MemStorage.

Record t := mk {
  users : list (string * User.t);
  offices : list (Z * Office.t);
  officeMembers : list (string * OfficeMember.t);
  currentOfficeId : Z
}.

(** [new MemStorage()] *)
Definition new : t := mk [] [] [] 1.

(** The key of a membership: [`${officeId}:${userId}`]. *)
Definition member_key (officeId : Z) (userId : string) : string :=
  pretty officeId +:+ ":" +:+ userId.

Definition set_users (f : list (string * User.t) → list (string * User.t))
    (s : t) : t :=
  mk (f (users s)) (offices s) (officeMembers s) (currentOfficeId s).
Definition set_offices (f : list (Z * Office.t) → list (Z * Office.t))
    (s : t) : t :=
  mk (users s) (f (offices s)) (officeMembers s) (currentOfficeId s).
Definition set_officeMembers
    (f : list (string * OfficeMember.t) → list (string * OfficeMember.t))
    (s : t) : t :=
  mk (users s) (offices s) (f (officeMembers s)) (currentOfficeId s).

(** [this.currentOfficeId++] *)
Definition next_office_id : M t Z :=
  let* id := gets currentOfficeId in
  modify (λ s, mk (users s) (offices s) (officeMembers s) (id + 1)) ;;
  ret id.

Section Methods.
Variable env : Env.t.

Definition getUserById (id : string) (s : t) : option User.t :=
  JsMap.get id (users s).

Definition createUser (user : InsertUser.t) : M t User.t :=
  let newUser :=
    {| User.id := InsertUser.id user;
       User.username := InsertUser.username user;
       User.discriminator := InsertUser.discriminator user;
       User.avatar := or_null (InsertUser.avatar user);
       User.isAdmin := or_false (InsertUser.isAdmin user);
       User.accessToken := None;
       User.refreshToken := None;
       User.tokenExpiry := None |} in
  modify (set_users (JsMap.set (User.id newUser) newUser)) ;;
  ret newUser.

Definition updateUser (id : string) (updates : UserUpdates.t)
  : M t (option User.t) :=
  let* user := gets (getUserById id) in
  match user with
  | None => throw ("User with ID " +:+ id +:+ " not found")
  | Some user =>
      let updatedUser := apply_user_updates user updates in
      modify (set_users (JsMap.set id updatedUser)) ;;
      ret (Some updatedUser)
  end.

Definition userHasOffice (userId : string) (s : t) : bool :=
  existsb (λ office, bool_decide (Office.ownerId office = userId))
          (JsMap.values (offices s)).

(** Memberships whose user is not in [users] are skipped. *)
Definition getOfficeMembers (officeId : Z) (s : t) : list EnrichedMember.t :=
  omap (λ '(key, member),
          if bool_decide (OfficeMember.officeId member = officeId) then
            match JsMap.get (OfficeMember.userId member) (users s) with
            | Some user => Some (EnrichedMember.mk member user)
            | None => None
            end
          else None)
       (officeMembers s).

Definition enrich_office (s : t) (office : Office.t) : EnrichedOffice.t :=
  enrich office (JsMap.get (Office.ownerId office) (users s))
         (getOfficeMembers (Office.id office) s).

Definition getAllOffices (s : t) : list EnrichedOffice.t :=
  enrich_office s <$> JsMap.values (offices s).

Definition getOfficeById (id : Z) (s : t) : option EnrichedOffice.t :=
  match JsMap.get id (offices s) with
  | None => None
  | Some office =>
      Some (enrich office (JsMap.get (Office.ownerId office) (users s))
                   (getOfficeMembers id s))
  end.

Definition getUserOffice (userId : string) (s : t)
  : option EnrichedOffice.t :=
  List.find (λ office,
               bool_decide (EnrichedOffice.ownerId office = userId)
               || some_member userId office)
            (getAllOffices s).

Definition getAvailableOffices (userId : string) (s : t)
  : list EnrichedOffice.t :=
  List.filter (λ office,
                 negb (EnrichedOffice.isPrivate office)
                 || some_member userId office)
              (getAllOffices s).

Definition isOfficeMember (officeId : Z) (userId : string) (s : t) : bool :=
  JsMap.has (member_key officeId userId) (officeMembers s).

(** An omitted [isOwner] stays [undefined] in the stored object; nothing
    reads it but as a truth value. *)
Definition addOfficeMember (member : InsertOfficeMember.t)
  : M t EnrichedMember.t :=
  let officeId := InsertOfficeMember.officeId member in
  let userId := InsertOfficeMember.userId member in
  let* joinedAt := new_Date in
  let newMember :=
    {| OfficeMember.id := 0;
       OfficeMember.officeId := officeId;
       OfficeMember.userId := userId;
       OfficeMember.isOwner := or_false (InsertOfficeMember.isOwner member);
       OfficeMember.joinedAt := joinedAt |} in
  modify (set_officeMembers
            (JsMap.set (member_key officeId userId) newMember)) ;;
  let* user := gets (getUserById userId) in
  let enrichedMember :=
    EnrichedMember.mk newMember (default (User.unknown userId) user) in
  try_catch
    (let* office := gets (getOfficeById officeId) in
     match office with
     | Some office =>
         if truthy (EnrichedOffice.voiceChannelId office) then
           updateChannelPermissions env
             (default EmptyString (EnrichedOffice.voiceChannelId office)) userId
             None None
         else ret tt
     | None => ret tt
     end)
    (λ _, ret tt) ;;
  ret enrichedMember.

Definition removeOfficeMember (officeId : Z) (userId : string) : M t unit :=
  try_catch
    (let* office := gets (getOfficeById officeId) in
     match office with
     | Some office =>
         if truthy (EnrichedOffice.voiceChannelId office) then
           updateChannelPermissions env
             (default EmptyString (EnrichedOffice.voiceChannelId office)) userId
             (Some 0) (Some 3145728)
         else ret tt
     | None => ret tt
     end)
    (λ _, ret tt) ;;
  modify (set_officeMembers (JsMap.delete (member_key officeId userId))).

(** An omitted [isPrivate] stays [undefined] in the stored object; nothing
    reads it but as a truth value. *)
Definition createOffice (office : InsertOffice.t)
  : M t (option EnrichedOffice.t) :=
  let* id := next_office_id in
  let* createdAt := new_Date in
  let newOffice :=
    {| Office.id := id;
       Office.name := InsertOffice.name office;
       Office.description := or_null (InsertOffice.description office);
       Office.isPrivate := or_false (InsertOffice.isPrivate office);
       Office.ownerId := InsertOffice.ownerId office;
       Office.status := "active";
       Office.createdAt := createdAt;
       Office.voiceChannelId := None |} in
  modify (set_offices (JsMap.set id newOffice)) ;;
  try_catch
    (let categoryId := Env.VC_CATEGORY_ID env in
     let* channelId :=
       createVoiceChannel env ("Office-" +:+ Office.name newOffice)
                          categoryId in
     modify (set_offices
               (JsMap.set id (Office.with_voiceChannelId channelId newOffice))))
    (λ _, ret tt) ;;
  addOfficeMember
    {| InsertOfficeMember.officeId := id;
       InsertOfficeMember.userId := InsertOffice.ownerId office;
       InsertOfficeMember.isOwner := Some true |} ;;
  gets (getOfficeById id).

Definition deleteOffice (id : Z) : M t unit :=
  let* office := gets (λ s, JsMap.get id (offices s)) in
  let* officeMembers := gets (getOfficeMembers id) in
  for_of officeMembers
    (λ member, removeOfficeMember id (EnrichedMember.userId member)) ;;
  match office with
  | Some office =>
      if truthy (Office.voiceChannelId office) then
        try_catch
          (deleteVoiceChannel env (default EmptyString (Office.voiceChannelId office)))
          (λ _, ret tt)
      else ret tt
  | None => ret tt
  end ;;
  modify (set_offices (JsMap.delete id)).

End Methods.
End MemStorage.

Definition MemStorage_IStorage (env : Env.t) : IStorage MemStorage.t := {|
  getUserById := MemStorage.getUserById;
  createUser := MemStorage.createUser;
  updateUser := MemStorage.updateUser;
  userHasOffice := MemStorage.userHasOffice;
  getAllOffices := MemStorage.getAllOffices;
  getOfficeById := MemStorage.getOfficeById;
  getUserOffice := MemStorage.getUserOffice;
  getAvailableOffices := MemStorage.getAvailableOffices;
  createOffice := MemStorage.createOffice env;
  deleteOffice := MemStorage.deleteOffice env;
  getOfficeMembers := MemStorage.getOfficeMembers;
  isOfficeMember := MemStorage.isOfficeMember;
  addOfficeMember := MemStorage.addOfficeMember env;
  removeOfficeMember := MemStorage.removeOfficeMember env
|}.

(** ** The relational backend ([DatabaseStorage])

    The database holds the three tables of [shared/schema.ts].  [users.id]
    is a primary key; [offices.id] and [office_members.id] are serial
    primary keys; [offices.owner_id], [office_members.office_id] and
    [office_members.user_id] are foreign keys.  The schema declares no
    other constraint: in particular none on the pair
    [(office_id, user_id)] of [office_members].  A statement that violates
    a constraint rejects. *)

Module Db.
Record t := mk {
  users : list User.t;
  offices : list Office.t;
  officeMembers : list OfficeMember.t;
  offices_id_seq : Z;
  office_members_id_seq : Z
}.

Definition empty : t := mk [] [] [] 1 1.

Definition has_user (id : string) (d : t) : bool :=
  existsb (λ u, bool_decide (User.id u = id)) (users d).
Definition has_office (id : Z) (d : t) : bool :=
  existsb (λ o, bool_decide (Office.id o = id)) (offices d).
Definition has_member_id (id : Z) (d : t) : bool :=
  existsb (λ m, bool_decide (OfficeMember.id m = id)) (officeMembers d).

(** [insert into users values (...) returning *] *)
Definition insert_user (u : User.t) : M t User.t :=
  let* taken := gets (has_user (User.id u)) in
  if taken then throw "duplicate key value violates users_pkey"
  else
    modify (λ d, mk (users d ++ [u]) (offices d) (officeMembers d)
                    (offices_id_seq d) (office_members_id_seq d)) ;;
    ret u.

(** [update users set ... where ... returning *].  A row that gets
    another [id] must not take an [id] that a row of the table has (the
    primary key, checked as the row is written), and must not leave an
    office or a membership behind that refers to its old [id] (the two
    foreign keys, which name no [on update] action and are checked when the
    statement ends, in the order of the schema). *)
Definition updated_users (p : User.t → bool) (f : User.t → User.t) (d : t)
  : list User.t :=
  (λ u, if p u then f u else u) <$> users d.
Definition moved_users (p : User.t → bool) (f : User.t → User.t) (d : t)
  : list User.t :=
  List.filter (λ u, p u && negb (bool_decide (User.id (f u) = User.id u)))
              (users d).
Definition update_takes_id (p : User.t → bool) (f : User.t → User.t) (d : t)
  : bool :=
  existsb
    (λ u, Nat.ltb 1 (length (List.filter
                               (λ u', bool_decide (User.id u' = User.id (f u)))
                               (updated_users p f d))))
    (moved_users p f d).
Definition update_leaves_owner (p : User.t → bool) (f : User.t → User.t)
    (d : t) : bool :=
  existsb
    (λ u, negb (existsb (λ u', bool_decide (User.id u' = User.id u))
                        (updated_users p f d))
          && existsb (λ o, bool_decide (Office.ownerId o = User.id u))
                     (offices d))
    (moved_users p f d).
Definition update_leaves_member (p : User.t → bool) (f : User.t → User.t)
    (d : t) : bool :=
  existsb
    (λ u, negb (existsb (λ u', bool_decide (User.id u' = User.id u))
                        (updated_users p f d))
          && existsb (λ m, bool_decide (OfficeMember.userId m = User.id u))
                     (officeMembers d))
    (moved_users p f d).
Definition update_users (p : User.t → bool) (f : User.t → User.t)
  : M t (list User.t) :=
  let* rows := gets (λ d, f <$> List.filter p (users d)) in
  let* pk := gets (update_takes_id p f) in
  let* fk_offices := gets (update_leaves_owner p f) in
  let* fk_members := gets (update_leaves_member p f) in
  if pk then throw "duplicate key value violates users_pkey"
  else if fk_offices then
    throw "update on users violates foreign key offices_owner_id_users_id_fk"
  else if fk_members then
    throw "update on users violates foreign key office_members_user_id_users_id_fk"
  else
    modify (λ d, mk (updated_users p f d) (offices d) (officeMembers d)
                    (offices_id_seq d) (office_members_id_seq d)) ;;
    ret rows.

(** [nextval] of the two sequences; a value taken is not given back when
    the statement fails. *)
Definition next_office_id : M t Z :=
  let* id := gets offices_id_seq in
  modify (λ d, mk (users d) (offices d) (officeMembers d) (id + 1)
                  (office_members_id_seq d)) ;;
  ret id.
Definition next_member_id : M t Z :=
  let* id := gets office_members_id_seq in
  modify (λ d, mk (users d) (offices d) (officeMembers d) (offices_id_seq d)
                  (id + 1)) ;;
  ret id.

(** [insert into offices values (...) returning *]: [id], [status],
    [created_at] and, when left out, [is_private] take their defaults. *)
Definition insert_office (name : string) (description : option string)
    (isPrivate : option bool) (ownerId : string) : M t Office.t :=
  let* id := next_office_id in
  let* createdAt := new_Date in
  let row :=
    {| Office.id := id; Office.name := name;
       Office.description := description;
       Office.isPrivate := default true isPrivate;
       Office.ownerId := ownerId; Office.status := "active";
       Office.createdAt := createdAt; Office.voiceChannelId := None |} in
  let* pk := gets (has_office id) in
  let* fk := gets (has_user ownerId) in
  if pk then throw "duplicate key value violates offices_pkey"
  else if negb fk then throw "violates foreign key offices_owner_id_users_id_fk"
  else
    modify (λ d, mk (users d) (offices d ++ [row]) (officeMembers d)
                    (offices_id_seq d) (office_members_id_seq d)) ;;
    ret row.

(** [update offices set ... where ... returning *] *)
Definition update_offices (p : Office.t → bool) (f : Office.t → Office.t)
  : M t (list Office.t) :=
  let* rows := gets (λ d, f <$> List.filter p (offices d)) in
  modify (λ d, mk (users d) ((λ o, if p o then f o else o) <$> offices d)
                  (officeMembers d) (offices_id_seq d)
                  (office_members_id_seq d)) ;;
  ret rows.

(** [delete from offices where ...] *)
Definition delete_offices (p : Office.t → bool) : M t unit :=
  let* referenced :=
    gets (λ d, existsb (λ o, p o && existsb
                          (λ m, bool_decide (OfficeMember.officeId m = Office.id o))
                          (officeMembers d))
                       (offices d)) in
  if referenced then
    throw "violates foreign key office_members_office_id_offices_id_fk"
  else
    modify (λ d, mk (users d) (List.filter (λ o, negb (p o)) (offices d))
                    (officeMembers d) (offices_id_seq d)
                    (office_members_id_seq d)).

(** [insert into office_members values (...) returning *] *)
Definition insert_member (officeId : Z) (userId : string)
    (isOwner : option bool) : M t OfficeMember.t :=
  let* id := next_member_id in
  let* joinedAt := new_Date in
  let row :=
    {| OfficeMember.id := id; OfficeMember.officeId := officeId;
       OfficeMember.userId := userId;
       OfficeMember.isOwner := default false isOwner;
       OfficeMember.joinedAt := joinedAt |} in
  let* pk := gets (has_member_id id) in
  let* fk_office := gets (has_office officeId) in
  let* fk_user := gets (has_user userId) in
  if pk then throw "duplicate key value violates office_members_pkey"
  else if negb fk_office then
    throw "violates foreign key office_members_office_id_offices_id_fk"
  else if negb fk_user then
    throw "violates foreign key office_members_user_id_users_id_fk"
  else
    modify (λ d, mk (users d) (offices d) (officeMembers d ++ [row])
                    (offices_id_seq d) (office_members_id_seq d)) ;;
    ret row.

(** [delete from office_members where ...] *)
Definition delete_members (p : OfficeMember.t → bool) : M t unit :=
  modify (λ d, mk (users d) (offices d)
                  (List.filter (λ m, negb (p m)) (officeMembers d))
                  (offices_id_seq d) (office_members_id_seq d)).
End Db.

Module DatabaseStorage.
Section Methods.
Variable env : Env.t.

Definition getUserById (id : string) (d : Db.t) : option User.t :=
  head (List.filter (λ u, bool_decide (User.id u = id)) (Db.users d)).

Definition createUser (user : InsertUser.t) : M Db.t User.t :=
  let userToInsert :=
    {| User.id := InsertUser.id user;
       User.username := InsertUser.username user;
       User.discriminator := InsertUser.discriminator user;
       User.avatar := or_null (InsertUser.avatar user);
       User.isAdmin := or_false (InsertUser.isAdmin user);
       User.accessToken := or_null (InsertUser.accessToken user);
       User.refreshToken := or_null (InsertUser.refreshToken user);
       User.tokenExpiry := InsertUser.tokenExpiry user |} in
  Db.insert_user userToInsert.

(** [.set(updates)] throws when [updates] has no key, before anything is
    sent to the database. *)
Definition updateUser (id : string) (updates : UserUpdates.t)
  : M Db.t (option User.t) :=
  if UserUpdates.is_empty updates then throw "No values to set"
  else
    let* rows := Db.update_users (λ u, bool_decide (User.id u = id))
                                 (λ u, apply_user_updates u updates) in
    ret (head rows).

Definition userHasOffice (userId : string) (d : Db.t) : bool :=
  match List.filter (λ o, bool_decide (Office.ownerId o = userId))
                    (Db.offices d) with
  | [] => false
  | _ :: _ => true
  end.

(** A membership whose user is missing is kept, with the placeholder. *)
Definition getOfficeMembers (officeId : Z) (d : Db.t)
  : list EnrichedMember.t :=
  (λ member,
     EnrichedMember.mk member
       (default (User.unknown (OfficeMember.userId member))
                (getUserById (OfficeMember.userId member) d)))
  <$> List.filter (λ m, bool_decide (OfficeMember.officeId m = officeId))
                  (Db.officeMembers d).

Definition enrich_office (d : Db.t) (office : Office.t) : EnrichedOffice.t :=
  enrich office (getUserById (Office.ownerId office) d)
         (getOfficeMembers (Office.id office) d).

Definition getAllOffices (d : Db.t) : list EnrichedOffice.t :=
  enrich_office d <$> Db.offices d.

Definition getOfficeById (id : Z) (d : Db.t) : option EnrichedOffice.t :=
  match head (List.filter (λ o, bool_decide (Office.id o = id))
                          (Db.offices d)) with
  | None => None
  | Some office =>
      Some (enrich office (getUserById (Office.ownerId office) d)
                   (getOfficeMembers id d))
  end.

Definition getUserOffice (userId : string) (d : Db.t)
  : option EnrichedOffice.t :=
  match head (List.filter (λ o, bool_decide (Office.ownerId o = userId))
                          (Db.offices d)) with
  | Some userOffice => getOfficeById (Office.id userOffice) d
  | None =>
      match head (List.filter
                    (λ m, bool_decide (OfficeMember.userId m = userId))
                    (Db.officeMembers d)) with
      | Some officeMember =>
          getOfficeById (OfficeMember.officeId officeMember) d
      | None => None
      end
  end.

Definition getAvailableOffices (userId : string) (d : Db.t)
  : list EnrichedOffice.t :=
  let userOffice := getUserOffice userId d in
  let availableOffices :=
    List.filter
      (λ o, match userOffice with
            | Some userOffice =>
                negb (bool_decide (Office.id o = EnrichedOffice.id userOffice))
                && bool_decide (Office.isPrivate o = false)
            | None => bool_decide (Office.isPrivate o = false)
            end)
      (Db.offices d) in
  enrich_office d <$> availableOffices.

Definition isOfficeMember (officeId : Z) (userId : string) (d : Db.t)
  : bool :=
  match List.filter
          (λ m, bool_decide (OfficeMember.officeId m = officeId)
                && bool_decide (OfficeMember.userId m = userId))
          (Db.officeMembers d) with
  | [] => false
  | _ :: _ => true
  end.

Definition addOfficeMember (member : InsertOfficeMember.t)
  : M Db.t EnrichedMember.t :=
  let officeId := InsertOfficeMember.officeId member in
  let userId := InsertOfficeMember.userId member in
  let* newMember :=
    Db.insert_member officeId userId (InsertOfficeMember.isOwner member) in
  try_catch
    (let* office :=
       gets (λ d, head (List.filter (λ o, bool_decide (Office.id o = officeId))
                                    (Db.offices d))) in
     match office with
     | Some office =>
         if truthy (Office.voiceChannelId office) then
           updateChannelPermissions env
             (default EmptyString (Office.voiceChannelId office)) userId None None
         else ret tt
     | None => ret tt
     end)
    (λ _, ret tt) ;;
  let* user := gets (getUserById userId) in
  ret (EnrichedMember.mk newMember (default (User.unknown userId) user)).

Definition removeOfficeMember (officeId : Z) (userId : string)
  : M Db.t unit :=
  try_catch
    (let* office :=
       gets (λ d, head (List.filter (λ o, bool_decide (Office.id o = officeId))
                                    (Db.offices d))) in
     match office with
     | Some office =>
         if truthy (Office.voiceChannelId office) then
           updateChannelPermissions env
             (default EmptyString (Office.voiceChannelId office)) userId
             (Some 0) (Some 3145728)
         else ret tt
     | None => ret tt
     end)
    (λ _, ret tt) ;;
  Db.delete_members
    (λ m, bool_decide (OfficeMember.officeId m = officeId)
          && bool_decide (OfficeMember.userId m = userId)).

Definition createOffice (office : InsertOffice.t)
  : M Db.t (option EnrichedOffice.t) :=
  let* createdOffice :=
    Db.insert_office (InsertOffice.name office)
      (or_null (InsertOffice.description office))
      (InsertOffice.isPrivate office) (InsertOffice.ownerId office) in
  try_catch
    (let categoryId := Env.VC_CATEGORY_ID env in
     let* channelId :=
       createVoiceChannel env ("Office-" +:+ Office.name createdOffice)
                          categoryId in
     let* rows :=
       Db.update_offices
         (λ o, bool_decide (Office.id o = Office.id createdOffice))
         (Office.with_voiceChannelId channelId) in
     match rows with
     | [] => throw "TypeError: updatedOffice is undefined"
     | updatedOffice :: _ =>
         addOfficeMember
           {| InsertOfficeMember.officeId := Office.id updatedOffice;
              InsertOfficeMember.userId := Office.ownerId updatedOffice;
              InsertOfficeMember.isOwner := Some true |} ;;
         gets (getOfficeById (Office.id updatedOffice))
     end)
    (λ _,
       addOfficeMember
         {| InsertOfficeMember.officeId := Office.id createdOffice;
            InsertOfficeMember.userId := Office.ownerId createdOffice;
            InsertOfficeMember.isOwner := Some true |} ;;
       gets (getOfficeById (Office.id createdOffice))).

Definition deleteOffice (id : Z) : M Db.t unit :=
  let* office :=
    gets (λ d, head (List.filter (λ o, bool_decide (Office.id o = id))
                                 (Db.offices d))) in
  match office with
  | None => throw ("Office with ID " +:+ pretty id +:+ " not found")
  | Some office =>
      Db.delete_members (λ m, bool_decide (OfficeMember.officeId m = id)) ;;
      (if truthy (Office.voiceChannelId office) then
         try_catch
           (deleteVoiceChannel env (default EmptyString (Office.voiceChannelId office)))
           (λ _, ret tt)
       else ret tt) ;;
      Db.delete_offices (λ o, bool_decide (Office.id o = id))
  end.

End Methods.
End DatabaseStorage.

Definition DatabaseStorage_IStorage (env : Env.t) : IStorage Db.t := {|
  getUserById := DatabaseStorage.getUserById;
  createUser := DatabaseStorage.createUser;
  updateUser := DatabaseStorage.updateUser;
  userHasOffice := DatabaseStorage.userHasOffice;
  getAllOffices := DatabaseStorage.getAllOffices;
  getOfficeById := DatabaseStorage.getOfficeById;
  getUserOffice := DatabaseStorage.getUserOffice;
  getAvailableOffices := DatabaseStorage.getAvailableOffices;
  createOffice := DatabaseStorage.createOffice env;
  deleteOffice := DatabaseStorage.deleteOffice env;
  getOfficeMembers := DatabaseStorage.getOfficeMembers;
  isOfficeMember := DatabaseStorage.isOfficeMember;
  addOfficeMember := DatabaseStorage.addOfficeMember env;
  removeOfficeMember := DatabaseStorage.removeOfficeMember env
|}.

(** ** Two route handlers of [server/routes.ts] *)

(** What a handler reads from the request: the user id of the session,
    [parseInt(req.params.id)] ([None] for [NaN]), [req.params.userId] and
    the body as [insertOfficeSchema.parse] returns it ([None]: it throws
    a [ZodError]). *)
Module HttpRequest.
Record t := mk {
  session_userId : option string;
  params_id : option Z;
  params_userId : option string;
  body : option InsertOffice.t
}.
End HttpRequest.

Inductive ResponseBody :=
  | Message (message : string)
  | OfficeJson (office : EnrichedOffice.t)
  | NoContent.

Module HttpResponse.
Record t := mk {
  status : Z;
  body : ResponseBody
}.
End HttpResponse.

Section Routes.
Variable env : Env.t.
Context {S : Type} {storage : IStorage S}.

(** The lookup of the admin role on the Discord server, made when the
    stored user is not an admin; a failure of the lookup leaves the user
    without the role. *)
Definition check_admin_role (user : User.t) : M S bool :=
  try_catch
    (let* member := getGuildMember env (User.id user) in
     match member with
     | Some member =>
         if truthy (Env.ADMIN_ROLE env) then
           ret (bool_decide
                  (default EmptyString (Env.ADMIN_ROLE env) ∈ getMemberRoles member))
         else ret false
     | None => ret false
     end)
    (λ _, ret false).

(** [guildMembers.find(member => member.user?.username === username &&
    member.user?.discriminator === discriminator)] *)
Definition find_guild_member (username discriminator : string)
    (guildMembers : list DiscordGuildMember.t)
  : option DiscordGuildMember.t :=
  List.find
    (λ member,
       match DiscordGuildMember.user member with
       | Some u => bool_decide (DiscordUser.username u = username)
                   && bool_decide (DiscordUser.discriminator u = discriminator)
       | None => false
       end)
    guildMembers.

(** [app.post("/api/offices", ...)] *)
Definition post_offices (req : HttpRequest.t) : M S HttpResponse.t :=
  if negb (truthy (HttpRequest.session_userId req)) then
    ret (HttpResponse.mk 401 (Message "Not authenticated"))
  else
  let sessionUserId := default EmptyString (HttpRequest.session_userId req) in
  let* user := gets (getUserById sessionUserId) in
  match user with
  | None => ret (HttpResponse.mk 401 (Message "User not found"))
  | Some user =>
  let* isAdmin :=
    if User.isAdmin user then ret true else check_admin_role user in
  if negb isAdmin then
    ret (HttpResponse.mk 403 (Message "Insufficient permissions"))
  else
  match HttpRequest.body req with
  | None => ret (HttpResponse.mk 400 (Message "Invalid office data"))
  | Some officeData =>
  let create (ownerId : string) : M S HttpResponse.t :=
    let* office :=
      createOffice (InsertOffice.with_ownerId ownerId officeData) in
    match office with
    | None => throw "TypeError: office is undefined"
    | Some office =>
        addOfficeMember
          {| InsertOfficeMember.officeId := EnrichedOffice.id office;
             InsertOfficeMember.userId := ownerId;
             InsertOfficeMember.isOwner := Some true |} ;;
        ret (HttpResponse.mk 201 (OfficeJson office))
    end in
  let ownerId := InsertOffice.ownerId officeData in
  if includes "#" ownerId then
    let parts := split "#" ownerId in
    let username := default EmptyString (parts !! 0%nat) in
    let discriminator := default EmptyString (parts !! 1%nat) in
    let* guildMembers := fetchGuildMembers env in
    match find_guild_member username discriminator guildMembers with
    | None =>
        ret (HttpResponse.mk 404 (Message "Owner not found on Discord server"))
    | Some targetUser =>
        match DiscordGuildMember.user targetUser with
        | None =>
            ret (HttpResponse.mk 404
                   (Message "Owner not found on Discord server"))
        | Some targetUser =>
            let ownerId := DiscordUser.id targetUser in
            let* ownerUser := gets (getUserById ownerId) in
            match ownerUser with
            | Some _ => ret tt
            | None =>
                createUser
                  {| InsertUser.id := ownerId;
                     InsertUser.username := DiscordUser.username targetUser;
                     InsertUser.discriminator :=
                       DiscordUser.discriminator targetUser;
                     InsertUser.avatar := DiscordUser.avatar targetUser;
                     InsertUser.isAdmin := Some false;
                     InsertUser.accessToken := None;
                     InsertUser.refreshToken := None;
                     InsertUser.tokenExpiry := None |} ;;
                ret tt
            end ;;
            create ownerId
        end
    end
  else create ownerId
  end
  end.

(** [app.delete("/api/offices/:id/members/:userId", ...)] *)
Definition delete_office_member (req : HttpRequest.t) : M S HttpResponse.t :=
  if negb (truthy (HttpRequest.session_userId req)) then
    ret (HttpResponse.mk 401 (Message "Not authenticated"))
  else
  let sessionUserId := default EmptyString (HttpRequest.session_userId req) in
  match HttpRequest.params_id req with
  | None => ret (HttpResponse.mk 400 (Message "Invalid office ID"))
  | Some officeId =>
  let* office := gets (getOfficeById officeId) in
  match office with
  | None => ret (HttpResponse.mk 404 (Message "Office not found"))
  | Some office =>
  let isOwner := bool_decide (EnrichedOffice.ownerId office = sessionUserId) in
  let* user := gets (getUserById sessionUserId) in
  match user with
  | None => ret (HttpResponse.mk 401 (Message "User not found"))
  | Some user =>
  let* isAdmin :=
    if negb (User.isAdmin user) && negb isOwner then check_admin_role user
    else ret (User.isAdmin user) in
  if negb isAdmin && negb isOwner then
    ret (HttpResponse.mk 403 (Message "Insufficient permissions"))
  else
  if negb (truthy (HttpRequest.params_userId req)) then
    ret (HttpResponse.mk 400 (Message "User ID is required"))
  else
  let userId := default EmptyString (HttpRequest.params_userId req) in
  if bool_decide (userId = EnrichedOffice.ownerId office) then
    ret (HttpResponse.mk 400 (Message "Cannot remove the office owner"))
  else
  let* isMember := gets (isOfficeMember officeId userId) in
  if negb isMember then
    ret (HttpResponse.mk 404 (Message "User is not a member of this office"))
  else
    removeOfficeMember officeId userId ;;
    ret (HttpResponse.mk 204 NoContent)
  end
  end
  end.

End Routes.

(** ** Histories of storage calls *)

(** The calls of the interface that change the storage. *)
Inductive Call :=
  | CreateUser (user : InsertUser.t)
  | UpdateUser (id : string) (updates : UserUpdates.t)
  | CreateOffice (office : InsertOffice.t)
  | DeleteOffice (id : Z)
  | AddOfficeMember (member : InsertOfficeMember.t)
  | RemoveOfficeMember (officeId : Z) (userId : string).

Definition run_call {S} {storage : IStorage S} (c : Call) : M S unit :=
  match c with
  | CreateUser user => createUser user ;; ret tt
  | UpdateUser id updates => updateUser id updates ;; ret tt
  | CreateOffice office => createOffice office ;; ret tt
  | DeleteOffice id => deleteOffice id
  | AddOfficeMember member => addOfficeMember member ;; ret tt
  | RemoveOfficeMember officeId userId => removeOfficeMember officeId userId
  end.

(** The world after a list of calls. *)
Definition run_calls {S} {storage : IStorage S} (cs : list Call)
    (w : World S) : World S :=
  foldl (λ w c, (run_call c w).2) w cs.

(** The worlds a storage object can be in: it starts as [init], any call
    may follow (a call that throws keeps what it did before), and the
    clock moves between calls. *)
Inductive reachable {S} (storage : IStorage S) (init : S) : World S → Prop :=
  | reachable_init t : reachable storage init (mkWorld init [] t)
  | reachable_call w c :
      reachable storage init w → reachable storage init (run_call c w).2
  | reachable_tick w t :
      reachable storage init w →
      reachable storage init (mkWorld (store w) (sent w) t).

(** ** Relations between the world before and after a computation *)

(** Computation [m] takes every world to a world related to it by [R],
    whether it returns or throws. *)
Definition transforms {S A} (R : relation (World S)) (m : M S A) : Prop :=
  ∀ w, R w (m w).2.

(** The storage object keeps property [I]. *)
Definition keeps {S} (I : S → Prop) : relation (World S) :=
  λ w w', I (store w) → I (store w').

(** The requests sent on top of those of the first world all satisfy
    [P]. *)
Definition sends {S} (P : Request.t → Prop) : relation (World S) :=
  λ w w', ∃ new, sent w' = sent w ++ new ∧ Forall P new.

(** ** Properties of membership rows *)

(** Row [m] is a membership of user [u] in office [o]. *)
Definition membership_of (o : Z) (u : string) (m : OfficeMember.t) : bool :=
  bool_decide (OfficeMember.officeId m = o)
  && bool_decide (OfficeMember.userId m = u).

(** A user belongs to an office at most once. *)
Definition membership_unique (rows : list OfficeMember.t) : Prop :=
  ∀ o u, (length (List.filter (membership_of o u) rows) ≤ 1)%nat.

(** The rows of office [o], and those of them that are flagged as owner. *)
Definition rows_of_office (o : Z) (rows : list OfficeMember.t)
  : list OfficeMember.t :=
  List.filter (λ m, bool_decide (OfficeMember.officeId m = o)) rows.
Definition owner_rows (o : Z) (rows : list OfficeMember.t)
  : list OfficeMember.t :=
  List.filter (λ m, bool_decide (OfficeMember.officeId m = o)
                    && OfficeMember.isOwner m) rows.

(** User [u] holds a membership in office [o]. *)
Definition holds_membership (u : string) (o : Z)
    (rows : list OfficeMember.t) : bool :=
  existsb (membership_of o u) rows.

(** The offices the specification lists as available to [u]: those that are
    not private and those in which [u] holds a membership. *)
Definition available_to (u : string) (rows : list OfficeMember.t)
    (office : Office.t) : bool :=
  negb (Office.isPrivate office) || holds_membership u (Office.id office) rows.

(** Every entry of the membership map of the memory store sits under the
    key of its own pair and no key occurs twice. *)
Definition keys_consistent (m : list (string * OfficeMember.t)) : Prop :=
  Forall (λ e, e.1 = MemStorage.member_key (OfficeMember.officeId e.2)
                                           (OfficeMember.userId e.2)) m
  ∧ NoDup (JsMap.keys m).
Definition mem_keys_consistent (s : MemStorage.t) : Prop :=
  keys_consistent (MemStorage.officeMembers s).

(** The serial ids of the membership rows of the database are pairwise
    distinct. *)
Definition db_member_ids_unique (d : Db.t) : Prop :=
  NoDup (OfficeMember.id <$> Db.officeMembers d).

(** The ids of the rows of the database are below the sequences that
    produce them. *)
Definition Db_ids_fresh (d : Db.t) : Prop :=
  Forall (λ o, Office.id o < Db.offices_id_seq d) (Db.offices d)
  ∧ Forall (λ m, OfficeMember.id m < Db.office_members_id_seq d)
           (Db.officeMembers d).

(** ** Properties of requests *)

(** A request that creates a channel and denies CONNECT and SPEAK to the
    [@everyone] role, whose id is the id of the guild. *)
Definition denies_everyone (env : Env.t) (r : Request.t) : Prop :=
  match Request.body r with
  | ChannelBody p =>
      ∃ ow, ow ∈ ChannelPayload.permission_overwrites p
            ∧ PermissionOverwrite.id ow = Env.GUILD_ID env
            ∧ PermissionOverwrite.type ow = 0
            ∧ PermissionOverwrite.allow ow = pretty 0
            ∧ PermissionOverwrite.deny ow = pretty (Z.lor CONNECT SPEAK)
  | _ => False
  end.

(** What is asked of the requests a storage call sends: one that posts is
    a channel creation that denies everyone. *)
Definition posts_deny (env : Env.t) (r : Request.t) : Prop :=
  Request.method r = "POST" → denies_everyone env r.


(** ** Worlds after a call *)

(** The world after request [r] went out. *)
Definition log_request {S} (r : Request.t) (w : World S) : World S :=
  mkWorld (store w) (sent w ++ [r]) (now w).

(** The permission update a storage method sends for [userId] when the
    office has the voice channel [channel], as it leaves
    [updateChannelPermissions] called with [allow] and [deny]. *)
Definition permission_requests (env : Env.t) (channel : option string)
    (userId : string) (allow deny : option Z) : list Request.t :=
  if truthy channel then
    [permissions_request env (default EmptyString channel) userId
       (num_or (default 0 allow) 3145728) (default 0 deny)]
  else [].

(** The voice channel of an office, if the office exists and has one. *)
Definition channel_of (office : option EnrichedOffice.t) : option string :=
  match office with
  | Some office => EnrichedOffice.voiceChannelId office
  | None => None
  end.

(** The membership [createOffice] adds for the owner. *)
Definition owner_member (id : Z) (ownerId : string) : InsertOfficeMember.t :=
  {| InsertOfficeMember.officeId := id;
     InsertOfficeMember.userId := ownerId;
     InsertOfficeMember.isOwner := Some true |}.

(** The office [MemStorage.createOffice] stores first, under the id [id]
    at time [t], and the row [MemStorage.addOfficeMember] stores at time
    [t]. *)
Definition mem_office (office : InsertOffice.t) (id t : Z) : Office.t :=
  {| Office.id := id;
     Office.name := InsertOffice.name office;
     Office.description := or_null (InsertOffice.description office);
     Office.isPrivate := or_false (InsertOffice.isPrivate office);
     Office.ownerId := InsertOffice.ownerId office;
     Office.status := "active";
     Office.createdAt := t;
     Office.voiceChannelId := None |}.
Definition mem_row (member : InsertOfficeMember.t) (t : Z) : OfficeMember.t :=
  {| OfficeMember.id := 0;
     OfficeMember.officeId := InsertOfficeMember.officeId member;
     OfficeMember.userId := InsertOfficeMember.userId member;
     OfficeMember.isOwner := or_false (InsertOfficeMember.isOwner member);
     OfficeMember.joinedAt := t |}.

Definition db_row (member : InsertOfficeMember.t) (id t : Z)
  : OfficeMember.t :=
  {| OfficeMember.id := id;
     OfficeMember.officeId := InsertOfficeMember.officeId member;
     OfficeMember.userId := InsertOfficeMember.userId member;
     OfficeMember.isOwner := default false (InsertOfficeMember.isOwner member);
     OfficeMember.joinedAt := t |}.

(** [select * from offices where id = ...], first row. *)
Definition db_office_row (id : Z) (d : Db.t) : option Office.t :=
  head (List.filter (λ o, bool_decide (Office.id o = id)) (Db.offices d)).

(** ** Concrete worlds used to run the code *)

Module Fixtures.

(** A network on which every request succeeds and a created channel gets
    the id [C1], and one on which every request fails. *)
Definition network_up : list Request.t → Request.t → option Response.t :=
  λ _ _, Some (Response.mk true 200 "OK" (Some (JChannel "C1")) EmptyString).
Definition network_down : list Request.t → Request.t → option Response.t :=
  λ _ _, None.

Definition env_up : Env.t := Env.mk "token" "G" None (Some "R") network_up.
Definition env_down : Env.t := Env.mk "token" "G" None (Some "R") network_down.

Definition admin : User.t :=
  User.mk "U1" "alice" "0001" None true None None None.
Definition bob : User.t :=
  User.mk "U2" "bob" "0002" None false None None None.

Definition alpha : InsertOffice.t :=
  InsertOffice.mk "Alpha" None (Some true) "U1".

(** A database and a memory store that hold the user [U1] and nothing
    else. *)
Definition db_one_user : World Db.t :=
  mkWorld (Db.mk [admin] [] [] 1 1) [] 100.
Definition mem_one_user : World MemStorage.t :=
  mkWorld (MemStorage.mk [("U1", admin)] [] [] 1) [] 100.

(** An admin posts the office [alpha]. *)
Definition post_alpha : HttpRequest.t :=
  HttpRequest.mk (Some "U1") None None (Some alpha).

(** Office 1 has the voice channel [C1]; [U1] owns it and [U2] is a
    member. *)
Definition office1 : Office.t :=
  Office.mk 1 "Alpha" None true "U1" "active" 100 (Some "C1").
Definition row (id officeId : Z) (userId : string) (isOwner : bool)
  : OfficeMember.t :=
  OfficeMember.mk id officeId userId isOwner 100.
Definition mem_office1 : World MemStorage.t :=
  mkWorld (MemStorage.mk [("U1", admin); ("U2", bob)] [(1, office1)]
             [("1:U1", row 0 1 "U1" true); ("1:U2", row 0 1 "U2" false)] 2)
          [] 200.
Definition db_office1 : World Db.t :=
  mkWorld (Db.mk [admin; bob] [office1]
             [row 1 1 "U1" true; row 2 1 "U2" false] 2 3)
          [] 200.

(** Office 1 is owned by [ghost], who has a membership row but no user
    record: what posting an office with an unknown owner id leaves in the
    memory store. *)
Definition ghost_office : Office.t :=
  Office.mk 1 "Haunted" None true "ghost" "active" 100 None.
Definition mem_ghost : World MemStorage.t :=
  mkWorld (MemStorage.mk [("U1", admin)] [(1, ghost_office)]
             [("1:ghost", row 0 1 "ghost" true)] 2)
          [] 200.

(** [U2] owns the public office 1, which [U1] joined; [U1] owns office 2. *)
Definition lobby : Office.t :=
  Office.mk 1 "Lobby" None false "U2" "active" 100 None.
Definition den : Office.t :=
  Office.mk 2 "Den" None true "U1" "active" 100 None.
Definition mem_two_offices : World MemStorage.t :=
  mkWorld (MemStorage.mk [("U1", admin); ("U2", bob)]
             [(1, lobby); (2, den)]
             [("1:U2", row 0 1 "U2" true); ("1:U1", row 0 1 "U1" false);
              ("2:U1", row 0 2 "U1" true)] 3)
          [] 200.
Definition db_two_offices : World Db.t :=
  mkWorld (Db.mk [admin; bob] [lobby; den]
             [row 1 1 "U2" true; row 2 1 "U1" false; row 3 2 "U1" true] 3 4)
          [] 200.

(** The owner of office 1 is asked to be removed from it. *)
Definition remove_owner : HttpRequest.t :=
  HttpRequest.mk (Some "U1") (Some 1) (Some "U1") None.

End Fixtures.

(** ** The other route handlers of [server/routes.ts]

    The handlers that rename an office and that search the members of the
    guild are not embedded: the first calls [storage.updateOffice], the
    second compares strings through [toLowerCase]. *)

(** What [GET /api/auth/me] answers about the caller. *)
Module Me.
Record t := mk {
  id : string;
  username : string;
  discriminator : string;
  avatar : option string;
  isAdmin : bool;
  hasOffice : bool
}.
End Me.

(** The answers of the handlers that describe the caller or list offices:
    [res.status(status).json({ message })] and [res.json(...)]. *)
Inductive Listing :=
  | Refused (status : Z) (message : string)
  | MeJson (me : Me.t)
  | OfficeList (offices : list EnrichedOffice.t).

(** [{ isAdmin }] as a [Partial<User>]. *)
Definition isAdmin_update (isAdmin : bool) : UserUpdates.t :=
  UserUpdates.mk None None None None (Some isAdmin) None None None.

Section MoreRoutes.
Variable env : Env.t.
Context {S : Type} {storage : IStorage S}.

(** [app.get("/api/auth/me", ...)].  The variable [isAdmin] is assigned
    before [storage.updateUser] is awaited, so that it keeps the value
    found on Discord when the update throws; when the lookup itself
    throws it keeps [user.isAdmin]. *)
Definition get_auth_me (req : HttpRequest.t) : M S Listing :=
  if negb (truthy (HttpRequest.session_userId req)) then
    ret (Refused 401 "Not authenticated")
  else
  let sessionUserId := default EmptyString (HttpRequest.session_userId req) in
  let* user := gets (getUserById sessionUserId) in
  match user with
  | None => ret (Refused 401 "User not found")
  | Some user =>
  let* isAdmin :=
    if negb (User.isAdmin user) && truthy (Some (User.id user)) then
      try_catch
        (let* member := getGuildMember env (User.id user) in
         match member with
         | Some member =>
             if truthy (Env.ADMIN_ROLE env) then
               let isAdmin :=
                 bool_decide (default EmptyString (Env.ADMIN_ROLE env)
                                ∈ getMemberRoles member) in
               (if negb (Bool.eqb isAdmin (User.isAdmin user)) then
                  try_catch
                    (updateUser (User.id user) (isAdmin_update isAdmin) ;;
                     ret tt)
                    (λ _, ret tt)
                else ret tt) ;;
               ret isAdmin
             else ret (User.isAdmin user)
         | None => ret (User.isAdmin user)
         end)
        (λ _, ret (User.isAdmin user))
    else ret (User.isAdmin user) in
  let* hasOffice := gets (userHasOffice (User.id user)) in
  ret (MeJson
         {| Me.id := User.id user;
            Me.username := User.username user;
            Me.discriminator := User.discriminator user;
            Me.avatar := User.avatar user;
            Me.isAdmin := isAdmin;
            Me.hasOffice := hasOffice |})
  end.

(** [app.get("/api/offices", ...)] *)
Definition get_offices (req : HttpRequest.t) : M S Listing :=
  if negb (truthy (HttpRequest.session_userId req)) then
    ret (Refused 401 "Not authenticated")
  else
  let sessionUserId := default EmptyString (HttpRequest.session_userId req) in
  let* user := gets (getUserById sessionUserId) in
  match user with
  | None => ret (Refused 401 "User not found")
  | Some user =>
  let* isAdmin :=
    if User.isAdmin user then ret true else check_admin_role env user in
  if negb isAdmin then ret (Refused 403 "Insufficient permissions")
  else
    let* offices := gets getAllOffices in
    ret (OfficeList offices)
  end.

(** [app.get("/api/offices/me", ...)] *)
Definition get_offices_me (req : HttpRequest.t) : M S HttpResponse.t :=
  if negb (truthy (HttpRequest.session_userId req)) then
    ret (HttpResponse.mk 401 (Message "Not authenticated"))
  else
  let sessionUserId := default EmptyString (HttpRequest.session_userId req) in
  let* office := gets (getUserOffice sessionUserId) in
  match office with
  | None => ret (HttpResponse.mk 404 (Message "No office found"))
  | Some office => ret (HttpResponse.mk 200 (OfficeJson office))
  end.

(** [app.get("/api/offices/available", ...)] *)
Definition get_offices_available (req : HttpRequest.t) : M S Listing :=
  if negb (truthy (HttpRequest.session_userId req)) then
    ret (Refused 401 "Not authenticated")
  else
  let sessionUserId := default EmptyString (HttpRequest.session_userId req) in
  let* offices := gets (getAvailableOffices sessionUserId) in
  ret (OfficeList offices).

(** [app.delete("/api/offices/:id", ...)] *)
Definition delete_office (req : HttpRequest.t) : M S HttpResponse.t :=
  if negb (truthy (HttpRequest.session_userId req)) then
    ret (HttpResponse.mk 401 (Message "Not authenticated"))
  else
  let sessionUserId := default EmptyString (HttpRequest.session_userId req) in
  match HttpRequest.params_id req with
  | None => ret (HttpResponse.mk 400 (Message "Invalid office ID"))
  | Some officeId =>
  let* office := gets (getOfficeById officeId) in
  match office with
  | None => ret (HttpResponse.mk 404 (Message "Office not found"))
  | Some office =>
  let* user := gets (getUserById sessionUserId) in
  match user with
  | None => ret (HttpResponse.mk 401 (Message "User not found"))
  | Some user =>
  let* isAdmin :=
    if User.isAdmin user then ret true else check_admin_role env user in
  let isOwner := bool_decide (EnrichedOffice.ownerId office = User.id user) in
  if negb isAdmin && negb isOwner then
    ret (HttpResponse.mk 403 (Message "Insufficient permissions"))
  else
    deleteOffice officeId ;;
    ret (HttpResponse.mk 204 NoContent)
  end
  end
  end.

(** [app.post("/api/offices/:id/join", ...)] *)
Definition post_office_join (req : HttpRequest.t) : M S HttpResponse.t :=
  if negb (truthy (HttpRequest.session_userId req)) then
    ret (HttpResponse.mk 401 (Message "Not authenticated"))
  else
  let sessionUserId := default EmptyString (HttpRequest.session_userId req) in
  match HttpRequest.params_id req with
  | None => ret (HttpResponse.mk 400 (Message "Invalid office ID"))
  | Some officeId =>
  let* office := gets (getOfficeById officeId) in
  match office with
  | None => ret (HttpResponse.mk 404 (Message "Office not found"))
  | Some office =>
  if EnrichedOffice.isPrivate office then
    ret (HttpResponse.mk 403
           (Message "Cannot join a private office without an invitation"))
  else
  let* isMember := gets (isOfficeMember officeId sessionUserId) in
  if isMember then
    ret (HttpResponse.mk 400
           (Message "You are already a member of this office"))
  else
    addOfficeMember
      {| InsertOfficeMember.officeId := officeId;
         InsertOfficeMember.userId := sessionUserId;
         InsertOfficeMember.isOwner := Some false |} ;;
    ret (HttpResponse.mk 200 (Message "Successfully joined the office"))
  end
  end.

(** [app.post("/api/offices/:id/invite", ...)]; [body_userId] is
    [req.body.userId], [None] when the body has none. *)
Definition post_office_invite (req : HttpRequest.t)
    (body_userId : option string) : M S HttpResponse.t :=
  if negb (truthy (HttpRequest.session_userId req)) then
    ret (HttpResponse.mk 401 (Message "Not authenticated"))
  else
  let sessionUserId := default EmptyString (HttpRequest.session_userId req) in
  match HttpRequest.params_id req with
  | None => ret (HttpResponse.mk 400 (Message "Invalid office ID"))
  | Some officeId =>
  let* office := gets (getOfficeById officeId) in
  match office with
  | None => ret (HttpResponse.mk 404 (Message "Office not found"))
  | Some office =>
  let isOwner := bool_decide (EnrichedOffice.ownerId office = sessionUserId) in
  let* user := gets (getUserById sessionUserId) in
  match user with
  | None => ret (HttpResponse.mk 401 (Message "User not found"))
  | Some user =>
  let* isAdmin :=
    if negb (User.isAdmin user) && negb isOwner then check_admin_role env user
    else ret (User.isAdmin user) in
  if negb isAdmin && negb isOwner then
    ret (HttpResponse.mk 403 (Message "Insufficient permissions"))
  else
  if negb (truthy body_userId) then
    ret (HttpResponse.mk 400 (Message "User ID is required"))
  else
  let userId := default EmptyString body_userId in
  let* targetUser := gets (getUserById userId) in
  match targetUser with
  | None => ret (HttpResponse.mk 404 (Message "Target user not found"))
  | Some _ =>
  let* isMember := gets (isOfficeMember officeId userId) in
  if isMember then
    ret (HttpResponse.mk 400
           (Message "User is already a member of this office"))
  else
    addOfficeMember
      {| InsertOfficeMember.officeId := officeId;
         InsertOfficeMember.userId := userId;
         InsertOfficeMember.isOwner := Some false |} ;;
    ret (HttpResponse.mk 200 (Message "User invited to the office"))
  end
  end
  end
  end.

End MoreRoutes.

(** ** More requests and worlds after a call *)

(** The request [deleteVoiceChannel] sends. *)
Definition delete_channel_request (env : Env.t) (channelId : string)
  : Request.t :=
  Request.mk "DELETE" ("https://discord.com/api/channels/" +:+ channelId)
             (bot_headers env) NoBody.

(** The permission updates [removeOfficeMember] sends for the users
    [users], one after the other, when the office has the voice channel
    [channel]. *)
Definition revoke_requests (env : Env.t) (channel : option string)
    (users : list string) : list Request.t :=
  users ≫= (λ u, permission_requests env channel u (Some 0) (Some 3145728)).

(** The request that deletes the voice channel [channel], if there is
    one. *)
Definition delete_channel_requests (env : Env.t) (channel : option string)
  : list Request.t :=
  if truthy channel then
    [delete_channel_request env (default EmptyString channel)]
  else [].

(** The call [createVoiceChannel name categoryId] returns [channelId] when
    made after the requests [log]. *)
Definition createChannel_returns (env : Env.t) (log : list Request.t)
    (name : string) (categoryId : option string)
    (channelId : option string) : Prop :=
  (createVoiceChannel env name categoryId (mkWorld tt log 0)).1
  = Returned channelId.

(** ** Properties of office rows *)

(** Every office of the memory store sits under its own id, and the ids
    in use are below the counter that produces them. *)
Definition mem_offices_fresh (s : MemStorage.t) : Prop :=
  Forall (λ e, e.1 = Office.id e.2 ∧ e.1 < MemStorage.currentOfficeId s)
         (MemStorage.offices s).

(** The serial ids of the office rows of the database are pairwise
    distinct. *)
Definition db_office_ids_unique (d : Db.t) : Prop :=
  NoDup (Office.id <$> Db.offices d).

(** The rows [old] of the table of offices are still there, in their
    order, followed by at most one row, which carries the id [next]. *)
Definition appended_to (old : list Office.t) (next : Z) (d : Db.t) : Prop :=
  ∃ extra, Db.offices d = old ++ extra
           ∧ Forall (λ o, Office.id o = next) extra
           ∧ (length extra ≤ 1)%nat.

(** The voice channel [createOffice] records for an office named [name]
    when it is called after the requests [log]: the id the gateway
    returned, and none when the gateway threw. *)
Definition created_channel (env : Env.t) (log : list Request.t)
    (name : string) : option string :=
  match (createVoiceChannel env ("Office-" +:+ name) (Env.VC_CATEGORY_ID env)
           (mkWorld tt log 0)).1 with
  | Returned channelId => channelId
  | Thrown _ => None
  end.

(** The request [getGuildMember] sends. *)
Definition guild_member_request (env : Env.t) (userId : string) : Request.t :=
  Request.mk "GET"
    ("https://discord.com/api/guilds/" +:+ Env.GUILD_ID env
       +:+ "/members/" +:+ userId)
    (bot_headers env) NoBody.

(** Discord, asked after the requests [log], answers that [userId] is a
    member of the guild who has the role [role]. *)
Definition discord_lists_role (env : Env.t) (log : list Request.t)
    (userId role : string) : Prop :=
  ∃ resp j,
    Env.network env log (guild_member_request env userId) = Some resp
    ∧ Response.status resp ≠ 404
    ∧ Response.ok resp = true
    ∧ Response.json resp = Some j
    ∧ role ∈ DiscordGuildMember.roles (as_member j).

(** ** Properties of requests to the server *)

(** The session of the request names no stored user: it carries no user
    id, or the id has no record. *)
Definition no_stored_user {S} {storage : IStorage S} (req : HttpRequest.t)
    (s : S) : Prop :=
  truthy (HttpRequest.session_userId req) = false
  ∨ getUserById (default EmptyString (HttpRequest.session_userId req)) s
    = None.

(** The admin check of the handlers that need an admin: the stored flag,
    and the look-up on Discord when the flag is not set. *)
Definition admin_check (env : Env.t) {S} (user : User.t) : M S bool :=
  if User.isAdmin user then ret true else check_admin_role env user.

(** Every membership of the memory store belongs to a user who has a
    record. *)
Definition mem_members_known (s : MemStorage.t) : Prop :=
  Forall (λ e, is_Some (MemStorage.getUserById (OfficeMember.userId e.2) s))
         (MemStorage.officeMembers s).

(** The membership a user gets by joining or by being invited. *)
Definition plain_member (officeId : Z) (userId : string)
  : InsertOfficeMember.t :=
  {| InsertOfficeMember.officeId := officeId;
     InsertOfficeMember.userId := userId;
     InsertOfficeMember.isOwner := Some false |}.

(** What [GET /api/auth/me] answers about [user]. *)
Definition me_json (user : User.t) (isAdmin hasOffice : bool) : Listing :=
  MeJson {| Me.id := User.id user; Me.username := User.username user;
            Me.discriminator := User.discriminator user;
            Me.avatar := User.avatar user; Me.isAdmin := isAdmin;
            Me.hasOffice := hasOffice |}.

(** Every office row of the database has its owner among the users, and
    every membership row has its office among the offices and its user
    among the users. *)
Definition db_references_hold (d : Db.t) : Prop :=
  Forall (λ o, Db.has_user (Office.ownerId o) d = true) (Db.offices d)
  ∧ Forall (λ m, Db.has_office (OfficeMember.officeId m) d = true
                 ∧ Db.has_user (OfficeMember.userId m) d = true)
           (Db.officeMembers d).

(** ** More concrete worlds *)

Module Scenarios.

(** A network on which Discord answers every request with a guild member
    who has the role [R]. *)
Definition network_admin : list Request.t → Request.t → option Response.t :=
  λ _ _, Some (Response.mk true 200 "OK"
                 (Some (JMember (DiscordGuildMember.mk None None ["R"])))
                 EmptyString).
Definition env_admin : Env.t :=
  Env.mk "token" "G" None (Some "R") network_admin.

(** [U2], who is stored without the admin flag, asks who they are. *)
Definition who_am_i : HttpRequest.t :=
  HttpRequest.mk (Some "U2") None None None.

(** A network on which Discord answers the first request with the one
    member of the guild, [carol#0003], and every later request with the
    channel [C1]. *)
Definition carol : DiscordUser.t := DiscordUser.mk "U3" "carol" "0003" None.
Definition network_guild : list Request.t → Request.t → option Response.t :=
  λ sent _,
    match sent with
    | [] =>
        Some (Response.mk true 200 "OK"
                (Some (JMembers [DiscordGuildMember.mk (Some carol) None []]))
                EmptyString)
    | _ => Some (Response.mk true 200 "OK" (Some (JChannel "C1")) EmptyString)
    end.
Definition env_guild : Env.t := Env.mk "token" "G" None (Some "R") network_guild.

(** [U1] and [U2] are stored, [U1] gets the private office [Alpha] and
    [U2] is added to it.  Then [U2] is added a second time, or gets the
    public office [Beta]. *)
Definition alice : InsertUser.t :=
  InsertUser.mk "U1" "alice" "0001" None (Some true) None None None.
Definition bob : InsertUser.t :=
  InsertUser.mk "U2" "bob" "0002" None None None None None.
Definition joined_once : list Call :=
  [CreateUser alice; CreateUser bob; CreateOffice Fixtures.alpha;
   AddOfficeMember (InsertOfficeMember.mk 1 "U2" None)].
Definition joined_twice : list Call :=
  joined_once ++ [AddOfficeMember (InsertOfficeMember.mk 1 "U2" None)].
Definition joined_and_owns : list Call :=
  joined_once ++ [CreateOffice (InsertOffice.mk "Beta" None (Some false) "U2")].

(** An admin posts an office for [carol#0003]. *)
Definition post_for_carol : HttpRequest.t :=
  HttpRequest.mk (Some "U1") None None
    (Some (InsertOffice.mk "Studio" None None "carol#0003")).

End Scenarios.

(** The request [fetchGuildMembers] sends. *)
Definition guild_members_request (env : Env.t) : Request.t :=
  Request.mk "GET"
    ("https://discord.com/api/guilds/" +:+ Env.GUILD_ID env
       +:+ "/members?limit=1000")
    (bot_headers env) NoBody.

(** The user record [POST /api/offices] creates for an owner it found on
    Discord and not in the storage. *)
Definition owner_record (u : DiscordUser.t) : InsertUser.t :=
  {| InsertUser.id := DiscordUser.id u;
     InsertUser.username := DiscordUser.username u;
     InsertUser.discriminator := DiscordUser.discriminator u;
     InsertUser.avatar := DiscordUser.avatar u;
     InsertUser.isAdmin := Some false;
     InsertUser.accessToken := None;
     InsertUser.refreshToken := None;
     InsertUser.tokenExpiry := None |}.

(** * Properties *)

(** ** The monad *)

Ltac run := cbv [bind ret gets modify try_catch throw new_Date].

Section MonadEquations.
Context {S A B : Type}.
Implicit Types (w : World S) (k : A → M S B).

Lemma bind_ret a k w : bind (ret a) k w = k a w.
Proof. done. Qed.
Lemma bind_gets (f : S → A) k w : bind (gets f) k w = k (f (store w)) w.
Proof. done. Qed.
Lemma bind_modify (f : S → S) (k : unit → M S B) w :
  bind (modify f) k w = k tt (mkWorld (f (store w)) (sent w) (now w)).
Proof. done. Qed.
Lemma bind_returned (m : M S A) k w a w' :
  m w = (Returned a, w') → bind m k w = k a w'.
Proof. unfold bind. by intros ->. Qed.
Lemma bind_thrown (m : M S A) k w e w' :
  m w = (Thrown e, w') → bind m k w = (Thrown e, w').
Proof. unfold bind. by intros ->. Qed.
End MonadEquations.

(** ** The insertion-ordered map *)

Section JsMapFacts.
Context {K V : Type} `{EqDecision K}.
Implicit Types (m : list (K * V)) (k : K) (v : V).

Lemma get_set_eq k v m : JsMap.get k (JsMap.set k v m) = Some v.
Proof.
  induction m as [|[k' v'] r IH]; simpl.
  - by rewrite decide_True.
  - destruct (decide (k = k')) as [->|Hne]; simpl.
    + by rewrite decide_True.
    + by rewrite decide_False.
Qed.

Lemma get_set_ne k k' v m :
  k ≠ k' → JsMap.get k' (JsMap.set k v m) = JsMap.get k' m.
Proof.
  intros Hne. induction m as [|[k0 v0] r IH]; simpl.
  - by rewrite decide_False.
  - destruct (decide (k = k0)) as [->|Hne0]; simpl.
    + by rewrite !decide_False.
    + by rewrite IH.
Qed.

Lemma get_delete_eq k m : JsMap.get k (JsMap.delete k m) = None.
Proof.
  induction m as [|[k' v'] r IH]; simpl; [done|].
  destruct (decide (k = k')); simpl; [done|]. by rewrite decide_False.
Qed.

Lemma get_delete_ne k k' m :
  k ≠ k' → JsMap.get k' (JsMap.delete k m) = JsMap.get k' m.
Proof.
  intros Hne. induction m as [|[k0 v0] r IH]; simpl; [done|].
  destruct (decide (k = k0)) as [->|Hne0]; simpl.
  - by rewrite decide_False.
  - by rewrite IH.
Qed.

Lemma get_None_keys k m : JsMap.get k m = None ↔ k ∉ JsMap.keys m.
Proof.
  unfold JsMap.keys. induction m as [|[k' v'] r IH]; simpl.
  - split; [intros _; apply not_elem_of_nil|done].
  - rewrite not_elem_of_cons. destruct (decide (k = k')) as [->|Hne].
    + split; [done|]. by intros [? _].
    + rewrite IH. tauto.
Qed.

Lemma has_true_keys k m : JsMap.has k m = true ↔ k ∈ JsMap.keys m.
Proof.
  unfold JsMap.has. pose proof (get_None_keys k m) as Hn.
  destruct (JsMap.get k m).
  - split; [|done]. intros _. destruct (decide (k ∈ JsMap.keys m)); [done|].
    by apply Hn in n.
  - split; [done|]. intros Hin. by apply Hn in Hin.
Qed.

(** Setting a key that is present changes neither the keys nor their
    order. *)
Lemma keys_set_present k v m :
  k ∈ JsMap.keys m → JsMap.keys (JsMap.set k v m) = JsMap.keys m.
Proof.
  unfold JsMap.keys. induction m as [|[k' v'] r IH]; simpl.
  - by intros ?%elem_of_nil.
  - intros Hin. destruct (decide (k = k')) as [->|Hne]; simpl; [done|].
    f_equal. apply IH. apply elem_of_cons in Hin as [?|?]; done.
Qed.

Lemma keys_set_absent k v m :
  k ∉ JsMap.keys m → JsMap.keys (JsMap.set k v m) = JsMap.keys m ++ [k].
Proof.
  unfold JsMap.keys. induction m as [|[k' v'] r IH]; simpl; [done|].
  rewrite not_elem_of_cons. intros [Hne Hnin].
  rewrite decide_False by done. simpl. f_equal. by apply IH.
Qed.

Lemma length_set_present k v m :
  k ∈ JsMap.keys m → length (JsMap.set k v m) = length m.
Proof.
  intros Hin. rewrite <- (length_fmap fst (JsMap.set k v m)).
  rewrite <- (length_fmap fst m). f_equal. by apply keys_set_present.
Qed.

Lemma NoDup_keys_set k v m :
  NoDup (JsMap.keys m) → NoDup (JsMap.keys (JsMap.set k v m)).
Proof.
  intros Hnd. destruct (decide (k ∈ JsMap.keys m)).
  - by rewrite keys_set_present.
  - rewrite keys_set_absent by done. apply list.NoDup_app. split; [done|].
    split; [|apply NoDup_singleton].
    intros x Hx ->%list_elem_of_singleton. done.
Qed.

Lemma elem_of_set k v m e :
  e ∈ JsMap.set k v m → e = (k, v) ∨ e ∈ m.
Proof.
  induction m as [|[k' v'] r IH]; simpl.
  - intros ->%list_elem_of_singleton. by left.
  - destruct (decide (k = k')).
    + intros [->|?]%elem_of_cons; [by left|]. right. by right.
    + intros [->|?]%elem_of_cons; [right; left|].
      destruct IH as [?|?]; auto. right. by right.
Qed.

Lemma delete_sublist k m : JsMap.delete k m `sublist_of` m.
Proof.
  induction m as [|[k' v'] r IH]; simpl; [done|].
  destruct (decide (k = k')).
  - by apply sublist_cons.
  - by apply sublist_skip.
Qed.

Lemma NoDup_keys_delete k m :
  NoDup (JsMap.keys m) → NoDup (JsMap.keys (JsMap.delete k m)).
Proof.
  intros Hnd. eapply sublist_NoDup; [exact Hnd|].
  unfold JsMap.keys. apply fmap_sublist, delete_sublist.
Qed.

Lemma set_set k v v' m :
  JsMap.set k v' (JsMap.set k v m) = JsMap.set k v' m.
Proof.
  induction m as [|[k0 v0] r IH]; simpl.
  - by rewrite decide_True.
  - destruct (decide (k = k0)) as [->|Hne]; simpl.
    + by rewrite decide_True.
    + rewrite decide_False by done. by rewrite IH.
Qed.

Lemma filter_values_set (p : V → bool) k v m :
  Forall (λ x, p x = false) (JsMap.values m) → p v = true →
  List.filter p (JsMap.values (JsMap.set k v m)) = [v].
Proof.
  unfold JsMap.values. intros Hm Hv.
  induction m as [|[k0 v0] r IH]; simpl.
  - by rewrite Hv.
  - rewrite fmap_cons in Hm. apply list.Forall_cons in Hm as [H0 Hr].
    simpl in H0. destruct (decide (k = k0)) as [->|Hne].
    + rewrite fmap_cons. cbn [List.filter snd]. rewrite Hv. f_equal.
      clear IH. induction r as [|[k1 v1] r IH]; [done|].
      rewrite fmap_cons in Hr. apply list.Forall_cons in Hr as [H1 Hr].
      rewrite fmap_cons. cbn [List.filter snd] in *. rewrite H1. auto.
    + rewrite fmap_cons. cbn [List.filter snd]. rewrite H0. auto.
Qed.

End JsMapFacts.

(** ** The gateway *)

Section DiscordFacts.
Variable env : Env.t.
Context {S : Type}.
Implicit Types w : World S.

Lemma fetch_world r w : (fetch env r w).2 = log_request r w.
Proof. unfold fetch. by destruct (Env.network env (sent w) r). Qed.

(** The outcome of a request does not depend on the storage object. *)
Lemma fetch_outcome r w :
  (fetch env r w).1 = (fetch env r (mkWorld tt (sent w) 0)).1.
Proof. unfold fetch. simpl. by destruct (Env.network env (sent w) r). Qed.

Lemma createVoiceChannel_world name categoryId w :
  (createVoiceChannel env name categoryId w).2
  = log_request (create_channel_request env name categoryId) w.
Proof.
  unfold createVoiceChannel, response_json. run.
  pose proof (fetch_world (create_channel_request env name categoryId) w) as Hf.
  destruct (fetch env (create_channel_request env name categoryId) w)
    as [[resp|e] w']; simpl in Hf; subst; [|done].
  destruct (negb (Response.ok resp)); [done|].
  by destruct (Response.json resp) as [[]|].
Qed.

Lemma createVoiceChannel_outcome name categoryId w :
  (createVoiceChannel env name categoryId w).1
  = (createVoiceChannel env name categoryId (mkWorld tt (sent w) 0)).1.
Proof.
  unfold createVoiceChannel, response_json. run.
  pose proof (fetch_outcome (create_channel_request env name categoryId) w)
    as Hf.
  destruct (fetch env (create_channel_request env name categoryId) w)
    as [[resp|e] w'];
  destruct (fetch env _ (mkWorld tt (sent w) 0)) as [[resp'|e'] w''];
    simpl in Hf; simplify_eq; [|done].
  destruct (negb (Response.ok resp')); [done|].
  by destruct (Response.json resp') as [[]|].
Qed.

Lemma updateChannelPermissions_world channelId userId allow deny w :
  (updateChannelPermissions env channelId userId allow deny w).2
  = log_request
      (permissions_request env channelId userId
         (num_or (default 0 allow) 3145728) (default 0 deny)) w.
Proof.
  unfold updateChannelPermissions. run.
  match goal with
  | |- context [fetch env ?r w] =>
      pose proof (fetch_world r w) as Hf;
      destruct (fetch env r w) as [[resp|e] w']
  end; simpl in Hf; subst; [|done].
  by destruct (negb (Response.ok resp)).
Qed.

Lemma deleteVoiceChannel_world channelId w :
  (deleteVoiceChannel env channelId w).2
  = log_request
      (Request.mk "DELETE" ("https://discord.com/api/channels/" +:+ channelId)
                  (bot_headers env) NoBody) w.
Proof.
  unfold deleteVoiceChannel. run.
  match goal with
  | |- context [fetch env ?r w] =>
      pose proof (fetch_world r w) as Hf;
      destruct (fetch env r w) as [[resp|e] w']
  end; simpl in Hf; subst; [|done].
  by destruct (negb (Response.ok resp)).
Qed.

(** A permission update inside [try ... catch], as the storage methods
    make it: whatever Discord answers, the method goes on. *)
Lemma try_permissions_run (channel : option string) userId allow deny w :
  try_catch
    (if truthy channel then
       updateChannelPermissions env (default EmptyString channel) userId allow deny
     else ret tt)
    (λ _, ret tt) w
  = (Returned tt,
     mkWorld (store w)
       (sent w ++ permission_requests env channel userId allow deny) (now w)).
Proof.
  unfold permission_requests, try_catch.
  destruct (truthy channel).
  - pose proof (updateChannelPermissions_world (default EmptyString channel) userId
                  allow deny w) as Hw.
    by destruct (updateChannelPermissions env _ userId allow deny w)
      as [[[]|e] w']; simpl in Hw; subst.
  - unfold ret. rewrite app_nil_r. by destruct w.
Qed.

End DiscordFacts.

(** ** The in-memory backend *)

Section MemStorageFacts.
Variable env : Env.t.
Implicit Types w : World MemStorage.t.

Lemma mem_addOfficeMember_run member w :
  let s' := MemStorage.set_officeMembers
              (JsMap.set (MemStorage.member_key
                            (InsertOfficeMember.officeId member)
                            (InsertOfficeMember.userId member))
                         (mem_row member (now w))) (store w) in
  MemStorage.addOfficeMember env member w
  = (Returned
       (EnrichedMember.mk (mem_row member (now w))
          (default (User.unknown (InsertOfficeMember.userId member))
                   (MemStorage.getUserById
                      (InsertOfficeMember.userId member) s'))),
     mkWorld s'
       (sent w ++ permission_requests env
          (channel_of (MemStorage.getOfficeById
                         (InsertOfficeMember.officeId member) s'))
          (InsertOfficeMember.userId member) None None)
       (now w)).
Proof.
  intros s'. unfold MemStorage.addOfficeMember.
  unfold bind at 1, new_Date at 1. unfold bind at 1, modify at 1.
  unfold bind at 1, gets at 1. unfold bind at 1. simpl store. fold s'.
  match goal with
  | |- context [try_catch ?m ?h ?w0] =>
      replace (try_catch m h w0) with
        (try_catch
           (if truthy (channel_of (MemStorage.getOfficeById
                         (InsertOfficeMember.officeId member) s'))
            then updateChannelPermissions env
                   (default EmptyString (channel_of (MemStorage.getOfficeById
                         (InsertOfficeMember.officeId member) s')))
                   (InsertOfficeMember.userId member) None None
            else ret tt) h w0)
  end.
  - by rewrite try_permissions_run.
  - unfold try_catch, bind, gets. simpl. subst s'. unfold mem_row.
    by destruct (MemStorage.getOfficeById _ _).
Qed.

Lemma mem_removeOfficeMember_run officeId userId w :
  MemStorage.removeOfficeMember env officeId userId w
  = (Returned tt,
     mkWorld
       (MemStorage.set_officeMembers
          (JsMap.delete (MemStorage.member_key officeId userId)) (store w))
       (sent w ++ permission_requests env
          (channel_of (MemStorage.getOfficeById officeId (store w)))
          userId (Some 0) (Some 3145728))
       (now w)).
Proof.
  unfold MemStorage.removeOfficeMember.
  unfold bind at 1.
  match goal with
  | |- context [try_catch ?m ?h ?w0] =>
      replace (try_catch m h w0) with
        (try_catch
           (if truthy (channel_of (MemStorage.getOfficeById officeId (store w)))
            then updateChannelPermissions env
                   (default EmptyString (channel_of
                      (MemStorage.getOfficeById officeId (store w))))
                   userId (Some 0) (Some 3145728)
            else ret tt) h w0)
  end.
  - by rewrite try_permissions_run.
  - unfold try_catch, bind, gets. simpl.
    by destruct (MemStorage.getOfficeById _ (store w)).
Qed.

Lemma mem_createOffice_run office w :
  let id := MemStorage.currentOfficeId (store w) in
  let newOffice := mem_office office id (now w) in
  let s2 := MemStorage.mk (MemStorage.users (store w))
              (JsMap.set id newOffice (MemStorage.offices (store w)))
              (MemStorage.officeMembers (store w)) (id + 1) in
  let name := "Office-" +:+ InsertOffice.name office in
  let s3 :=
    match (createVoiceChannel env name (Env.VC_CATEGORY_ID env)
             (mkWorld tt (sent w) 0)).1 with
    | Returned channelId =>
        MemStorage.set_offices
          (JsMap.set id (Office.with_voiceChannelId channelId newOffice)) s2
    | Thrown _ => s2
    end in
  let w3 := mkWorld s3
              (sent w ++ [create_channel_request env name
                            (Env.VC_CATEGORY_ID env)])
              (now w) in
  let w4 := (MemStorage.addOfficeMember env
               (owner_member id (InsertOffice.ownerId office)) w3).2 in
  MemStorage.createOffice env office w
  = (Returned (MemStorage.getOfficeById id (store w4)), w4).
Proof.
  intros id newOffice s2 name s3 w3 w4.
  unfold MemStorage.createOffice, MemStorage.next_office_id.
  unfold bind at 1. unfold bind at 1, gets at 1.
  unfold bind at 1, modify at 1. unfold ret at 1.
  unfold bind at 1, new_Date at 1. unfold bind at 1, modify at 1.
  simpl store. simpl sent. simpl now. fold id.
  change (MemStorage.set_offices _ _) with s2 at 1.
  unfold bind at 1.
  match goal with
  | |- context [try_catch ?m ?h ?w0] =>
      assert (try_catch m h w0 = (Returned tt, w3)) as ->
  end.
  { unfold try_catch, bind at 1.
    pose proof (createVoiceChannel_world env name (Env.VC_CATEGORY_ID env)
                  (mkWorld s2 (sent w) (now w))) as Hw.
    pose proof (createVoiceChannel_outcome env name (Env.VC_CATEGORY_ID env)
                  (mkWorld s2 (sent w) (now w))) as Ho.
    subst w3 s3. simpl in Ho. rewrite <- Ho.
    change (Office.name _) with (InsertOffice.name office).
    fold name. fold newOffice.
    destruct (createVoiceChannel env name _ (mkWorld s2 _ _)) as [[c|e] w'];
      simpl in Hw; subst w'; done. }
  unfold bind at 1. fold (owner_member id (InsertOffice.ownerId office)).
  fold w4.
  pose proof (mem_addOfficeMember_run
                (owner_member id (InsertOffice.ownerId office)) w3) as Ha.
  destruct (MemStorage.addOfficeMember env _ w3) as [[em|e] w4'].
  - by subst w4.
  - simpl in Ha. discriminate.
Qed.

(** After a removal the user is not a member. *)
Lemma mem_removeOfficeMember_not_member officeId userId w :
  MemStorage.isOfficeMember officeId userId
    (store (MemStorage.removeOfficeMember env officeId userId w).2) = false.
Proof.
  rewrite mem_removeOfficeMember_run.
  unfold MemStorage.isOfficeMember, JsMap.has, MemStorage.set_officeMembers.
  cbn [snd store MemStorage.officeMembers]. by rewrite get_delete_eq.
Qed.

End MemStorageFacts.

(** ** Composing what computations do to the world *)

#[global] Instance keeps_preorder {S} (I : S → Prop) : PreOrder (keeps I).
Proof. split; unfold keeps; [by intros w|intros w1 w2 w3; tauto]. Qed.

#[global] Instance sends_preorder {S} (P : Request.t → Prop) :
  PreOrder (@sends S P).
Proof.
  split.
  - intros w. exists []. by rewrite app_nil_r.
  - intros w1 w2 w3 (n1 & E1 & F1) (n2 & E2 & F2). exists (n1 ++ n2).
    rewrite E2, E1, app_assoc. split; [done|]. by apply Forall_app.
Qed.

Section Transforms.
Context {S : Type} (R : relation (World S)) `{!PreOrder R}.

Lemma transforms_ret {A} (a : A) : transforms R (ret a).
Proof. intros w. reflexivity. Qed.

Lemma transforms_throw {A} e : transforms R (@throw S A e).
Proof. intros w. reflexivity. Qed.

Lemma transforms_gets {A} (f : S → A) : transforms R (gets f).
Proof. intros w. reflexivity. Qed.

Lemma transforms_new_Date : transforms R new_Date.
Proof. intros w. reflexivity. Qed.

Lemma transforms_bind {A B} (m : M S A) (k : A → M S B) :
  transforms R m → (∀ a, transforms R (k a)) → transforms R (bind m k).
Proof.
  intros Hm Hk w. unfold bind. specialize (Hm w).
  destruct (m w) as [[a|e] w']; simpl in *; [|done].
  etrans; [exact Hm|apply Hk].
Qed.

Lemma transforms_try_catch {A} (m : M S A) (h : string → M S A) :
  transforms R m → (∀ e, transforms R (h e)) → transforms R (try_catch m h).
Proof.
  intros Hm Hh w. unfold try_catch. specialize (Hm w).
  destruct (m w) as [[a|e] w']; simpl in *; [done|].
  etrans; [exact Hm|apply Hh].
Qed.

Lemma transforms_for_of {A} (xs : list A) (f : A → M S unit) :
  (∀ x, transforms R (f x)) → transforms R (for_of xs f).
Proof.
  intros Hf. induction xs as [|x r IH]; simpl.
  - apply transforms_ret.
  - apply transforms_bind; [apply Hf|intros _; apply IH].
Qed.

Section Gateway.
Variable env : Env.t.

Lemma transforms_createVoiceChannel name categoryId :
  (∀ w, R w (log_request (create_channel_request env name categoryId) w)) →
  transforms R (createVoiceChannel env name categoryId).
Proof. intros HR w. rewrite createVoiceChannel_world. apply HR. Qed.

Lemma transforms_updateChannelPermissions channelId userId allow deny :
  (∀ w, R w (log_request
               (permissions_request env channelId userId
                  (num_or (default 0 allow) 3145728) (default 0 deny)) w)) →
  transforms R (updateChannelPermissions env channelId userId allow deny).
Proof. intros HR w. rewrite updateChannelPermissions_world. apply HR. Qed.

Lemma transforms_deleteVoiceChannel channelId :
  (∀ w, R w (log_request
               (Request.mk "DELETE"
                  ("https://discord.com/api/channels/" +:+ channelId)
                  (bot_headers env) NoBody) w)) →
  transforms R (deleteVoiceChannel env channelId).
Proof. intros HR w. rewrite deleteVoiceChannel_world. apply HR. Qed.
End Gateway.

End Transforms.

Lemma keeps_log {S} (I : S → Prop) r (w : World S) :
  keeps I w (log_request r w).
Proof. by intros ?. Qed.

Lemma keeps_modify {S} (I : S → Prop) (f : S → S) :
  (∀ s, I s → I (f s)) → transforms (keeps I) (modify f).
Proof. intros Hf w Hw. by apply Hf. Qed.

Lemma sends_log {S} (P : Request.t → Prop) r (w : World S) :
  P r → sends P w (log_request r w).
Proof. intros Hr. exists [r]. split; [done|by constructor]. Qed.

Lemma sends_modify {S} (P : Request.t → Prop) (f : S → S) :
  transforms (sends P) (modify f).
Proof. intros w. exists []. by rewrite app_nil_r. Qed.

(** Breaks a computation into its steps.  What is left are the changes of
    the storage object, when the relation is [keeps], and the requests,
    when it is [sends]. *)
Ltac transforms_step :=
  first
    [ apply transforms_ret; apply _
    | apply transforms_throw; apply _
    | apply transforms_gets; apply _
    | apply transforms_new_Date; apply _
    | apply sends_modify
    | apply keeps_modify; intros ? ?
    | apply transforms_createVoiceChannel; try apply _; intros ?;
      first [apply keeps_log | apply sends_log]
    | apply transforms_updateChannelPermissions; try apply _; intros ?;
      first [apply keeps_log | apply sends_log]
    | apply transforms_deleteVoiceChannel; try apply _; intros ?;
      first [apply keeps_log | apply sends_log]
    | apply transforms_bind; try apply _; [|intros ?]
    | apply transforms_try_catch; try apply _; [|intros ?]
    | apply transforms_for_of; try apply _; intros ?
    | match goal with
      | |- transforms _ (match ?x with _ => _ end) => destruct x
      end ].
Ltac transforms_steps := repeat transforms_step.

(** ** Membership keys and uniqueness *)

Lemma pretty_N_go_no_colon x s :
  includes ":" s = false → includes ":" (pretty_N_go x s) = false.
Proof.
  revert s. induction (N.lt_wf_0 x) as [x _ IH]; intros s Hs.
  destruct (decide (x = 0)%N) as [->|Hx]; [by rewrite pretty_N_go_0|].
  rewrite pretty_N_go_step by lia. apply IH.
  - apply N.div_lt; lia.
  - simpl. rewrite Hs. unfold pretty_N_char. by repeat case_match.
Qed.

Lemma pretty_Z_no_colon (z : Z) : includes ":" (pretty z) = false.
Proof.
  assert (∀ n : N, includes ":" (pretty n) = false) as HN.
  { intros n. unfold pretty, pretty_N. case_decide; [done|].
    by apply pretty_N_go_no_colon. }
  destruct z as [|p|p]; [done|apply (HN (N.pos p))|].
  unfold pretty, pretty_Z. simpl. apply (HN (N.pos p)).
Qed.

Lemma colon_split a b u v :
  includes ":" a = false → includes ":" b = false →
  a +:+ String ":" u = b +:+ String ":" v → a = b ∧ u = v.
Proof.
  revert b. induction a as [|c a IH]; intros [|d b]; simpl.
  - by intros _ _ [= ->].
  - intros _. destruct (Ascii.eqb_spec d ":") as [->|Hd]; [done|].
    by intros _ [= <- _].
  - destruct (Ascii.eqb_spec c ":") as [->|Hc]; [done|].
    by intros _ _ [= -> _].
  - destruct (Ascii.eqb c ":"); [done|]. destruct (Ascii.eqb d ":"); [done|].
    intros Ha Hb [= -> Heq]. by destruct (IH b Ha Hb Heq) as [-> ->].
Qed.

(** The key of a membership determines its office and its user. *)
Lemma member_key_inj o u o' u' :
  MemStorage.member_key o u = MemStorage.member_key o' u' → o = o' ∧ u = u'.
Proof.
  unfold MemStorage.member_key. intros Heq.
  change (pretty o +:+ String ":" u = pretty o' +:+ String ":" u') in Heq.
  apply colon_split in Heq as [Ho ->]; try apply pretty_Z_no_colon.
  split; [|done]. by apply (inj pretty).
Qed.

Lemma keys_consistent_set row m :
  keys_consistent m →
  keys_consistent
    (JsMap.set (MemStorage.member_key (OfficeMember.officeId row)
                                      (OfficeMember.userId row)) row m).
Proof.
  intros [Hk Hnd]. split; [|by apply NoDup_keys_set].
  apply list.Forall_forall. intros e [->|He]%elem_of_set; [done|].
  by eapply list.Forall_forall in Hk.
Qed.

Lemma keys_consistent_delete k m :
  keys_consistent m → keys_consistent (JsMap.delete k m).
Proof.
  intros [Hk Hnd]. split; [|by apply NoDup_keys_delete].
  clear Hnd. induction Hk as [|[k' v'] r Hx Hr IH]; simpl; [done|].
  destruct (decide (k = k')); [done|]. by constructor.
Qed.

Lemma filter_sublist {A} (p : A → bool) (l : list A) :
  List.filter p l `sublist_of` l.
Proof.
  induction l as [|a l IH]; simpl; [done|].
  destruct (p a); [by apply sublist_skip|by apply sublist_cons].
Qed.

Lemma keys_consistent_unique m :
  keys_consistent m → membership_unique (JsMap.values m).
Proof.
  intros [Hk Hnd] o u. unfold JsMap.values, JsMap.keys in *.
  induction m as [|[k row] r IH]; [simpl; lia|].
  rewrite fmap_cons in *.
  apply list.Forall_cons in Hk as [Hrow Hk].
  apply list.NoDup_cons in Hnd as [Hnin Hnd].
  specialize (IH Hk Hnd). cbn [List.filter fst snd] in *.
  destruct (membership_of o u row) eqn:Hm; [|done].
  assert (List.filter (membership_of o u) r.*2 = []) as ->; [|simpl; lia].
  destruct (List.filter (membership_of o u) r.*2) as [|row' l] eqn:Hf; [done|].
  exfalso. apply Hnin.
  assert (row' ∈ List.filter (membership_of o u) r.*2) as Hin
    by (rewrite Hf; left).
  apply list_elem_of_In, filter_In in Hin as [Hin Hm'].
  apply list_elem_of_In, list_elem_of_fmap in Hin as ([k' r'] & -> & Hin).
  eapply list.Forall_forall in Hk; [|exact Hin]. cbn [fst snd] in *.
  unfold membership_of in Hm, Hm'.
  apply andb_true_iff in Hm as [?%bool_decide_eq_true ?%bool_decide_eq_true].
  apply andb_true_iff in Hm' as [?%bool_decide_eq_true ?%bool_decide_eq_true].
  apply list_elem_of_fmap. exists (k', r'). split; [|done]. simpl. congruence.
Qed.

(** ** Invariants of the in-memory backend *)

Section MemInvariant.
Variable env : Env.t.

Lemma mem_call_keeps_keys c :
  transforms (keeps mem_keys_consistent)
             (run_call (storage := MemStorage_IStorage env) c).
Proof.
  destruct c; simpl;
    unfold MemStorage.createUser, MemStorage.updateUser,
      MemStorage.createOffice, MemStorage.deleteOffice,
      MemStorage.addOfficeMember, MemStorage.removeOfficeMember,
      MemStorage.next_office_id;
    transforms_steps; try done.
  - by apply keys_consistent_set with
      (row := mem_row (owner_member _ (InsertOffice.ownerId office)) _).
  - by apply keys_consistent_delete.
  - by apply keys_consistent_set with (row := mem_row member _).
  - by apply keys_consistent_delete.
Qed.

Lemma mem_reachable_keys w :
  reachable (MemStorage_IStorage env) MemStorage.new w →
  mem_keys_consistent (store w).
Proof.
  induction 1 as [t|w c Hw IH|w t Hw IH]; simpl.
  - split; [constructor|constructor].
  - by apply mem_call_keeps_keys.
  - done.
Qed.

End MemInvariant.

(** ** Invariants of the relational backend *)

Section DbInvariant.
Variable env : Env.t.

Lemma has_member_id_false id d :
  Db.has_member_id id d = false → id ∉ OfficeMember.id <$> Db.officeMembers d.
Proof.
  unfold Db.has_member_id. intros Hf (m & -> & Hin)%list_elem_of_fmap.
  apply not_true_iff_false in Hf. apply Hf, existsb_exists.
  exists m. split; [by apply list_elem_of_In|by apply bool_decide_eq_true].
Qed.

Lemma insert_member_keeps_ids officeId userId isOwner :
  transforms (keeps db_member_ids_unique)
             (Db.insert_member officeId userId isOwner).
Proof.
  intros w Hw. unfold Db.insert_member, Db.next_member_id. run. simpl.
  destruct (Db.has_member_id _ _) eqn:Hpk; [done|].
  destruct (negb (Db.has_office _ _)); [done|].
  destruct (negb (Db.has_user _ _)); [done|].
  unfold db_member_ids_unique in *. cbn [store Db.officeMembers snd].
  rewrite fmap_app.
  apply list.NoDup_app. split; [done|]. split; [|apply NoDup_singleton].
  intros x Hx ->%list_elem_of_singleton. simpl in Hx.
  by apply has_member_id_false in Hpk.
Qed.

Lemma delete_members_keeps_ids p :
  transforms (keeps db_member_ids_unique) (Db.delete_members p).
Proof.
  intros w Hw. unfold Db.delete_members, modify, db_member_ids_unique in *.
  simpl. eapply sublist_NoDup; [exact Hw|].
  apply fmap_sublist, filter_sublist.
Qed.

Lemma db_call_keeps_ids c :
  transforms (keeps db_member_ids_unique)
             (run_call (storage := DatabaseStorage_IStorage env) c).
Proof.
  destruct c; simpl;
    unfold DatabaseStorage.createUser, DatabaseStorage.updateUser,
      DatabaseStorage.createOffice, DatabaseStorage.deleteOffice,
      DatabaseStorage.addOfficeMember, DatabaseStorage.removeOfficeMember,
      Db.insert_user, Db.update_users, Db.insert_office, Db.update_offices,
      Db.delete_offices, Db.next_office_id;
    repeat first
      [ apply insert_member_keeps_ids
      | apply delete_members_keeps_ids
      | transforms_step ];
    assumption.
Qed.

Lemma db_reachable_ids w :
  reachable (DatabaseStorage_IStorage env) Db.empty w →
  db_member_ids_unique (store w).
Proof.
  induction 1 as [t|w c Hw IH|w t Hw IH]; simpl.
  - constructor.
  - by apply db_call_keeps_ids.
  - done.
Qed.

End DbInvariant.

Section DbFresh.
Variable env : Env.t.

Lemma Forall_filter_keep {A} (P : A → Prop) (p : A → bool) (l : list A) :
  Forall P l → Forall P (List.filter p l).
Proof.
  induction 1 as [|a l Ha Hl IH]; simpl; [done|].
  destruct (p a); [by constructor|done].
Qed.

Lemma insert_office_keeps_fresh name description isPrivate ownerId :
  transforms (keeps Db_ids_fresh)
             (Db.insert_office name description isPrivate ownerId).
Proof.
  intros w [Ho Hm]. unfold Db.insert_office, Db.next_office_id. run.
  cbn [store sent now].
  assert (Forall (λ o, Office.id o < Db.offices_id_seq (store w) + 1)
                 (Db.offices (store w))) as Ho'
    by (eapply list.Forall_impl; [exact Ho|]; intros o ?; simpl in *; lia).
  destruct (Db.has_office _ _); [by split|].
  destruct (negb (Db.has_user _ _)); [by split|].
  split; [|done]. cbn [Db.offices Db.offices_id_seq snd store].
  apply Forall_app. split; [done|]. constructor; [simpl; lia|done].
Qed.

Lemma insert_member_keeps_fresh officeId userId isOwner :
  transforms (keeps Db_ids_fresh)
             (Db.insert_member officeId userId isOwner).
Proof.
  intros w [Ho Hm]. unfold Db.insert_member, Db.next_member_id. run.
  cbn [store sent now].
  assert (Forall (λ m, OfficeMember.id m
                       < Db.office_members_id_seq (store w) + 1)
                 (Db.officeMembers (store w))) as Hm'
    by (eapply list.Forall_impl; [exact Hm|]; intros m ?; simpl in *; lia).
  destruct (Db.has_member_id _ _); [by split|].
  destruct (negb (Db.has_office _ _)); [by split|].
  destruct (negb (Db.has_user _ _)); [by split|].
  split; [done|]. cbn [Db.officeMembers Db.office_members_id_seq snd store].
  apply Forall_app. split; [done|]. constructor; [simpl; lia|done].
Qed.

Lemma db_call_keeps_fresh c :
  transforms (keeps Db_ids_fresh)
             (run_call (storage := DatabaseStorage_IStorage env) c).
Proof.
  destruct c; simpl;
    unfold DatabaseStorage.createUser, DatabaseStorage.updateUser,
      DatabaseStorage.createOffice, DatabaseStorage.deleteOffice,
      DatabaseStorage.addOfficeMember, DatabaseStorage.removeOfficeMember,
      Db.insert_user, Db.update_users, Db.update_offices,
      Db.delete_offices, Db.delete_members;
    repeat first
      [ apply insert_office_keeps_fresh
      | apply insert_member_keeps_fresh
      | transforms_step ];
    try assumption;
    match goal with
    | H : Db_ids_fresh _ |- _ => destruct H as [Ho Hm]
    end;
    (split; [|try done]); cbn [Db.offices Db.officeMembers Db.offices_id_seq
                                Db.office_members_id_seq];
    try assumption; try by apply Forall_filter_keep.
  apply Forall_fmap. eapply list.Forall_impl; [exact Ho|].
  intros o Hlt. cbn. by destruct (bool_decide _).
Qed.

(** The serial ids are fresh in every world the database can reach. *)
Lemma db_reachable_fresh w :
  reachable (DatabaseStorage_IStorage env) Db.empty w →
  Db_ids_fresh (store w).
Proof.
  induction 1 as [t|w c Hw IH|w t Hw IH]; simpl.
  - split; constructor.
  - by apply db_call_keeps_fresh.
  - done.
Qed.

End DbFresh.

(** ** The concrete worlds can be reached *)

Lemma reachable_run_calls {S} (storage : IStorage S) init cs w :
  reachable storage init w → reachable storage init (run_calls cs w).
Proof.
  revert w. induction cs as [|c cs IH]; intros w Hw; [done|].
  simpl. apply IH. by apply reachable_call.
Qed.

Lemma mem_ghost_reachable :
  ∃ w, reachable (MemStorage_IStorage Fixtures.env_down) MemStorage.new w
       ∧ store w = store Fixtures.mem_ghost.
Proof.
  exists (run_calls (storage := MemStorage_IStorage Fixtures.env_down)
            [CreateUser (InsertUser.mk "U1" "alice" "0001" None (Some true)
                           None None None);
             CreateOffice (InsertOffice.mk "Haunted" None (Some true) "ghost")]
            (mkWorld MemStorage.new [] 100)).
  split; [apply reachable_run_calls, reachable_init|].
  by vm_compute.
Qed.

(** The store with the owner without a record is what the route leaves
    when an admin posts an office for an owner id that is not known. *)
Lemma mem_ghost_posted :
  store (post_offices Fixtures.env_down
           (storage := MemStorage_IStorage Fixtures.env_down)
           (HttpRequest.mk (Some "U1") None None
              (Some (InsertOffice.mk "Haunted" None (Some true) "ghost")))
           Fixtures.mem_one_user).2
  = store Fixtures.mem_ghost.
Proof. by vm_compute. Qed.

Lemma mem_two_offices_reachable :
  ∃ w, reachable (MemStorage_IStorage Fixtures.env_down) MemStorage.new w
       ∧ store w = store Fixtures.mem_two_offices.
Proof.
  exists (run_calls (storage := MemStorage_IStorage Fixtures.env_down)
            [CreateUser (InsertUser.mk "U1" "alice" "0001" None (Some true)
                           None None None);
             CreateUser (InsertUser.mk "U2" "bob" "0002" None None
                           None None None);
             CreateOffice (InsertOffice.mk "Lobby" None None "U2");
             AddOfficeMember (InsertOfficeMember.mk 1 "U1" None);
             CreateOffice (InsertOffice.mk "Den" None (Some true) "U1")]
            (mkWorld MemStorage.new [] 100)).
  split; [apply reachable_run_calls, reachable_init|by vm_compute].
Qed.

Lemma db_one_user_reachable :
  ∃ w, reachable (DatabaseStorage_IStorage Fixtures.env_up) Db.empty w
       ∧ w = Fixtures.db_one_user.
Proof.
  exists (run_calls (storage := DatabaseStorage_IStorage Fixtures.env_up)
            [CreateUser (InsertUser.mk "U1" "alice" "0001" None (Some true)
                           None None None)]
            (mkWorld Db.empty [] 100)).
  split; [apply reachable_run_calls, reachable_init|by vm_compute].
Qed.

(** ** The owner membership of a created office *)

(** C1. Posting an office to the server backed by the database leaves two
    membership rows flagged as owner for the new office, one inserted by
    [createOffice] and one by the route handler: the office does not have
    exactly one owner row. *)
Theorem post_offices_database_owner_rows :
  let w' := (post_offices Fixtures.env_up
               (storage := DatabaseStorage_IStorage Fixtures.env_up)
               Fixtures.post_alpha Fixtures.db_one_user) in
  (∃ view, w'.1 = Returned (HttpResponse.mk 201 (OfficeJson view))
           ∧ EnrichedOffice.id view = 1
           ∧ EnrichedOffice.ownerId view = "U1")
  ∧ owner_rows 1 (Db.officeMembers (store w'.2))
    = [Fixtures.row 1 1 "U1" true; Fixtures.row 2 1 "U1" true].
Proof. split; [eexists; split; [by vm_compute|done]|by vm_compute]. Qed.

(** On the memory store the second insertion replaces the first row. *)
Lemma post_offices_memory_owner_rows :
  owner_rows 1
    (JsMap.values
       (MemStorage.officeMembers
          (store (post_offices Fixtures.env_up
                    (storage := MemStorage_IStorage Fixtures.env_up)
                    Fixtures.post_alpha Fixtures.mem_one_user).2)))
  = [Fixtures.row 0 1 "U1" true].
Proof. by vm_compute. Qed.

(** On the memory store an office has one owner row after [createOffice],
    and still one after the route handler has added the owner again,
    provided no row was stored for the id before the office got it. *)
Lemma mem_owner_row_after_post env office w :
  let id := MemStorage.currentOfficeId (store w) in
  let owner := InsertOffice.ownerId office in
  Forall (λ m, OfficeMember.officeId m ≠ id)
         (JsMap.values (MemStorage.officeMembers (store w))) →
  let w1 := (MemStorage.createOffice env office w).2 in
  let w2 := (MemStorage.addOfficeMember env (owner_member id owner) w1).2 in
  owner_rows id (JsMap.values (MemStorage.officeMembers (store w1)))
  = [OfficeMember.mk 0 id owner true (now w)]
  ∧ owner_rows id (JsMap.values (MemStorage.officeMembers (store w2)))
    = [OfficeMember.mk 0 id owner true (now w)].
Proof.
  intros id owner Hfresh w1 w2.
  assert (Forall (λ x, (bool_decide (OfficeMember.officeId x = id)
                        && OfficeMember.isOwner x) = false)
                 (JsMap.values (MemStorage.officeMembers (store w))))
    as Hnone.
  { eapply list.Forall_impl; [exact Hfresh|]. intros m Hm. cbn beta.
    by rewrite bool_decide_eq_false_2. }
  assert (MemStorage.officeMembers (store w1)
          = JsMap.set (MemStorage.member_key id owner)
              (OfficeMember.mk 0 id owner true (now w))
              (MemStorage.officeMembers (store w))
          ∧ now w1 = now w) as [Hm1 Hnow].
  { subst w1. pose proof (mem_createOffice_run env office w) as Hrun.
    cbv zeta in Hrun. rewrite Hrun. clear Hrun.
    pose proof (mem_addOfficeMember_run env (owner_member id owner)) as Hadd.
    cbv zeta in Hadd. fold id owner. rewrite Hadd. clear Hadd.
    cbn [snd store now]. split; [|done].
    unfold MemStorage.set_officeMembers. cbn [MemStorage.officeMembers].
    by destruct (createVoiceChannel _ _ _ _).1. }
  assert (MemStorage.officeMembers (store w2)
          = JsMap.set (MemStorage.member_key id owner)
              (OfficeMember.mk 0 id owner true (now w))
              (MemStorage.officeMembers (store w))) as Hm2.
  { subst w2.
    pose proof (mem_addOfficeMember_run env (owner_member id owner) w1)
      as Hadd.
    cbv zeta in Hadd. rewrite Hadd. clear Hadd. cbn [snd store].
    unfold MemStorage.set_officeMembers. cbn [MemStorage.officeMembers].
    rewrite Hm1, Hnow. apply set_set. }
  unfold owner_rows. rewrite Hm1, Hm2.
  split; apply filter_values_set; try done;
    by rewrite bool_decide_eq_true_2.
Qed.

(** ** The identity of a membership *)

(** On the memory store the identity of a membership is the pair of its
    office and its user: the key of the map determines the pair, and in
    every world the store can reach each entry sits under the key of its
    own pair, no key occurs twice, and so no pair has two rows.  On the
    relational backend the rows are told apart by their serial ids only. *)
Lemma membership_identity env :
  (∀ o u o' u',
     MemStorage.member_key o u = MemStorage.member_key o' u' →
     o = o' ∧ u = u')
  ∧ (∀ w, reachable (MemStorage_IStorage env) MemStorage.new w →
          keys_consistent (MemStorage.officeMembers (store w))
          ∧ membership_unique
              (JsMap.values (MemStorage.officeMembers (store w))))
  ∧ (∀ w, reachable (DatabaseStorage_IStorage env) Db.empty w →
          NoDup (OfficeMember.id <$> Db.officeMembers (store w))).
Proof.
  split_and!.
  - apply member_key_inj.
  - intros w Hw. apply mem_reachable_keys in Hw.
    split; [exact Hw|by apply keys_consistent_unique].
  - intros w Hw. by apply db_reachable_ids in Hw.
Qed.

(** C2. On the relational backend a user can belong to an office twice:
    [DatabaseStorage.addOfficeMember] inserts a row without looking for one
    of the same office and user, and the table has no constraint on the
    pair.  Adding [U2] to office 1 twice leaves the rows 2 and 3 for the
    pair, in a world the storage reaches by its own methods; the same
    calls leave one row on the memory store. *)
Theorem db_membership_not_unique :
  let wd := run_calls (storage := DatabaseStorage_IStorage Fixtures.env_up)
              Scenarios.joined_twice (mkWorld Db.empty [] 100) in
  let wm := run_calls (storage := MemStorage_IStorage Fixtures.env_up)
              Scenarios.joined_twice (mkWorld MemStorage.new [] 100) in
  reachable (DatabaseStorage_IStorage Fixtures.env_up) Db.empty wd
  ∧ List.filter (membership_of 1 "U2") (Db.officeMembers (store wd))
    = [Fixtures.row 2 1 "U2" false; Fixtures.row 3 1 "U2" false]
  ∧ ¬ membership_unique (Db.officeMembers (store wd))
  ∧ List.filter (membership_of 1 "U2")
      (JsMap.values (MemStorage.officeMembers (store wm)))
    = [Fixtures.row 0 1 "U2" false].
Proof.
  split_and!.
  - apply reachable_run_calls, reachable_init.
  - by vm_compute.
  - intros Hu. specialize (Hu 1 "U2"). vm_compute in Hu. lia.
  - by vm_compute.
Qed.

(** ** Deleting an office *)

(** C3. [MemStorage.deleteOffice] removes the memberships that
    [getOfficeMembers] lists, and [getOfficeMembers] skips a membership
    whose user has no record: such a row survives the deletion of its
    office. *)
Theorem mem_deleteOffice_leaves_row :
  let r := MemStorage.deleteOffice Fixtures.env_up 1 Fixtures.mem_ghost in
  r.1 = Returned tt
  ∧ MemStorage.getOfficeById 1 (store r.2) = None
  ∧ MemStorage.getOfficeMembers 1 (store r.2) = []
  ∧ rows_of_office 1 (JsMap.values (MemStorage.officeMembers (store r.2)))
    = [Fixtures.row 0 1 "ghost" true]
  ∧ MemStorage.isOfficeMember 1 "ghost" (store r.2) = true.
Proof. by vm_compute. Qed.

(** The relational backend deletes by office id: when [deleteOffice]
    returns, no row of the office is left, whatever Discord answered. *)
Lemma db_deleteOffice_no_rows env id w :
  (DatabaseStorage.deleteOffice env id w).1 = Returned tt →
  rows_of_office id
    (Db.officeMembers (store (DatabaseStorage.deleteOffice env id w).2)) = []
  ∧ DatabaseStorage.getOfficeMembers id
      (store (DatabaseStorage.deleteOffice env id w).2) = [].
Proof.
  intros Hret.
  assert (rows_of_office id
            (Db.officeMembers
               (store (DatabaseStorage.deleteOffice env id w).2)) = [])
    as Hrows.
  { revert Hret. unfold DatabaseStorage.deleteOffice. rewrite !bind_gets.
    destruct (head _) as [office|]; [intros _|done].
    unfold Db.delete_members at 1. rewrite bind_modify.
    match goal with
    | |- context [bind ?m ?k ?w1] =>
        assert (transforms
                  (keeps (λ d, rows_of_office id (Db.officeMembers d) = []))
                  (bind m k)) as Hk
    end.
    { unfold Db.delete_offices. transforms_steps. done. }
    apply Hk. simpl. unfold rows_of_office.
    induction (Db.officeMembers (store w)) as [|m r IH]; simpl; [done|].
    destruct (bool_decide (OfficeMember.officeId m = id)) eqn:E; simpl;
      [done|]. by rewrite E. }
  split; [done|]. unfold DatabaseStorage.getOfficeMembers.
  unfold rows_of_office in Hrows. by rewrite Hrows.
Qed.

(** ** Removing the owner through the HTTP route *)

Section RouteFacts.
Variable env : Env.t.
Context {S : Type} {storage : IStorage S}.
Implicit Types w : World S.

Lemma getGuildMember_world userId w :
  (getGuildMember env userId w).2
  = log_request
      (Request.mk "GET"
         ("https://discord.com/api/guilds/" +:+ Env.GUILD_ID env
            +:+ "/members/" +:+ userId)
         (bot_headers env) NoBody) w.
Proof.
  unfold getGuildMember, response_json. run.
  match goal with
  | |- context [fetch env ?r w] =>
      pose proof (fetch_world env r w) as Hf;
      destruct (fetch env r w) as [[resp|e] w']
  end; simpl in Hf; subst; [|done].
  destruct (Z.eqb (Response.status resp) 404); [done|].
  destruct (negb (Response.ok resp)); [done|].
  by destruct (Response.json resp).
Qed.

(** The lookup of the admin role answers, and sends one [GET]. *)
Lemma check_admin_role_run user w :
  ∃ b r, check_admin_role env user w = (Returned b, log_request r w)
         ∧ Request.method r = "GET".
Proof.
  unfold check_admin_role, try_catch, bind.
  pose proof (getGuildMember_world (User.id user) w) as Hw.
  destruct (getGuildMember env (User.id user) w) as [[[m|]|e] w'];
    simpl in Hw; subst w'; unfold ret.
  - destruct (truthy (Env.ADMIN_ROLE env)); eauto.
  - eauto.
  - eauto.
Qed.

(** C4. A request to remove from an office the user who owns it is
    answered with a rejection (status 400, 401 or 403, never the 204 of a
    removal), the storage object is left as it was, and nothing is sent
    to Discord but at most the look-up of the caller's roles. *)
Theorem delete_office_member_owner_rejected req w officeId office :
  HttpRequest.params_id req = Some officeId →
  getOfficeById officeId (store w) = Some office →
  HttpRequest.params_userId req = Some (EnrichedOffice.ownerId office) →
  ∃ status message new,
    (delete_office_member env req w).1
    = Returned (HttpResponse.mk status (Message message))
    ∧ status ∈ [400; 401; 403]
    ∧ store (delete_office_member env req w).2 = store w
    ∧ sent (delete_office_member env req w).2 = sent w ++ new
    ∧ Forall (λ r, Request.method r = "GET") new.
Proof.
  intros Hid Hoffice Huser. unfold delete_office_member.
  assert (∀ status message,
            status ∈ [400; 401; 403] →
            ∀ w' new, store w' = store w → sent w' = sent w ++ new →
              Forall (λ r, Request.method r = "GET") new →
            ∃ status' message' new',
              (@ret S _ (HttpResponse.mk status (Message message)) w').1
              = Returned (HttpResponse.mk status' (Message message'))
              ∧ status' ∈ [400; 401; 403]
              ∧ store (@ret S _ (HttpResponse.mk status (Message message))
                         w').2 = store w
              ∧ sent (@ret S _ (HttpResponse.mk status (Message message))
                        w').2 = sent w ++ new'
              ∧ Forall (λ r, Request.method r = "GET") new') as Hreject.
  { intros status message Hin w' new Hst Hsent Hnew.
    exists status, message, new. by split_and!. }
  assert (∀ status message,
            status ∈ [400; 401; 403] →
            ∃ status' message' new',
              (@ret S _ (HttpResponse.mk status (Message message)) w).1
              = Returned (HttpResponse.mk status' (Message message'))
              ∧ status' ∈ [400; 401; 403]
              ∧ store (@ret S _ (HttpResponse.mk status (Message message))
                         w).2 = store w
              ∧ sent (@ret S _ (HttpResponse.mk status (Message message))
                        w).2 = sent w ++ new'
              ∧ Forall (λ r, Request.method r = "GET") new') as Hnow.
  { intros status message Hin.
    apply (Hreject status message Hin w []); [done|by rewrite app_nil_r|done]. }
  destruct (negb (truthy (HttpRequest.session_userId req)));
    [apply Hnow; by repeat constructor|].
  rewrite Hid, bind_gets, Hoffice, bind_gets.
  destruct (getUserById _ (store w)) as [user|]; [|apply Hnow; by repeat constructor].
  set (isOwner := bool_decide (EnrichedOffice.ownerId office = _)).
  assert (∀ isAdmin w' new,
            store w' = store w → sent w' = sent w ++ new →
            Forall (λ r, Request.method r = "GET") new →
            ∃ status' message' new',
              let r :=
                (if negb isAdmin && negb isOwner then
                   ret (HttpResponse.mk 403 (Message "Insufficient permissions"))
                 else if negb (truthy (HttpRequest.params_userId req)) then
                   ret (HttpResponse.mk 400 (Message "User ID is required"))
                 else if bool_decide
                           (default EmptyString (HttpRequest.params_userId req)
                            = EnrichedOffice.ownerId office) then
                   ret (HttpResponse.mk 400
                          (Message "Cannot remove the office owner"))
                 else
                   let* isMember :=
                     gets (isOfficeMember officeId
                             (default EmptyString (HttpRequest.params_userId req))) in
                   if negb isMember then
                     ret (HttpResponse.mk 404
                            (Message "User is not a member of this office"))
                   else
                     removeOfficeMember officeId
                       (default EmptyString (HttpRequest.params_userId req)) ;;
                     ret (HttpResponse.mk 204 NoContent)) w' in
              r.1 = Returned (HttpResponse.mk status' (Message message'))
              ∧ status' ∈ [400; 401; 403]
              ∧ store r.2 = store w
              ∧ sent r.2 = sent w ++ new'
              ∧ Forall (λ r, Request.method r = "GET") new') as Hrest.
  { intros isAdmin w' new Hst Hsent Hnew. cbv zeta.
    destruct (negb isAdmin && negb isOwner);
      [by eapply Hreject; [by repeat constructor|..]|].
    destruct (negb (truthy (HttpRequest.params_userId req)));
      [by eapply Hreject; [by repeat constructor|..]|].
    rewrite Huser. cbn [default]. rewrite bool_decide_eq_true_2 by done.
    by eapply Hreject; [by repeat constructor|..]. }
  destruct (negb (User.isAdmin user) && negb isOwner).
  - destruct (check_admin_role_run user w) as (b & r & Hrun & Hget).
    erewrite bind_returned; [|exact Hrun].
    apply (Hrest b _ [r]); [done|done|by constructor].
  - rewrite bind_ret. apply (Hrest _ w []); [done|by rewrite app_nil_r|done].
Qed.

End RouteFacts.

Lemma delete_office_member_owner_rejected_witness :
  ∃ status message new,
    (delete_office_member Fixtures.env_up
       (storage := MemStorage_IStorage Fixtures.env_up)
       Fixtures.remove_owner Fixtures.mem_office1).1
    = Returned (HttpResponse.mk status (Message message))
    ∧ status ∈ [400; 401; 403]
    ∧ store (delete_office_member Fixtures.env_up
               (storage := MemStorage_IStorage Fixtures.env_up)
               Fixtures.remove_owner Fixtures.mem_office1).2
      = store Fixtures.mem_office1
    ∧ sent (delete_office_member Fixtures.env_up
              (storage := MemStorage_IStorage Fixtures.env_up)
              Fixtures.remove_owner Fixtures.mem_office1).2
      = sent Fixtures.mem_office1 ++ new
    ∧ Forall (λ r, Request.method r = "GET") new.
Proof.
  eapply (delete_office_member_owner_rejected Fixtures.env_up
            (storage := MemStorage_IStorage Fixtures.env_up)
            Fixtures.remove_owner Fixtures.mem_office1 1).
  - reflexivity.
  - by vm_compute.
  - reflexivity.
Defined.

(** ** Revoking the voice permissions of a removed member *)

(** C5. The request that leaves the server when a member of an office
    with a voice channel is removed carries [allow = 3145728] next to
    [deny = 3145728]: [updateChannelPermissions] takes the [0] it is given
    for [allow] as missing and puts the default grant in its place. *)
Theorem removeOfficeMember_request_allows :
  sent (MemStorage.removeOfficeMember Fixtures.env_up 1 "U2"
          Fixtures.mem_office1).2
  = [permissions_request Fixtures.env_up "C1" "U2" 3145728 3145728]
  ∧ sent (DatabaseStorage.removeOfficeMember Fixtures.env_up 1 "U2"
            Fixtures.db_office1).2
    = [permissions_request Fixtures.env_up "C1" "U2" 3145728 3145728]
  ∧ Request.body (permissions_request Fixtures.env_up "C1" "U2"
                    3145728 3145728)
    = PermissionsBody (PermissionBody.mk "3145728" "3145728" 1)
  ∧ Z.lor CONNECT SPEAK = 3145728.
Proof. by vm_compute. Qed.

(** Whatever the office, the channel and the member: the request that
    revokes carries the grant next to the denial. *)
Lemma revoke_request_allows env channelId userId :
  channelId ≠ EmptyString →
  permission_requests env (Some channelId) userId (Some 0) (Some 3145728)
  = [permissions_request env channelId userId 3145728 3145728]
  ∧ Request.body (permissions_request env channelId userId 3145728 3145728)
    = PermissionsBody (PermissionBody.mk "3145728" "3145728" 1).
Proof.
  intros Hne. unfold permission_requests, truthy.
  destruct (String.eqb_spec channelId EmptyString) as [->|_]; [done|].
  split; [done|]. by vm_compute.
Qed.

Lemma mem_removeOfficeMember_sends env officeId userId office channelId
    (w : World MemStorage.t) :
  MemStorage.getOfficeById officeId (store w) = Some office →
  EnrichedOffice.voiceChannelId office = Some channelId →
  channelId ≠ EmptyString →
  sent (MemStorage.removeOfficeMember env officeId userId w).2
  = sent w ++ [permissions_request env channelId userId 3145728 3145728].
Proof.
  intros Hoffice Hchannel Hne. rewrite mem_removeOfficeMember_run.
  cbn [snd sent]. rewrite Hoffice. cbn [channel_of]. rewrite Hchannel.
  by destruct (revoke_request_allows env channelId userId Hne) as [-> _].
Qed.

(** ** The channel of a new office *)

Lemma create_channel_request_denies env name categoryId :
  denies_everyone env (create_channel_request env name categoryId).
Proof.
  unfold denies_everyone. cbn.
  eexists. split; [left|]. by vm_compute.
Qed.

Section ChannelCreation.
Variable env : Env.t.

Lemma mem_call_posts_deny c :
  transforms (sends (posts_deny env))
             (run_call (storage := MemStorage_IStorage env) c).
Proof.
  destruct c; simpl;
    unfold MemStorage.createUser, MemStorage.updateUser,
      MemStorage.createOffice, MemStorage.deleteOffice,
      MemStorage.addOfficeMember, MemStorage.removeOfficeMember,
      MemStorage.next_office_id;
    transforms_steps;
    first [ by intros _; apply create_channel_request_denies
          | by intros [=] ].
Qed.

Lemma db_call_posts_deny c :
  transforms (sends (posts_deny env))
             (run_call (storage := DatabaseStorage_IStorage env) c).
Proof.
  destruct c; simpl;
    unfold DatabaseStorage.createUser, DatabaseStorage.updateUser,
      DatabaseStorage.createOffice, DatabaseStorage.deleteOffice,
      DatabaseStorage.addOfficeMember, DatabaseStorage.removeOfficeMember,
      Db.insert_user, Db.update_users, Db.insert_office, Db.update_offices,
      Db.delete_offices, Db.next_office_id, Db.insert_member,
      Db.delete_members, Db.next_member_id;
    transforms_steps;
    first [ by intros _; apply create_channel_request_denies
          | by intros [=] ].
Qed.

Lemma mem_createOffice_sends office (w : World MemStorage.t) :
  ∃ rest,
    sent (MemStorage.createOffice env office w).2
    = sent w
        ++ create_channel_request env
             ("Office-" +:+ InsertOffice.name office) (Env.VC_CATEGORY_ID env)
           :: rest.
Proof.
  pose proof (mem_createOffice_run env office w) as Hrun. cbv zeta in Hrun.
  rewrite Hrun. clear Hrun.
  pose proof (mem_addOfficeMember_run env
                (owner_member (MemStorage.currentOfficeId (store w))
                              (InsertOffice.ownerId office))) as Hadd.
  cbv zeta in Hadd. rewrite Hadd. clear Hadd. cbn [snd sent].
  rewrite <- app_assoc. eauto.
Qed.

End ChannelCreation.

(** C6. The request [createVoiceChannel] posts carries an overwrite for
    the role whose id is the guild id, which is [@everyone], with nothing
    allowed and CONNECT and SPEAK denied.  It is the first request
    [MemStorage.createOffice] sends, and whatever call is made on either
    backend, every request it posts is such a request. *)
Theorem createVoiceChannel_denies_everyone env :
  (∀ name categoryId,
     denies_everyone env (create_channel_request env name categoryId))
  ∧ (∀ S name categoryId (w : World S),
       sent (createVoiceChannel env name categoryId w).2
       = sent w ++ [create_channel_request env name categoryId])
  ∧ (∀ office (w : World MemStorage.t), ∃ rest,
       sent (MemStorage.createOffice env office w).2
       = sent w
           ++ create_channel_request env
                ("Office-" +:+ InsertOffice.name office)
                (Env.VC_CATEGORY_ID env)
              :: rest)
  ∧ (∀ c (w : World MemStorage.t),
       sends (posts_deny env) w
             (run_call (storage := MemStorage_IStorage env) c w).2)
  ∧ (∀ c (w : World Db.t),
       sends (posts_deny env) w
             (run_call (storage := DatabaseStorage_IStorage env) c w).2).
Proof.
  split_and!.
  - apply create_channel_request_denies.
  - intros S name categoryId w. by rewrite createVoiceChannel_world.
  - apply mem_createOffice_sends.
  - intros c w. apply mem_call_posts_deny.
  - intros c w. apply db_call_posts_deny.
Qed.

(** ** Creating an office while Discord fails *)

Section DbRuns.
Variable env : Env.t.
Implicit Types (w : World Db.t) (d : Db.t).

Lemma fresh_office_id d :
  Db_ids_fresh d → Db.has_office (Db.offices_id_seq d) d = false.
Proof.
  intros [Ho _]. unfold Db.has_office. apply not_true_iff_false.
  intros (o & Hin & Heq%bool_decide_eq_true)%existsb_exists.
  apply list_elem_of_In in Hin. eapply list.Forall_forall in Ho; [|done]. lia.
Qed.

Lemma fresh_member_id d :
  Db_ids_fresh d → Db.has_member_id (Db.office_members_id_seq d) d = false.
Proof.
  intros [_ Hm]. unfold Db.has_member_id. apply not_true_iff_false.
  intros (m & Hin & Heq%bool_decide_eq_true)%existsb_exists.
  apply list_elem_of_In in Hin. eapply list.Forall_forall in Hm; [|done]. lia.
Qed.




End DbRuns.

Lemma filter_existsb_false {A} (p : A → bool) (l : list A) :
  existsb p l = false → List.filter p l = [].
Proof.
  induction l as [|a l IH]; simpl; [done|].
  intros [-> Hl]%orb_false_iff. auto.
Qed.



(** ** The offices available to a user *)

Lemma filter_fmap {A B} (f : A → B) (p : B → bool) (l : list A) :
  List.filter p (f <$> l) = f <$> List.filter (λ a, p (f a)) l.
Proof.
  induction l as [|a l IH]; [done|].
  rewrite fmap_cons. cbn [List.filter]. destruct (p (f a)); [|done].
  by rewrite fmap_cons, IH.
Qed.

(** A user with a record is among the resolved members of an office
    exactly when a membership row of the office is theirs. *)
Lemma mem_some_member u o s :
  is_Some (MemStorage.getUserById u s) →
  existsb (λ m, bool_decide (EnrichedMember.userId m = u))
          (MemStorage.getOfficeMembers o s)
  = holds_membership u o (JsMap.values (MemStorage.officeMembers s)).
Proof.
  intros [user Huser]. unfold MemStorage.getUserById in Huser.
  unfold MemStorage.getOfficeMembers, holds_membership, JsMap.values.
  induction (MemStorage.officeMembers s) as [|[k row] r IH]; [done|].
  rewrite fmap_cons. cbn [omap list_omap existsb snd]. unfold membership_of at 1.
  destruct (bool_decide (OfficeMember.officeId row = o)); cbn [andb]; [|done].
  destruct (JsMap.get (OfficeMember.userId row) _) as [user'|] eqn:Hrow.
  - cbn [existsb]. by rewrite IH.
  - rewrite bool_decide_eq_false_2; [done|].
    intros Heq. rewrite Heq in Hrow. congruence.
Qed.

(** Whoever is among the resolved members of an office has a membership
    row in it. *)
Lemma mem_some_member_holds u o s :
  existsb (λ m, bool_decide (EnrichedMember.userId m = u))
          (MemStorage.getOfficeMembers o s) = true →
  holds_membership u o (JsMap.values (MemStorage.officeMembers s)) = true.
Proof.
  unfold MemStorage.getOfficeMembers, holds_membership, JsMap.values.
  induction (MemStorage.officeMembers s) as [|[k row] r IH]; [done|].
  rewrite fmap_cons. cbn [omap list_omap existsb snd]. unfold membership_of at 1.
  destruct (bool_decide (OfficeMember.officeId row = o)); cbn [andb];
    [|exact IH].
  destruct (JsMap.get (OfficeMember.userId row) _).
  - cbn [existsb]. intros [H|H]%orb_true_iff.
    + unfold EnrichedMember.userId in H. cbn in H. by rewrite H.
    + rewrite IH by done. apply orb_true_r.
  - intros H. rewrite IH by done. apply orb_true_r.
Qed.

(** What each backend lists as available.  On the memory store, for a
    user who has a record, the offices that are not private or in which
    the user holds a membership, in the order of the store.  On the
    relational backend no private office; the office [getUserOffice]
    returns for the user is left out and every other office that is not
    private is listed. *)
Lemma getAvailableOffices_spec :
  (∀ s u,
     is_Some (MemStorage.getUserById u s) →
     MemStorage.getAvailableOffices u s
     = MemStorage.enrich_office s
         <$> List.filter
               (available_to u (JsMap.values (MemStorage.officeMembers s)))
               (JsMap.values (MemStorage.offices s)))
  ∧ (∀ s u o,
       o ∈ MemStorage.getAvailableOffices u s →
       EnrichedOffice.isPrivate o = true →
       holds_membership u (EnrichedOffice.id o)
         (JsMap.values (MemStorage.officeMembers s)) = true)
  ∧ (∀ d u o,
       o ∈ DatabaseStorage.getAvailableOffices u d →
       EnrichedOffice.isPrivate o = true →
       holds_membership u (EnrichedOffice.id o) (Db.officeMembers d) = true)
  ∧ (∀ d u mine o,
       DatabaseStorage.getUserOffice u d = Some mine →
       o ∈ DatabaseStorage.getAvailableOffices u d →
       EnrichedOffice.id o ≠ EnrichedOffice.id mine)
  ∧ (∀ d u office,
       office ∈ Db.offices d →
       Office.isPrivate office = false →
       (∀ mine, DatabaseStorage.getUserOffice u d = Some mine →
                EnrichedOffice.id mine ≠ Office.id office) →
       DatabaseStorage.enrich_office d office
         ∈ DatabaseStorage.getAvailableOffices u d).
Proof.
  split_and!.
  - intros s u Hu. unfold MemStorage.getAvailableOffices,
      MemStorage.getAllOffices.
    rewrite filter_fmap. f_equal. apply filter_ext. intros office.
    unfold available_to, some_member, EnrichedOffice.isPrivate,
      MemStorage.enrich_office, enrich.
    cbn [EnrichedOffice.office EnrichedOffice.members].
    by rewrite mem_some_member.
  - intros s u o Hin Hpriv.
    unfold MemStorage.getAvailableOffices, MemStorage.getAllOffices in Hin.
    apply list_elem_of_In, filter_In in Hin as [Hin Hp].
    apply list_elem_of_In, list_elem_of_fmap in Hin as (office & -> & _).
    rewrite Hpriv in Hp. cbn [negb orb] in Hp.
    by apply mem_some_member_holds in Hp.
  - intros d u o Hin Hpriv. exfalso.
    unfold DatabaseStorage.getAvailableOffices in Hin.
    apply list_elem_of_fmap in Hin as (office & -> & Hin).
    apply list_elem_of_In, filter_In in Hin as [_ Hp].
    unfold EnrichedOffice.isPrivate, DatabaseStorage.enrich_office, enrich
      in Hpriv. cbn in Hpriv.
    destruct (DatabaseStorage.getUserOffice u d);
      [apply andb_true_iff in Hp as [_ Hp]|];
      apply bool_decide_eq_true in Hp; congruence.
  - intros d u mine o Hmine Hin.
    unfold DatabaseStorage.getAvailableOffices in Hin. rewrite Hmine in Hin.
    apply list_elem_of_fmap in Hin as (office & -> & Hin).
    apply list_elem_of_In, filter_In in Hin as [_ Hp].
    apply andb_true_iff in Hp as [Hp _]. apply negb_true_iff in Hp.
    by apply bool_decide_eq_false in Hp.
  - intros d u office Hin Hpub Hmine.
    unfold DatabaseStorage.getAvailableOffices.
    apply list_elem_of_fmap. exists office. split; [done|].
    apply list_elem_of_In, filter_In. split; [by apply list_elem_of_In|].
    destruct (DatabaseStorage.getUserOffice u d) as [mine|] eqn:E.
    + apply andb_true_iff. split; [|by apply bool_decide_eq_true].
      apply negb_true_iff, bool_decide_eq_false. intros Heq.
      by apply (Hmine mine).
    + by apply bool_decide_eq_true.
Qed.

(** C8. [DatabaseStorage.getAvailableOffices] selects on [isPrivate]
    alone: it never lists a private office, so a private office the user
    is a member of is missing from the list, where the comment in the
    method and the memory store have it.  With [U2] a member of the
    private office 1 of [U1] and the owner of office 2, the relational
    backend takes office 2 for the office of [U2] and lists nothing;
    the memory store lists both offices. *)
Theorem db_getAvailableOffices_omits_joined :
  let wd := run_calls (storage := DatabaseStorage_IStorage Fixtures.env_up)
              Scenarios.joined_and_owns (mkWorld Db.empty [] 100) in
  let wm := run_calls (storage := MemStorage_IStorage Fixtures.env_up)
              Scenarios.joined_and_owns (mkWorld MemStorage.new [] 100) in
  (∀ d u o, o ∈ DatabaseStorage.getAvailableOffices u d →
            EnrichedOffice.isPrivate o = false)
  ∧ reachable (DatabaseStorage_IStorage Fixtures.env_up) Db.empty wd
  ∧ (λ o, (Office.id o, Office.isPrivate o, Office.ownerId o))
      <$> Db.offices (store wd)
    = [(1, true, "U1"); (2, false, "U2")]
  ∧ holds_membership "U2" 1 (Db.officeMembers (store wd)) = true
  ∧ EnrichedOffice.id <$> DatabaseStorage.getUserOffice "U2" (store wd)
    = Some 2
  ∧ DatabaseStorage.getAvailableOffices "U2" (store wd) = []
  ∧ EnrichedOffice.id <$> MemStorage.getAvailableOffices "U2" (store wm)
    = [1; 2].
Proof.
  split_and!; try by vm_compute.
  - intros d u o Hin.
    unfold DatabaseStorage.getAvailableOffices in Hin.
    apply list_elem_of_fmap in Hin as (office & -> & Hin).
    apply list_elem_of_In, filter_In in Hin as [_ Hp].
    unfold EnrichedOffice.isPrivate, DatabaseStorage.enrich_office, enrich.
    cbn [EnrichedOffice.office].
    destruct (DatabaseStorage.getUserOffice u d);
      [apply andb_true_iff in Hp as [_ Hp]|];
      by apply bool_decide_eq_true in Hp.
  - apply reachable_run_calls, reachable_init.
Qed.

(** ** The office of a user *)

(** C9. [MemStorage.getUserOffice] returns the first office, in the order
    of creation, that the user owns or is a member of: for a user who
    joined office 1 and owns office 2 it returns office 1, where the
    relational backend returns office 2. *)
Theorem mem_getUserOffice_returns_joined_office :
  EnrichedOffice.office
    <$> MemStorage.getUserOffice "U1" (store Fixtures.mem_two_offices)
  = Some Fixtures.lobby
  ∧ Office.ownerId Fixtures.lobby ≠ "U1"
  ∧ JsMap.get 2 (MemStorage.offices (store Fixtures.mem_two_offices))
    = Some Fixtures.den
  ∧ Office.ownerId Fixtures.den = "U1"
  ∧ EnrichedOffice.office
      <$> DatabaseStorage.getUserOffice "U1" (store Fixtures.db_two_offices)
    = Some Fixtures.den.
Proof. by vm_compute. Qed.

Lemma NoDup_fmap_eq {A B} (f : A → B) (l : list A) x y :
  NoDup (f <$> l) → x ∈ l → y ∈ l → f x = f y → x = y.
Proof.
  induction l as [|a l IH]; [by intros _ ?%elem_of_nil|].
  rewrite fmap_cons, list.NoDup_cons.
  intros [Hnin Hnd] [->|Hx]%elem_of_cons [->|Hy]%elem_of_cons Hf; [done|..].
  - exfalso. apply Hnin. rewrite Hf. by apply list_elem_of_fmap_2.
  - exfalso. apply Hnin. rewrite <- Hf. by apply list_elem_of_fmap_2.
  - by apply IH.
Qed.

Lemma head_filter_Some {A} (p : A → bool) (l : list A) x :
  x ∈ l → p x = true →
  ∃ y, head (List.filter p l) = Some y ∧ y ∈ l ∧ p y = true.
Proof.
  intros Hin Hp.
  assert (x ∈ List.filter p l) as Hf
    by (apply list_elem_of_In, filter_In; split; [by apply list_elem_of_In|done]).
  destruct (List.filter p l) as [|y r] eqn:E; [by apply elem_of_nil in Hf|].
  exists y. split; [done|].
  assert (y ∈ List.filter p l) as Hy by (rewrite E; left).
  apply list_elem_of_In, filter_In in Hy as [Hy Hpy].
  split; [by apply list_elem_of_In|done].
Qed.

(** [DatabaseStorage.getUserOffice] looks for an owned office first: a
    user who owns an office gets an office they own, whatever they are a
    member of. *)
Lemma db_getUserOffice_owner_first d u office :
  NoDup (Office.id <$> Db.offices d) →
  office ∈ Db.offices d → Office.ownerId office = u →
  ∃ view, DatabaseStorage.getUserOffice u d = Some view
          ∧ EnrichedOffice.office view ∈ Db.offices d
          ∧ EnrichedOffice.ownerId view = u.
Proof.
  intros Hnd Hin Hown. unfold DatabaseStorage.getUserOffice.
  destruct (head_filter_Some (λ o, bool_decide (Office.ownerId o = u))
              (Db.offices d) office Hin) as (mine & -> & Hmine & Hu);
    [by apply bool_decide_eq_true|].
  apply bool_decide_eq_true in Hu.
  unfold DatabaseStorage.getOfficeById.
  destruct (head_filter_Some (λ o, bool_decide (Office.id o = Office.id mine))
              (Db.offices d) mine Hmine) as (found & -> & Hfound & Hid);
    [by apply bool_decide_eq_true|].
  apply bool_decide_eq_true in Hid.
  assert (found = mine) as -> by by eapply NoDup_fmap_eq.
  eexists. split; [done|]. by split.
Qed.

(** ** Adding a member who is already one *)

(** C10. On the memory store, adding a membership for a pair that already
    has one returns normally and replaces the row in place: the new row
    has the given owner flag and the current time, the keys of the map and
    their number are the same, every other entry is untouched and the user
    is still a member. *)
Theorem mem_addOfficeMember_existing env member w :
  let o := InsertOfficeMember.officeId member in
  let u := InsertOfficeMember.userId member in
  MemStorage.isOfficeMember o u (store w) = true →
  ∃ enriched w',
    MemStorage.addOfficeMember env member w = (Returned enriched, w')
    ∧ JsMap.get (MemStorage.member_key o u)
                (MemStorage.officeMembers (store w'))
      = Some {| OfficeMember.id := 0;
                OfficeMember.officeId := o;
                OfficeMember.userId := u;
                OfficeMember.isOwner :=
                  or_false (InsertOfficeMember.isOwner member);
                OfficeMember.joinedAt := now w |}
    ∧ JsMap.keys (MemStorage.officeMembers (store w'))
      = JsMap.keys (MemStorage.officeMembers (store w))
    ∧ length (MemStorage.officeMembers (store w'))
      = length (MemStorage.officeMembers (store w))
    ∧ (∀ k, k ≠ MemStorage.member_key o u →
            JsMap.get k (MemStorage.officeMembers (store w'))
            = JsMap.get k (MemStorage.officeMembers (store w)))
    ∧ MemStorage.isOfficeMember o u (store w') = true.
Proof.
  intros o u Hin. unfold MemStorage.isOfficeMember in Hin.
  apply has_true_keys in Hin.
  rewrite mem_addOfficeMember_run. eexists _, _. split; [reflexivity|].
  cbn [store MemStorage.set_officeMembers MemStorage.officeMembers].
  fold o u. split_and!.
  - apply get_set_eq.
  - by apply keys_set_present.
  - by apply length_set_present.
  - intros k Hk. by apply get_set_ne.
  - unfold MemStorage.isOfficeMember, JsMap.has.
    cbn [MemStorage.officeMembers MemStorage.set_officeMembers].
    by rewrite get_set_eq.
Qed.

Lemma mem_addOfficeMember_existing_witness :
  ∃ enriched w',
    MemStorage.addOfficeMember Fixtures.env_up
      (InsertOfficeMember.mk 1 "U2" (Some true)) Fixtures.mem_office1
    = (Returned enriched, w')
    ∧ JsMap.get "1:U2" (MemStorage.officeMembers (store w'))
      = Some (OfficeMember.mk 0 1 "U2" true 200)
    ∧ length (MemStorage.officeMembers (store w')) = 2%nat.
Proof.
  destruct (mem_addOfficeMember_existing Fixtures.env_up
              (InsertOfficeMember.mk 1 "U2" (Some true)) Fixtures.mem_office1)
    as (enriched & w' & Hrun & Hget & _ & Hlen & _); [by vm_compute|].
  exists enriched, w'. split_and!; [exact Hrun|exact Hget|exact Hlen].
Defined.

(** * Further properties of the storage, the gateway and the routes *)

(** ** Looking up what was stored *)

Lemma head_filter_None {A} (p : A → bool) (l : list A) :
  head (List.filter p l) = None ↔ existsb p l = false.
Proof.
  induction l as [|a l IH]; simpl; [done|].
  destruct (p a); simpl; [split; discriminate|done].
Qed.

Lemma head_filter_app {A} (p : A → bool) (l : list A) x :
  head (List.filter p (l ++ [x]))
  = match head (List.filter p l) with
    | Some y => Some y
    | None => if p x then Some x else None
    end.
Proof.
  induction l as [|a l IH]; simpl.
  - by destruct (p x).
  - destruct (p a); simpl; [done|exact IH].
Qed.

Lemma fmap_if_absent {A} (p : A → bool) (f : A → A) (l : list A) :
  existsb p l = false → (λ x, if p x then f x else x) <$> l = l.
Proof.
  induction l as [|a l IH]; [done|].
  rewrite fmap_cons. cbn [existsb]. intros [-> Hl]%orb_false_iff.
  by rewrite IH.
Qed.

(** X1. [MemStorage.createUser] always returns; the user it returns is the
    one [getUserById] finds afterwards, it carries no tokens whatever the
    caller passed, the other users are found as before and nothing is
    sent. *)
Theorem mem_createUser_round_trip user (w : World MemStorage.t) :
  ∃ u w',
    MemStorage.createUser user w = (Returned u, w')
    ∧ MemStorage.getUserById (InsertUser.id user) (store w') = Some u
    ∧ User.id u = InsertUser.id user
    ∧ User.username u = InsertUser.username user
    ∧ (User.accessToken u, User.refreshToken u, User.tokenExpiry u)
      = (None, None, None)
    ∧ (∀ id, id ≠ InsertUser.id user →
         MemStorage.getUserById id (store w')
         = MemStorage.getUserById id (store w))
    ∧ MemStorage.offices (store w') = MemStorage.offices (store w)
    ∧ MemStorage.officeMembers (store w') = MemStorage.officeMembers (store w)
    ∧ sent w' = sent w.
Proof.
  unfold MemStorage.createUser. rewrite bind_modify. unfold ret.
  eexists _, _. split; [reflexivity|].
  unfold MemStorage.getUserById, MemStorage.set_users.
  cbn [store sent MemStorage.users MemStorage.offices MemStorage.officeMembers
       User.id User.username User.accessToken User.refreshToken
       User.tokenExpiry].
  split_and!; try done.
  - apply get_set_eq.
  - intros id Hne. by apply get_set_ne.
Qed.

Lemma db_getUserById_has_user id d :
  Db.has_user id d = false ↔ DatabaseStorage.getUserById id d = None.
Proof.
  unfold Db.has_user, DatabaseStorage.getUserById.
  symmetry. apply head_filter_None.
Qed.

Lemma db_getUserById_Some id d u :
  DatabaseStorage.getUserById id d = Some u → Db.has_user id d = true.
Proof.
  intros Hu. destruct (Db.has_user id d) eqn:E; [done|].
  apply db_getUserById_has_user in E. congruence.
Qed.

(** X2. [DatabaseStorage.createUser] rejects, leaving everything as it
    was, when a user with the id is stored already (the primary key of
    [users]); otherwise it returns the row it inserted, which keeps the
    tokens given and is what [getUserById] finds afterwards, and the other
    rows and the requests sent are as before. *)
Theorem db_createUser_round_trip user (w : World Db.t) :
  match DatabaseStorage.getUserById (InsertUser.id user) (store w) with
  | Some _ => ∃ e, DatabaseStorage.createUser user w = (Thrown e, w)
  | None =>
      ∃ u w',
        DatabaseStorage.createUser user w = (Returned u, w')
        ∧ DatabaseStorage.getUserById (InsertUser.id user) (store w') = Some u
        ∧ User.id u = InsertUser.id user
        ∧ User.accessToken u = or_null (InsertUser.accessToken user)
        ∧ User.refreshToken u = or_null (InsertUser.refreshToken user)
        ∧ (∀ id, id ≠ InsertUser.id user →
             DatabaseStorage.getUserById id (store w')
             = DatabaseStorage.getUserById id (store w))
        ∧ Db.offices (store w') = Db.offices (store w)
        ∧ Db.officeMembers (store w') = Db.officeMembers (store w)
        ∧ sent w' = sent w
  end.
Proof.
  unfold DatabaseStorage.createUser, Db.insert_user. rewrite bind_gets.
  cbn [User.id].
  destruct (DatabaseStorage.getUserById _ _) as [u0|] eqn:Hu.
  - rewrite (db_getUserById_Some _ _ _ Hu). eexists. reflexivity.
  - pose proof Hu as Hno. apply db_getUserById_has_user in Hno. rewrite Hno.
    rewrite bind_modify. unfold ret. eexists _, _. split; [reflexivity|].
    cbn [store sent Db.users Db.offices Db.officeMembers User.id
         User.accessToken User.refreshToken].
    unfold DatabaseStorage.getUserById in *. cbn [Db.users].
    split_and!; try done.
    + rewrite head_filter_app, Hu. cbn [User.id].
      by rewrite bool_decide_eq_true_2.
    + intros id Hne. rewrite head_filter_app. cbn [User.id].
      rewrite bool_decide_eq_false_2 by congruence. clear Hu. by destruct (head _).
Qed.

Lemma filter_fmap_fixed {A} (q : A → bool) (g : A → A) (l : list A) :
  (∀ x, q (g x) = q x) → (∀ x, q x = true → g x = x) →
  List.filter q (g <$> l) = List.filter q l.
Proof.
  intros Hq Hg. induction l as [|a l IH]; [done|].
  rewrite fmap_cons. cbn [List.filter]. rewrite Hq, IH.
  destruct (q a) eqn:E; [|done]. by rewrite Hg.
Qed.

Lemma head_filter_holds {A} (p : A → bool) (l : list A) x :
  head (List.filter p l) = Some x → p x = true ∧ x ∈ l.
Proof.
  intros Hx.
  assert (x ∈ List.filter p l) as Hin.
  { destruct (List.filter p l) as [|y r]; [done|].
    injection Hx as ->. left. }
  apply list_elem_of_In, filter_In in Hin as [Hin Hp].
  split; [done|by apply list_elem_of_In].
Qed.

Lemma head_fmap {A B} (f : A → B) (l : list A) : head (f <$> l) = f <$> head l.
Proof. by destruct l. Qed.

(** ** Updating a user *)

(** [Db.update_users], check by check. *)
Lemma db_update_users_run p f (w : World Db.t) :
  Db.update_users p f w
  = if Db.update_takes_id p f (store w) then
      (Thrown "duplicate key value violates users_pkey", w)
    else if Db.update_leaves_owner p f (store w) then
      (Thrown "update on users violates foreign key offices_owner_id_users_id_fk",
       w)
    else if Db.update_leaves_member p f (store w) then
      (Thrown "update on users violates foreign key office_members_user_id_users_id_fk",
       w)
    else
      (Returned (f <$> List.filter p (Db.users (store w))),
       mkWorld (Db.mk (Db.updated_users p f (store w)) (Db.offices (store w))
                  (Db.officeMembers (store w)) (Db.offices_id_seq (store w))
                  (Db.office_members_id_seq (store w)))
               (sent w) (now w)).
Proof.
  unfold Db.update_users. rewrite !bind_gets.
  destruct (Db.update_takes_id p f (store w)); [done|].
  destruct (Db.update_leaves_owner p f (store w)); [done|].
  by destruct (Db.update_leaves_member p f (store w)).
Qed.

(** No row changes its [id]: no check fails. *)
Lemma db_moved_users_nil p f d :
  (∀ u, u ∈ Db.users d → p u = true → User.id (f u) = User.id u) →
  Db.moved_users p f d = [].
Proof.
  intros Hf. apply filter_existsb_false.
  destruct (existsb _ _) eqn:E; [|done].
  apply existsb_exists in E as (u & Hin%list_elem_of_In & Hq).
  apply andb_true_iff in Hq as [Hp Hne%negb_true_iff%bool_decide_eq_false].
  destruct Hne. by apply Hf.
Qed.

Lemma db_update_users_same_ids p f (w : World Db.t) :
  (∀ u, u ∈ Db.users (store w) → p u = true → User.id (f u) = User.id u) →
  Db.update_users p f w
  = (Returned (f <$> List.filter p (Db.users (store w))),
     mkWorld (Db.mk (Db.updated_users p f (store w)) (Db.offices (store w))
                (Db.officeMembers (store w)) (Db.offices_id_seq (store w))
                (Db.office_members_id_seq (store w)))
             (sent w) (now w)).
Proof.
  intros Hf. rewrite db_update_users_run.
  unfold Db.update_takes_id, Db.update_leaves_owner, Db.update_leaves_member.
  by rewrite (db_moved_users_nil p f (store w) Hf).
Qed.

(** The [id] an update leaves a user with. *)
Lemma apply_user_updates_id id updates u :
  default id (UserUpdates.id updates) = id → User.id u = id →
  User.id (apply_user_updates u updates) = User.id u.
Proof.
  intros Hkeep Hid. unfold apply_user_updates. cbn [User.id].
  rewrite Hid. by destruct (UserUpdates.id updates).
Qed.

(** X3. Updating a user who is not stored: the memory store throws; the
    relational backend throws when the update has no key and otherwise
    returns no row ([undefined], passed on as a [User]).  Either way
    everything is left as it was. *)
Theorem updateUser_missing id updates (wm : World MemStorage.t)
    (wd : World Db.t) :
  MemStorage.getUserById id (store wm) = None →
  DatabaseStorage.getUserById id (store wd) = None →
  MemStorage.updateUser id updates wm
  = (Thrown ("User with ID " +:+ id +:+ " not found"), wm)
  ∧ DatabaseStorage.updateUser id updates wd
    = (if UserUpdates.is_empty updates then Thrown "No values to set"
       else Returned None, wd).
Proof.
  intros Hm Hd. split.
  - unfold MemStorage.updateUser. by rewrite bind_gets, Hm.
  - unfold DatabaseStorage.updateUser.
    destruct (UserUpdates.is_empty updates); [done|].
    unfold DatabaseStorage.getUserById in Hd.
    pose proof Hd as Hno. apply head_filter_None in Hno.
    erewrite bind_returned; cycle 1.
    { apply db_update_users_same_ids. intros u Hin Hp. exfalso.
      assert (existsb (λ u, bool_decide (User.id u = id)) (Db.users (store wd))
              = true) as Hex; [|congruence].
      apply existsb_exists. exists u. by rewrite <- list_elem_of_In. }
    unfold Db.updated_users. rewrite (fmap_if_absent _ _ _ Hno).
    rewrite (filter_existsb_false _ _ Hno). unfold ret. cbn [fmap list_fmap head].
    by destruct wd as [[] ? ?].
Qed.

Lemma updateUser_missing_witness :
  MemStorage.updateUser "U9" (isAdmin_update true) Fixtures.mem_one_user
  = (Thrown ("User with ID " +:+ "U9" +:+ " not found"), Fixtures.mem_one_user)
  ∧ DatabaseStorage.updateUser "U9" (isAdmin_update true) Fixtures.db_one_user
    = (Returned None, Fixtures.db_one_user).
Proof.
  apply (updateUser_missing "U9" (isAdmin_update true) Fixtures.mem_one_user
           Fixtures.db_one_user); reflexivity.
Defined.

(** [updateUser] on a stored user, on either backend. *)
Lemma mem_updateUser_present id updates u (w : World MemStorage.t) :
  MemStorage.getUserById id (store w) = Some u →
  ∃ w', MemStorage.updateUser id updates w
        = (Returned (Some (apply_user_updates u updates)), w')
        ∧ MemStorage.getUserById id (store w')
          = Some (apply_user_updates u updates)
        ∧ (∀ id', id' ≠ id →
             MemStorage.getUserById id' (store w')
             = MemStorage.getUserById id' (store w))
        ∧ MemStorage.offices (store w') = MemStorage.offices (store w)
        ∧ MemStorage.officeMembers (store w')
          = MemStorage.officeMembers (store w)
        ∧ sent w' = sent w.
Proof.
  intros Hm. unfold MemStorage.updateUser. rewrite bind_gets, Hm, bind_modify.
  unfold ret. eexists. split; [reflexivity|].
  unfold MemStorage.getUserById, MemStorage.set_users.
  cbn [store sent MemStorage.users MemStorage.offices MemStorage.officeMembers].
  split_and!; try done; [apply get_set_eq|].
  intros id' Hne. apply get_set_ne. congruence.
Qed.

Lemma db_updateUser_present id updates u (w : World Db.t) :
  UserUpdates.is_empty updates = false →
  default id (UserUpdates.id updates) = id →
  DatabaseStorage.getUserById id (store w) = Some u →
  ∃ w', DatabaseStorage.updateUser id updates w
        = (Returned (Some (apply_user_updates u updates)), w')
        ∧ DatabaseStorage.getUserById id (store w')
          = Some (apply_user_updates u updates)
        ∧ (∀ id', id' ≠ id →
             DatabaseStorage.getUserById id' (store w')
             = DatabaseStorage.getUserById id' (store w))
        ∧ Db.offices (store w') = Db.offices (store w)
        ∧ Db.officeMembers (store w') = Db.officeMembers (store w)
        ∧ sent w' = sent w.
Proof.
  intros Hkey Hkeep Hd. unfold DatabaseStorage.updateUser. rewrite Hkey.
  assert (∀ u', bool_decide (User.id u' = id) = true →
                User.id (apply_user_updates u' updates) = User.id u')
    as Hsame.
  { intros u' Hu%bool_decide_eq_true. by apply (apply_user_updates_id id). }
  erewrite bind_returned; cycle 1.
  { apply db_update_users_same_ids. intros u' _. apply Hsame. }
  unfold DatabaseStorage.getUserById in *. unfold ret.
  eexists. split; [by rewrite head_fmap, Hd|].
  cbn [store sent Db.users Db.offices Db.officeMembers].
  unfold Db.updated_users. split_and!; try done.
  - rewrite filter_fmap.
    rewrite (filter_ext _ (λ u, bool_decide (User.id u = id))).
    + rewrite head_fmap, Hd. cbn [fmap option_fmap option_map].
      apply head_filter_holds in Hd as [Hid _]. by rewrite Hid.
    + intros u'. destruct (bool_decide (User.id u' = id)) eqn:E; [|done].
      rewrite (Hsame u' E). exact E.
  - intros id' Hne. f_equal. apply filter_fmap_fixed.
    + intros u'. destruct (bool_decide (User.id u' = id)) eqn:E; [|done].
      by rewrite (Hsame u' E).
    + intros u' Hu%bool_decide_eq_true.
      rewrite bool_decide_eq_false_2; [done|congruence].
Qed.

(** X4. Updating a stored user returns the record with the given keys
    replaced; it is what [getUserById] finds afterwards under the id that
    was asked for, while every other user is found as before and nothing
    is sent.  The memory store does so for every update, also one that
    gives the record another [id].  The relational backend throws on an
    update without a key and changes nothing; it does the same as the
    memory store on an update that has a key and leaves the [id] as it
    is. *)
Theorem updateUser_round_trip id updates um ud (wm : World MemStorage.t)
    (wd : World Db.t) :
  MemStorage.getUserById id (store wm) = Some um →
  DatabaseStorage.getUserById id (store wd) = Some ud →
  (∃ w', MemStorage.updateUser id updates wm
         = (Returned (Some (apply_user_updates um updates)), w')
         ∧ MemStorage.getUserById id (store w')
           = Some (apply_user_updates um updates)
         ∧ (∀ id', id' ≠ id →
              MemStorage.getUserById id' (store w')
              = MemStorage.getUserById id' (store wm))
         ∧ sent w' = sent wm)
  ∧ (if UserUpdates.is_empty updates then
       DatabaseStorage.updateUser id updates wd
       = (Thrown "No values to set", wd)
     else
       default id (UserUpdates.id updates) = id →
       ∃ w', DatabaseStorage.updateUser id updates wd
             = (Returned (Some (apply_user_updates ud updates)), w')
             ∧ DatabaseStorage.getUserById id (store w')
               = Some (apply_user_updates ud updates)
             ∧ (∀ id', id' ≠ id →
                  DatabaseStorage.getUserById id' (store w')
                  = DatabaseStorage.getUserById id' (store wd))
             ∧ sent w' = sent wd).
Proof.
  intros Hm Hd. split.
  - destruct (mem_updateUser_present id updates um wm Hm)
      as (w' & ? & ? & ? & _ & _ & ?). by exists w'.
  - destruct (UserUpdates.is_empty updates) eqn:Hkey.
    + unfold DatabaseStorage.updateUser. by rewrite Hkey.
    + intros Hkeep.
      destruct (db_updateUser_present id updates ud wd Hkey Hkeep Hd)
        as (w' & ? & ? & ? & _ & _ & ?). by exists w'.
Qed.

Lemma updateUser_round_trip_witness :
  (∃ w', MemStorage.updateUser "U1" (isAdmin_update false)
           Fixtures.mem_one_user
         = (Returned (Some (apply_user_updates Fixtures.admin
                              (isAdmin_update false))), w')
         ∧ MemStorage.getUserById "U1" (store w')
           = Some (apply_user_updates Fixtures.admin (isAdmin_update false))
         ∧ (∀ id', id' ≠ "U1" →
              MemStorage.getUserById id' (store w')
              = MemStorage.getUserById id' (store Fixtures.mem_one_user))
         ∧ sent w' = sent Fixtures.mem_one_user)
  ∧ (∃ w', DatabaseStorage.updateUser "U1" (isAdmin_update false)
             Fixtures.db_one_user
           = (Returned (Some (apply_user_updates Fixtures.admin
                                (isAdmin_update false))), w')
           ∧ DatabaseStorage.getUserById "U1" (store w')
             = Some (apply_user_updates Fixtures.admin (isAdmin_update false))
           ∧ (∀ id', id' ≠ "U1" →
                DatabaseStorage.getUserById id' (store w')
                = DatabaseStorage.getUserById id'
                    (store Fixtures.db_one_user))
           ∧ sent w' = sent Fixtures.db_one_user).
Proof.
  destruct (updateUser_round_trip "U1" (isAdmin_update false) Fixtures.admin
              Fixtures.admin Fixtures.mem_one_user Fixtures.db_one_user)
    as [Hmem Hdb]; [reflexivity..|].
  split; [exact Hmem|exact (Hdb eq_refl)].
Defined.

(** ** Memberships: adding, removing, asking *)

Lemma mem_channel_of id s :
  channel_of (MemStorage.getOfficeById id s)
  = JsMap.get id (MemStorage.offices s) ≫= Office.voiceChannelId.
Proof.
  unfold MemStorage.getOfficeById.
  by destruct (JsMap.get id (MemStorage.offices s)).
Qed.

Lemma member_key_ne o u o' u' :
  (o', u') ≠ (o, u) → MemStorage.member_key o u ≠ MemStorage.member_key o' u'.
Proof. intros Hne Hk. apply member_key_inj in Hk as [-> ->]. done. Qed.

Lemma has_set_ne {V} (k k' : string) (v : V) m :
  k ≠ k' → JsMap.has k' (JsMap.set k v m) = JsMap.has k' m.
Proof. intros Hne. unfold JsMap.has. by rewrite get_set_ne. Qed.

Lemma has_delete_ne {V} (k k' : string) (m : list (string * V)) :
  k ≠ k' → JsMap.has k' (JsMap.delete k m) = JsMap.has k' m.
Proof. intros Hne. unfold JsMap.has. by rewrite get_delete_ne. Qed.

(** What [Db.insert_member] does: it rejects without a change, or appends
    one row for the pair it was given. *)
Lemma db_insert_member_cases officeId userId isOwner (w : World Db.t) :
  let r := Db.insert_member officeId userId isOwner w in
  let next := Db.office_members_id_seq (store w) in
  sent r.2 = sent w ∧ now r.2 = now w
  ∧ Db.users (store r.2) = Db.users (store w)
  ∧ Db.offices (store r.2) = Db.offices (store w)
  ∧ Db.offices_id_seq (store r.2) = Db.offices_id_seq (store w)
  ∧ Db.office_members_id_seq (store r.2) = next + 1
  ∧ if negb (Db.has_member_id next (store w))
       && Db.has_office officeId (store w) && Db.has_user userId (store w)
    then
      r.1 = Returned (db_row (InsertOfficeMember.mk officeId userId isOwner)
                             next (now w))
      ∧ Db.officeMembers (store r.2)
        = Db.officeMembers (store w)
            ++ [db_row (InsertOfficeMember.mk officeId userId isOwner)
                       next (now w)]
    else
      (∃ e, r.1 = Thrown e)
      ∧ Db.officeMembers (store r.2) = Db.officeMembers (store w).
Proof.
  unfold Db.insert_member, Db.next_member_id. run. cbn [store sent now].
  unfold Db.has_member_id, Db.has_office, Db.has_user.
  cbn [Db.officeMembers Db.offices Db.users].
  destruct (existsb _ (Db.officeMembers (store w))); cbn [negb andb];
    [split_and!; eauto|].
  destruct (existsb _ (Db.offices (store w))); cbn [negb andb];
    [|split_and!; eauto].
  destruct (existsb _ (Db.users (store w))); cbn [negb andb];
    split_and!; eauto.
Qed.

(** [DatabaseStorage.addOfficeMember] once the row is inserted: the
    permission update may fail, the method returns. *)
Lemma db_addOfficeMember_after_insert env member (w w1 : World Db.t) row :
  Db.insert_member (InsertOfficeMember.officeId member)
    (InsertOfficeMember.userId member) (InsertOfficeMember.isOwner member) w
  = (Returned row, w1) →
  DatabaseStorage.addOfficeMember env member w
  = (Returned
       (EnrichedMember.mk row
          (default (User.unknown (InsertOfficeMember.userId member))
             (DatabaseStorage.getUserById
                (InsertOfficeMember.userId member) (store w1)))),
     mkWorld (store w1)
       (sent w1 ++ permission_requests env
          (db_office_row (InsertOfficeMember.officeId member) (store w1)
             ≫= Office.voiceChannelId)
          (InsertOfficeMember.userId member) None None)
       (now w1)).
Proof.
  intros Hins. unfold DatabaseStorage.addOfficeMember.
  cbv zeta. erewrite bind_returned; [|exact Hins].
  erewrite bind_returned; cycle 1.
  { etrans; [|apply (try_permissions_run env
                       (db_office_row (InsertOfficeMember.officeId member)
                          (store w1) ≫= Office.voiceChannelId)
                       (InsertOfficeMember.userId member) None None)].
    unfold try_catch. rewrite bind_gets. unfold db_office_row.
    by destruct (head _). }
  by rewrite bind_gets.
Qed.

(** The rows after [DatabaseStorage.addOfficeMember]: as before when it
    throws, with one more row for the pair when it returns. *)
Lemma db_addOfficeMember_cases env member (w : World Db.t) :
  let r := DatabaseStorage.addOfficeMember env member w in
  let next := Db.office_members_id_seq (store w) in
  Db.users (store r.2) = Db.users (store w)
  ∧ Db.offices (store r.2) = Db.offices (store w)
  ∧ if negb (Db.has_member_id next (store w))
       && Db.has_office (InsertOfficeMember.officeId member) (store w)
       && Db.has_user (InsertOfficeMember.userId member) (store w)
    then
      (∃ user, r.1 = Returned (EnrichedMember.mk (db_row member next (now w))
                                                 user))
      ∧ Db.officeMembers (store r.2)
        = Db.officeMembers (store w) ++ [db_row member next (now w)]
    else
      (∃ e, r.1 = Thrown e)
      ∧ Db.officeMembers (store r.2) = Db.officeMembers (store w)
      ∧ sent r.2 = sent w.
Proof.
  cbv zeta.
  pose proof (db_insert_member_cases (InsertOfficeMember.officeId member)
                (InsertOfficeMember.userId member)
                (InsertOfficeMember.isOwner member) w) as Hins.
  cbv zeta in Hins.
  destruct Hins as (Hsent & Hnow & Hu & Ho & _ & _ & Hcase).
  destruct (Db.insert_member _ _ _ w) as [[row|e] w1] eqn:Hrun;
    cbn [fst snd] in *.
  - rewrite (db_addOfficeMember_after_insert env member w w1 row Hrun).
    cbn [fst snd store]. split; [done|]. split; [done|].
    destruct (_ && _ && _).
    + destruct Hcase as [[= ->] Hrows]. destruct member. eauto.
    + by destruct Hcase as [[e [=]] _].
  - unfold DatabaseStorage.addOfficeMember. cbv zeta.
    erewrite bind_thrown; [|exact Hrun]. cbn [fst snd].
    split; [done|]. split; [done|].
    destruct (_ && _ && _).
    + by destruct Hcase as [[=] _].
    + destruct Hcase as [_ Hrows]. eauto.
Qed.

Lemma db_removeOfficeMember_run env officeId userId (w : World Db.t) :
  DatabaseStorage.removeOfficeMember env officeId userId w
  = (Returned tt,
     mkWorld
       (Db.mk (Db.users (store w)) (Db.offices (store w))
          (List.filter (λ m, negb (membership_of officeId userId m))
                       (Db.officeMembers (store w)))
          (Db.offices_id_seq (store w)) (Db.office_members_id_seq (store w)))
       (sent w ++ permission_requests env
          (db_office_row officeId (store w) ≫= Office.voiceChannelId)
          userId (Some 0) (Some 3145728))
       (now w)).
Proof.
  unfold DatabaseStorage.removeOfficeMember.
  erewrite bind_returned; cycle 1.
  { etrans; [|apply (try_permissions_run env
                       (db_office_row officeId (store w)
                          ≫= Office.voiceChannelId)
                       userId (Some 0) (Some 3145728))].
    unfold try_catch. rewrite bind_gets. unfold db_office_row.
    by destruct (head _). }
  reflexivity.
Qed.

Lemma db_isOfficeMember_holds o u d :
  DatabaseStorage.isOfficeMember o u d
  = holds_membership u o (Db.officeMembers d).
Proof.
  unfold DatabaseStorage.isOfficeMember, holds_membership.
  fold (membership_of o u).
  induction (Db.officeMembers d) as [|m r IH]; [done|].
  cbn [List.filter existsb]. by destruct (membership_of o u m).
Qed.

Lemma holds_membership_app u o rows rows' :
  holds_membership u o (rows ++ rows')
  = holds_membership u o rows || holds_membership u o rows'.
Proof. unfold holds_membership. apply existsb_app. Qed.

Lemma holds_membership_filter_out u o o' u' rows :
  holds_membership u' o'
    (List.filter (λ m, negb (membership_of o u m)) rows)
  = if decide ((o', u') = (o, u)) then false
    else holds_membership u' o' rows.
Proof.
  unfold holds_membership.
  induction rows as [|m r IH]; cbn [List.filter existsb].
  - by case_decide.
  - destruct (membership_of o u m) eqn:Hm; cbn [negb existsb]; rewrite IH.
    + case_decide as Heq; [done|].
      destruct (membership_of o' u' m) eqn:Hm'; [|done].
      exfalso. apply Heq. unfold membership_of in *.
      apply andb_true_iff in Hm
        as [?%bool_decide_eq_true ?%bool_decide_eq_true].
      apply andb_true_iff in Hm'
        as [?%bool_decide_eq_true ?%bool_decide_eq_true].
      congruence.
    + case_decide as Heq; [|done].
      injection Heq as -> ->. by rewrite Hm.
Qed.

(** [MemStorage.addOfficeMember] returns, after which the pair is a
    member and the users are as before. *)
Lemma mem_addOfficeMember_member env member (w : World MemStorage.t) :
  ∃ m w',
    MemStorage.addOfficeMember env member w = (Returned m, w')
    ∧ MemStorage.isOfficeMember (InsertOfficeMember.officeId member)
        (InsertOfficeMember.userId member) (store w') = true
    ∧ MemStorage.users (store w') = MemStorage.users (store w).
Proof.
  pose proof (mem_addOfficeMember_run env member w) as Hrun.
  cbv zeta in Hrun. rewrite Hrun. eexists _, _. split; [reflexivity|].
  unfold MemStorage.isOfficeMember, MemStorage.set_officeMembers, JsMap.has.
  cbn [store MemStorage.officeMembers MemStorage.users].
  by rewrite get_set_eq.
Qed.

(** X5. [MemStorage.addOfficeMember] accepts any pair: it never throws,
    whether or not the office and the user exist and whatever Discord
    answers; afterwards the pair is a member, every other pair is a member
    exactly when it was before, and users and offices are untouched.  When
    the user has no record the member returned carries the placeholder
    user. *)
Theorem mem_addOfficeMember_accepts env member (w : World MemStorage.t) :
  let o := InsertOfficeMember.officeId member in
  let u := InsertOfficeMember.userId member in
  ∃ m w',
    MemStorage.addOfficeMember env member w = (Returned m, w')
    ∧ MemStorage.isOfficeMember o u (store w') = true
    ∧ (∀ o' u', (o', u') ≠ (o, u) →
         MemStorage.isOfficeMember o' u' (store w')
         = MemStorage.isOfficeMember o' u' (store w))
    ∧ MemStorage.users (store w') = MemStorage.users (store w)
    ∧ MemStorage.offices (store w') = MemStorage.offices (store w)
    ∧ EnrichedMember.user m
      = default (User.unknown u) (MemStorage.getUserById u (store w)).
Proof.
  intros o u. pose proof (mem_addOfficeMember_run env member w) as Hrun.
  cbv zeta in Hrun. rewrite Hrun. eexists _, _. split; [reflexivity|].
  unfold MemStorage.isOfficeMember, MemStorage.set_officeMembers.
  cbn [store MemStorage.officeMembers MemStorage.users MemStorage.offices
       EnrichedMember.user].
  split_and!; try done.
  - unfold JsMap.has. by rewrite get_set_eq.
  - intros o' u' Hne. apply has_set_ne. by apply member_key_ne.
Qed.

(** X6. [DatabaseStorage.addOfficeMember] inserts before anything else:
    when the office or the user has no row the insertion violates a
    foreign key, the method throws, no row is added and nothing is sent
    to Discord.  When both exist (and the serial ids are fresh) it
    returns, whatever Discord answers, and the pair is a member
    afterwards.  Either way the other pairs are members exactly when they
    were before. *)
Theorem db_addOfficeMember_checks env member (w : World Db.t) :
  Db_ids_fresh (store w) →
  let o := InsertOfficeMember.officeId member in
  let u := InsertOfficeMember.userId member in
  let r := DatabaseStorage.addOfficeMember env member w in
  (∀ o' u', (o', u') ≠ (o, u) →
     DatabaseStorage.isOfficeMember o' u' (store r.2)
     = DatabaseStorage.isOfficeMember o' u' (store w))
  ∧ match DatabaseStorage.getOfficeById o (store w),
          DatabaseStorage.getUserById u (store w) with
    | Some _, Some _ =>
        (∃ m, r.1 = Returned m)
        ∧ DatabaseStorage.isOfficeMember o u (store r.2) = true
    | _, _ =>
        (∃ e, r.1 = Thrown e)
        ∧ Db.officeMembers (store r.2) = Db.officeMembers (store w)
        ∧ sent r.2 = sent w
    end.
Proof.
  intros Hfresh o u r.
  pose proof (db_addOfficeMember_cases env member w) as Hc. cbv zeta in Hc.
  fold r o u in Hc. destruct Hc as (_ & _ & Hc).
  rewrite (fresh_member_id _ Hfresh) in Hc. cbn [negb andb] in Hc.
  assert (Db.has_office o (store w)
          = bool_decide (is_Some (DatabaseStorage.getOfficeById o (store w))))
    as Ho.
  { unfold Db.has_office, DatabaseStorage.getOfficeById.
    destruct (head _) eqn:E.
    - destruct (existsb _ _) eqn:E'; [done|].
      apply head_filter_None in E'. congruence.
    - by apply head_filter_None in E as ->. }
  assert (Db.has_user u (store w)
          = bool_decide (is_Some (DatabaseStorage.getUserById u (store w))))
    as Hu.
  { destruct (DatabaseStorage.getUserById u (store w)) eqn:E.
    - by rewrite (db_getUserById_Some _ _ _ E).
    - by apply db_getUserById_has_user in E as ->. }
  rewrite Ho, Hu in Hc. split.
  - intros o' u' Hne. rewrite !db_isOfficeMember_holds.
    destruct (_ && _).
    + destruct Hc as [_ ->]. rewrite holds_membership_app.
      cbn. unfold membership_of. cbn.
      fold o u. destruct (decide (o = o')) as [->|?];
        [|by rewrite bool_decide_eq_false_2, orb_false_r].
      rewrite (bool_decide_eq_false_2 (u = u')) by congruence.
      by rewrite andb_false_r, orb_false_r.
    + by destruct Hc as (_ & -> & _).
  - destruct (DatabaseStorage.getOfficeById o (store w));
      destruct (DatabaseStorage.getUserById u (store w));
      cbn in Hc; try done.
    destruct Hc as [[user Hret] Hrows]. split; [eauto|].
    rewrite db_isOfficeMember_holds, Hrows, holds_membership_app.
    cbn. unfold membership_of. cbn. fold o u.
    by rewrite !bool_decide_eq_true_2, orb_true_r.
Qed.

Lemma db_addOfficeMember_checks_witness :
  let member := InsertOfficeMember.mk 1 "U9" None in
  let r := DatabaseStorage.addOfficeMember Fixtures.env_up member
             Fixtures.db_office1 in
  (∀ o' u', (o', u') ≠ (1, "U9") →
     DatabaseStorage.isOfficeMember o' u' (store r.2)
     = DatabaseStorage.isOfficeMember o' u' (store Fixtures.db_office1))
  ∧ match DatabaseStorage.getOfficeById 1 (store Fixtures.db_office1),
          DatabaseStorage.getUserById "U9" (store Fixtures.db_office1) with
    | Some _, Some _ =>
        (∃ m, r.1 = Returned m)
        ∧ DatabaseStorage.isOfficeMember 1 "U9" (store r.2) = true
    | _, _ =>
        (∃ e, r.1 = Thrown e)
        ∧ Db.officeMembers (store r.2)
          = Db.officeMembers (store Fixtures.db_office1)
        ∧ sent r.2 = sent Fixtures.db_office1
    end.
Proof.
  apply (db_addOfficeMember_checks Fixtures.env_up
           (InsertOfficeMember.mk 1 "U9" None) Fixtures.db_office1).
  split; repeat constructor; simpl; lia.
Defined.

(** X7. [removeOfficeMember] never throws, on either backend and whatever
    Discord answers; afterwards the pair is not a member, every other
    pair is a member exactly when it was before, and users and offices
    are untouched. *)
Theorem removeOfficeMember_then_not_member env o u
    (wm : World MemStorage.t) (wd : World Db.t) :
  (∃ w', MemStorage.removeOfficeMember env o u wm = (Returned tt, w')
         ∧ MemStorage.isOfficeMember o u (store w') = false
         ∧ (∀ o' u', (o', u') ≠ (o, u) →
              MemStorage.isOfficeMember o' u' (store w')
              = MemStorage.isOfficeMember o' u' (store wm))
         ∧ MemStorage.users (store w') = MemStorage.users (store wm)
         ∧ MemStorage.offices (store w') = MemStorage.offices (store wm))
  ∧ (∃ w', DatabaseStorage.removeOfficeMember env o u wd = (Returned tt, w')
           ∧ DatabaseStorage.isOfficeMember o u (store w') = false
           ∧ (∀ o' u', (o', u') ≠ (o, u) →
                DatabaseStorage.isOfficeMember o' u' (store w')
                = DatabaseStorage.isOfficeMember o' u' (store wd))
           ∧ Db.users (store w') = Db.users (store wd)
           ∧ Db.offices (store w') = Db.offices (store wd)).
Proof.
  split.
  - rewrite mem_removeOfficeMember_run. eexists. split; [reflexivity|].
    unfold MemStorage.isOfficeMember, MemStorage.set_officeMembers.
    cbn [store MemStorage.officeMembers MemStorage.users MemStorage.offices].
    split_and!; try done.
    + unfold JsMap.has. by rewrite get_delete_eq.
    + intros o' u' Hne. apply has_delete_ne. by apply member_key_ne.
  - rewrite db_removeOfficeMember_run. eexists. split; [reflexivity|].
    cbn [store Db.users Db.offices]. split_and!; try done.
    + rewrite db_isOfficeMember_holds. cbn [Db.officeMembers].
      rewrite holds_membership_filter_out. by rewrite decide_True.
    + intros o' u' Hne. rewrite !db_isOfficeMember_holds.
      cbn [Db.officeMembers]. rewrite holds_membership_filter_out.
      by rewrite decide_False.
Qed.

Lemma keys_consistent_has o u m :
  keys_consistent m →
  JsMap.has (MemStorage.member_key o u) m
  = holds_membership u o (JsMap.values m).
Proof.
  intros [Hk _]. unfold JsMap.has, holds_membership, JsMap.values.
  induction Hk as [|[k row] r Hrow Hr IH]; [done|].
  rewrite fmap_cons. cbn [JsMap.get existsb fst snd] in *. subst k.
  destruct (decide (MemStorage.member_key o u = _)) as [Heq|Hne].
  - apply member_key_inj in Heq as [-> ->]. unfold membership_of.
    by rewrite !bool_decide_eq_true_2.
  - rewrite IH.
    assert (membership_of o u row = false) as ->; [|done].
    unfold membership_of. apply andb_false_iff.
    destruct (decide (OfficeMember.officeId row = o)) as [<-|?];
      [right|left]; apply bool_decide_eq_false_2; [|done].
    intros <-. by apply Hne.
Qed.

(** X8. In every state the memory store can reach, [isOfficeMember],
    which looks the key [officeId:userId] up, answers [true] exactly when
    a stored membership has that office id and that user id. *)
Theorem mem_isOfficeMember_reachable env o u (w : World MemStorage.t) :
  reachable (MemStorage_IStorage env) MemStorage.new w →
  MemStorage.isOfficeMember o u (store w)
  = holds_membership u o (JsMap.values (MemStorage.officeMembers (store w))).
Proof.
  intros Hw. apply keys_consistent_has. by apply (mem_reachable_keys env).
Qed.

Lemma mem_isOfficeMember_reachable_witness :
  let w := run_calls (storage := MemStorage_IStorage Fixtures.env_up)
             [CreateUser (InsertUser.mk "U1" "alice" "0001" None (Some true)
                            None None None);
              CreateOffice Fixtures.alpha;
              AddOfficeMember (InsertOfficeMember.mk 1 "U2" None)]
             (mkWorld MemStorage.new [] 100) in
  MemStorage.isOfficeMember 1 "U2" (store w)
  = holds_membership "U2" 1
      (JsMap.values (MemStorage.officeMembers (store w))).
Proof.
  apply (mem_isOfficeMember_reachable Fixtures.env_up).
  apply reachable_run_calls, reachable_init.
Defined.

Lemma delete_set_absent {K V} `{EqDecision K} (k : K) (v : V) m :
  JsMap.get k m = None → JsMap.delete k (JsMap.set k v m) = m.
Proof.
  induction m as [|[k' v'] r IH]; cbn [JsMap.get JsMap.set JsMap.delete].
  - by rewrite decide_True.
  - destruct (decide (k = k')) as [->|Hne]; [done|].
    intros Hr. cbn [JsMap.delete]. rewrite decide_False by done.
    by rewrite IH.
Qed.

Lemma filter_out_absent {A} (p : A → bool) (l : list A) :
  existsb p l = false → List.filter (λ x, negb (p x)) l = l.
Proof.
  induction l as [|a l IH]; [done|]. cbn [existsb List.filter].
  intros [-> Hl]%orb_false_iff. cbn [negb]. by rewrite IH.
Qed.

(** X9. Joining and leaving undoes itself: when a pair is not a member,
    [addOfficeMember] followed by [removeOfficeMember] for the pair
    leaves the memberships exactly as they were, on the memory store and
    on the relational backend (where only the serial id has moved on),
    whether or not the insertion was accepted. *)
Theorem add_then_remove_restores env member (wm : World MemStorage.t)
    (wd : World Db.t) :
  let o := InsertOfficeMember.officeId member in
  let u := InsertOfficeMember.userId member in
  MemStorage.isOfficeMember o u (store wm) = false →
  DatabaseStorage.isOfficeMember o u (store wd) = false →
  MemStorage.officeMembers
    (store (MemStorage.removeOfficeMember env o u
              (MemStorage.addOfficeMember env member wm).2).2)
  = MemStorage.officeMembers (store wm)
  ∧ Db.officeMembers
      (store (DatabaseStorage.removeOfficeMember env o u
                (DatabaseStorage.addOfficeMember env member wd).2).2)
    = Db.officeMembers (store wd).
Proof.
  intros o u Hm Hd. split.
  - rewrite mem_removeOfficeMember_run.
    pose proof (mem_addOfficeMember_run env member wm) as Hadd.
    cbv zeta in Hadd. rewrite Hadd.
    unfold MemStorage.set_officeMembers.
    cbn [snd store MemStorage.officeMembers].
    apply delete_set_absent.
    unfold MemStorage.isOfficeMember, JsMap.has in Hm. fold o u.
    by destruct (JsMap.get _ _).
  - rewrite db_removeOfficeMember_run. cbn [snd store Db.officeMembers].
    rewrite db_isOfficeMember_holds in Hd. unfold holds_membership in Hd.
    pose proof (db_addOfficeMember_cases env member wd) as Hc.
    cbv zeta in Hc. destruct Hc as (_ & _ & Hc).
    destruct (_ && _ && _).
    + destruct Hc as [_ ->]. rewrite filter_app.
      rewrite (filter_out_absent _ _ Hd). cbn [List.filter].
      unfold membership_of at 1. cbn. fold o u.
      rewrite !bool_decide_eq_true_2 by done. cbn. apply app_nil_r.
    + destruct Hc as (_ & -> & _). by apply filter_out_absent.
Qed.

Lemma add_then_remove_restores_witness :
  let member := InsertOfficeMember.mk 2 "U2" None in
  MemStorage.officeMembers
    (store (MemStorage.removeOfficeMember Fixtures.env_up 2 "U2"
              (MemStorage.addOfficeMember Fixtures.env_up member
                 Fixtures.mem_two_offices).2).2)
  = MemStorage.officeMembers (store Fixtures.mem_two_offices)
  ∧ Db.officeMembers
      (store (DatabaseStorage.removeOfficeMember Fixtures.env_up 2 "U2"
                (DatabaseStorage.addOfficeMember Fixtures.env_up member
                   Fixtures.db_two_offices).2).2)
    = Db.officeMembers (store Fixtures.db_two_offices).
Proof.
  apply (add_then_remove_restores Fixtures.env_up
           (InsertOfficeMember.mk 2 "U2" None) Fixtures.mem_two_offices
           Fixtures.db_two_offices); reflexivity.
Defined.

(** ** Deleting an office, step by step *)

(** The request that deletes a voice channel. *)
Lemma try_deleteVoiceChannel_run env {S} channelId (w : World S) :
  try_catch (deleteVoiceChannel env channelId) (λ _, ret tt) w
  = (Returned tt, log_request (delete_channel_request env channelId) w).
Proof.
  unfold try_catch.
  pose proof (deleteVoiceChannel_world env channelId w) as Hw.
  by destruct (deleteVoiceChannel env channelId w) as [[[]|e] w'];
    simpl in Hw; subst.
Qed.

(** The loop of [MemStorage.deleteOffice] over the members it listed. *)
Lemma mem_remove_listed_run env id (xs : list EnrichedMember.t)
    (w : World MemStorage.t) :
  for_of xs (λ member,
               MemStorage.removeOfficeMember env id
                 (EnrichedMember.userId member)) w
  = (Returned tt,
     mkWorld
       (MemStorage.set_officeMembers
          (λ m, foldl (λ m x, JsMap.delete
                                (MemStorage.member_key id
                                   (EnrichedMember.userId x)) m) m xs)
          (store w))
       (sent w ++ revoke_requests env
                    (JsMap.get id (MemStorage.offices (store w))
                       ≫= Office.voiceChannelId)
                    (EnrichedMember.userId <$> xs))
       (now w)).
Proof.
  revert w. induction xs as [|x xs IH]; intros w.
  - cbn. unfold ret. rewrite app_nil_r. by destruct w as [[] ? ?].
  - cbn [for_of]. erewrite bind_returned;
      [|apply mem_removeOfficeMember_run].
    rewrite IH. rewrite mem_channel_of. cbn [store sent now].
    unfold MemStorage.set_officeMembers.
    cbn [MemStorage.users MemStorage.offices MemStorage.officeMembers
         MemStorage.currentOfficeId].
    rewrite fmap_cons. unfold revoke_requests. cbn [mbind list_bind].
    by rewrite <- app_assoc.
Qed.

Lemma mem_deleteOffice_run env id (w : World MemStorage.t) :
  let xs := MemStorage.getOfficeMembers id (store w) in
  let channel := JsMap.get id (MemStorage.offices (store w))
                   ≫= Office.voiceChannelId in
  MemStorage.deleteOffice env id w
  = (Returned tt,
     mkWorld
       (MemStorage.mk (MemStorage.users (store w))
          (JsMap.delete id (MemStorage.offices (store w)))
          (foldl (λ m x, JsMap.delete
                           (MemStorage.member_key id
                              (EnrichedMember.userId x)) m)
                 (MemStorage.officeMembers (store w)) xs)
          (MemStorage.currentOfficeId (store w)))
       (sent w ++ revoke_requests env channel (EnrichedMember.userId <$> xs)
               ++ delete_channel_requests env channel)
       (now w)).
Proof.
  intros xs channel. unfold MemStorage.deleteOffice.
  rewrite !bind_gets. fold xs.
  erewrite bind_returned; [|apply mem_remove_listed_run].
  fold channel. unfold delete_channel_requests.
  destruct (JsMap.get id (MemStorage.offices (store w))) as [office|] eqn:Ho;
    cbn [mbind option_bind] in channel; subst channel.
  - destruct (truthy (Office.voiceChannelId office)).
    + erewrite bind_returned; [|apply try_deleteVoiceChannel_run].
      unfold modify, log_request, MemStorage.set_offices,
        MemStorage.set_officeMembers. cbn. by rewrite <- app_assoc.
    + rewrite bind_ret. unfold modify, MemStorage.set_offices,
        MemStorage.set_officeMembers. cbn. by rewrite !app_nil_r.
  - rewrite bind_ret. unfold modify, MemStorage.set_offices,
      MemStorage.set_officeMembers. cbn. by rewrite !app_nil_r.
Qed.

Lemma existsb_filter_out {A} (p : A → bool) (l : list A) :
  existsb p (List.filter (λ x, negb (p x)) l) = false.
Proof.
  induction l as [|a l IH]; [done|]. cbn [List.filter].
  destruct (p a) eqn:E; cbn [negb]; [done|]. cbn [existsb]. by rewrite E.
Qed.

Lemma db_deleteOffice_run env id office (w : World Db.t) :
  db_office_row id (store w) = Some office →
  DatabaseStorage.deleteOffice env id w
  = (Returned tt,
     mkWorld
       (Db.mk (Db.users (store w))
          (List.filter (λ o, negb (bool_decide (Office.id o = id)))
                       (Db.offices (store w)))
          (List.filter (λ m, negb (bool_decide (OfficeMember.officeId m = id)))
                       (Db.officeMembers (store w)))
          (Db.offices_id_seq (store w)) (Db.office_members_id_seq (store w)))
       (sent w ++ delete_channel_requests env (Office.voiceChannelId office))
       (now w)).
Proof.
  intros Ho. unfold DatabaseStorage.deleteOffice, db_office_row in *.
  rewrite bind_gets, Ho. unfold Db.delete_members. rewrite bind_modify.
  cbn [store sent now Db.users Db.offices Db.officeMembers Db.offices_id_seq
       Db.office_members_id_seq].
  assert (∀ w1 : World Db.t,
            Db.officeMembers (store w1)
            = List.filter
                (λ m, negb (bool_decide (OfficeMember.officeId m = id)))
                (Db.officeMembers (store w)) →
            Db.delete_offices (λ o, bool_decide (Office.id o = id)) w1
            = (Returned tt,
               mkWorld
                 (Db.mk (Db.users (store w1))
                    (List.filter (λ o, negb (bool_decide (Office.id o = id)))
                                 (Db.offices (store w1)))
                    (Db.officeMembers (store w1)) (Db.offices_id_seq (store w1))
                    (Db.office_members_id_seq (store w1)))
                 (sent w1) (now w1))) as Hdel.
  { intros w1 Hrows. unfold Db.delete_offices. rewrite bind_gets.
    assert (existsb _ (Db.offices (store w1)) = false) as ->; [|done].
    apply not_true_iff_false.
    intros (o & _ & [Hid Hex]%andb_true_iff)%existsb_exists.
    apply bool_decide_eq_true in Hid. rewrite Hid, Hrows in Hex.
    by rewrite (existsb_filter_out
                  (λ m, bool_decide (OfficeMember.officeId m = id))) in Hex. }
  unfold delete_channel_requests.
  destruct (truthy (Office.voiceChannelId office)).
  - erewrite bind_returned; [|apply try_deleteVoiceChannel_run].
    rewrite Hdel by done. done.
  - rewrite bind_ret, Hdel by done. cbn. by rewrite app_nil_r.
Qed.

Lemma delete_absent {K V} `{EqDecision K} (k : K) (m : list (K * V)) :
  JsMap.get k m = None → JsMap.delete k m = m.
Proof.
  induction m as [|[k' v'] r IH]; cbn [JsMap.get JsMap.delete]; [done|].
  destruct (decide (k = k')); [done|]. intros Hr. by rewrite IH.
Qed.

Lemma revoke_requests_no_channel env users :
  revoke_requests env None users = [].
Proof. unfold revoke_requests. by induction users. Qed.

Lemma filter_filter_out {A} (q p : A → bool) (l : list A) :
  (∀ x, q x = true → p x = false) →
  List.filter q (List.filter (λ x, negb (p x)) l) = List.filter q l.
Proof.
  intros Hqp. induction l as [|a l IH]; [done|]. cbn [List.filter].
  destruct (q a) eqn:Hq.
  - rewrite (Hqp a Hq). cbn [negb List.filter]. by rewrite Hq, IH.
  - destruct (p a); cbn [negb List.filter]; [done|]. by rewrite Hq.
Qed.

Lemma filter_filter_same {A} (p : A → bool) (l : list A) :
  List.filter p (List.filter (λ x, negb (p x)) l) = [].
Proof.
  induction l as [|a l IH]; [done|]. cbn [List.filter].
  destruct (p a) eqn:Hp; cbn [negb List.filter]; [done|]. by rewrite Hp.
Qed.

Lemma mem_getOfficeById_office id s :
  EnrichedOffice.office <$> MemStorage.getOfficeById id s
  = JsMap.get id (MemStorage.offices s).
Proof.
  unfold MemStorage.getOfficeById.
  by destruct (JsMap.get id (MemStorage.offices s)).
Qed.

Lemma db_getOfficeById_office id d :
  EnrichedOffice.office <$> DatabaseStorage.getOfficeById id d
  = db_office_row id d.
Proof.
  unfold DatabaseStorage.getOfficeById, db_office_row.
  by destruct (head _).
Qed.

(** X10. Deleting an office that is not stored: the relational backend
    throws [Office with ID ... not found] and leaves everything as it
    was; the memory store returns as if it had deleted one, sends nothing
    to Discord and leaves users and offices as they were. *)
Theorem deleteOffice_missing_office env id (wm : World MemStorage.t)
    (wd : World Db.t) :
  MemStorage.getOfficeById id (store wm) = None →
  DatabaseStorage.getOfficeById id (store wd) = None →
  (∃ w', MemStorage.deleteOffice env id wm = (Returned tt, w')
         ∧ sent w' = sent wm
         ∧ MemStorage.users (store w') = MemStorage.users (store wm)
         ∧ MemStorage.offices (store w') = MemStorage.offices (store wm))
  ∧ DatabaseStorage.deleteOffice env id wd
    = (Thrown ("Office with ID " +:+ pretty id +:+ " not found"), wd).
Proof.
  intros Hm Hd. split.
  - pose proof (mem_deleteOffice_run env id wm) as Hrun. cbv zeta in Hrun.
    rewrite Hrun. eexists. split; [reflexivity|].
    pose proof (mem_getOfficeById_office id (store wm)) as Ho.
    rewrite Hm in Ho. cbn in Ho. rewrite <- Ho.
    cbn [store sent MemStorage.users MemStorage.offices mbind option_bind].
    rewrite revoke_requests_no_channel. unfold delete_channel_requests.
    cbn. rewrite app_nil_r. split_and!; try done.
    by apply delete_absent.
  - pose proof (db_getOfficeById_office id (store wd)) as Ho.
    rewrite Hd in Ho. cbn in Ho.
    unfold DatabaseStorage.deleteOffice. rewrite bind_gets.
    unfold db_office_row in Ho. by rewrite <- Ho.
Qed.

Lemma deleteOffice_missing_office_witness :
  (∃ w', MemStorage.deleteOffice Fixtures.env_up 7 Fixtures.mem_office1
         = (Returned tt, w')
         ∧ sent w' = sent Fixtures.mem_office1
         ∧ MemStorage.users (store w')
           = MemStorage.users (store Fixtures.mem_office1)
         ∧ MemStorage.offices (store w')
           = MemStorage.offices (store Fixtures.mem_office1))
  ∧ DatabaseStorage.deleteOffice Fixtures.env_up 7 Fixtures.db_office1
    = (Thrown ("Office with ID " +:+ pretty 7 +:+ " not found"),
       Fixtures.db_office1).
Proof.
  apply (deleteOffice_missing_office Fixtures.env_up 7 Fixtures.mem_office1
           Fixtures.db_office1); reflexivity.
Defined.

(** X11. Deleting a stored office returns on both backends, whatever
    Discord answers.  Afterwards the office is not found and the other
    offices are as before.  The memory store sends one revocation for
    each member it listed and then the deletion of the voice channel; the
    relational backend deletes the rows of the office at once, leaves the
    rows of the other offices alone and sends the deletion of the channel
    only.  An office without a voice channel sends nothing. *)
Theorem deleteOffice_removes_office env id om od (wm : World MemStorage.t)
    (wd : World Db.t) :
  MemStorage.getOfficeById id (store wm) = Some om →
  DatabaseStorage.getOfficeById id (store wd) = Some od →
  (∃ w', MemStorage.deleteOffice env id wm = (Returned tt, w')
         ∧ MemStorage.getOfficeById id (store w') = None
         ∧ (∀ id', id' ≠ id →
              EnrichedOffice.office <$> MemStorage.getOfficeById id' (store w')
              = EnrichedOffice.office
                  <$> MemStorage.getOfficeById id' (store wm))
         ∧ MemStorage.users (store w') = MemStorage.users (store wm)
         ∧ sent w'
           = sent wm
               ++ revoke_requests env (EnrichedOffice.voiceChannelId om)
                    (EnrichedMember.userId <$> EnrichedOffice.members om)
               ++ delete_channel_requests env
                    (EnrichedOffice.voiceChannelId om))
  ∧ (∃ w', DatabaseStorage.deleteOffice env id wd = (Returned tt, w')
           ∧ DatabaseStorage.getOfficeById id (store w') = None
           ∧ DatabaseStorage.getOfficeMembers id (store w') = []
           ∧ (∀ id', id' ≠ id →
                EnrichedOffice.office
                  <$> DatabaseStorage.getOfficeById id' (store w')
                = EnrichedOffice.office
                    <$> DatabaseStorage.getOfficeById id' (store wd))
           ∧ (∀ id', id' ≠ id →
                rows_of_office id' (Db.officeMembers (store w'))
                = rows_of_office id' (Db.officeMembers (store wd)))
           ∧ Db.users (store w') = Db.users (store wd)
           ∧ sent w'
             = sent wd
                 ++ delete_channel_requests env
                      (EnrichedOffice.voiceChannelId od)).
Proof.
  intros Hm Hd. split.
  - pose proof (mem_deleteOffice_run env id wm) as Hrun. cbv zeta in Hrun.
    rewrite Hrun. eexists. split; [reflexivity|].
    unfold MemStorage.getOfficeById in Hm.
    destruct (JsMap.get id (MemStorage.offices (store wm))) as [office|]
      eqn:Ho; [|done].
    injection Hm as <-.
    cbn [store sent MemStorage.users MemStorage.offices mbind option_bind
         EnrichedOffice.voiceChannelId EnrichedOffice.members
         EnrichedOffice.office enrich].
    split_and!; try done.
    + unfold MemStorage.getOfficeById. cbn [MemStorage.offices].
      by rewrite get_delete_eq.
    + intros id' Hne. rewrite !mem_getOfficeById_office.
      cbn [MemStorage.offices]. apply get_delete_ne. congruence.
  - pose proof (db_getOfficeById_office id (store wd)) as Ho.
    rewrite Hd in Ho. cbn in Ho. symmetry in Ho.
    rewrite (db_deleteOffice_run env id _ wd Ho).
    eexists. split; [reflexivity|].
    cbn [store sent Db.users].
    split_and!; try done.
    + unfold DatabaseStorage.getOfficeById. cbn [Db.offices].
      by rewrite filter_filter_same.
    + unfold DatabaseStorage.getOfficeMembers. cbn [Db.officeMembers].
      by rewrite filter_filter_same.
    + intros id' Hne. rewrite !db_getOfficeById_office.
      unfold db_office_row. cbn [Db.offices]. f_equal.
      apply filter_filter_out. intros o Hid%bool_decide_eq_true.
      apply bool_decide_eq_false_2. congruence.
    + intros id' Hne. unfold rows_of_office. cbn [Db.officeMembers].
      apply filter_filter_out. intros m Hid%bool_decide_eq_true.
      apply bool_decide_eq_false_2. congruence.
Qed.

Lemma deleteOffice_removes_office_witness :
  ∃ om od,
    (∃ w', MemStorage.deleteOffice Fixtures.env_up 1 Fixtures.mem_office1
           = (Returned tt, w')
           ∧ MemStorage.getOfficeById 1 (store w') = None
           ∧ (∀ id', id' ≠ 1 →
                EnrichedOffice.office
                  <$> MemStorage.getOfficeById id' (store w')
                = EnrichedOffice.office
                    <$> MemStorage.getOfficeById id'
                          (store Fixtures.mem_office1))
           ∧ MemStorage.users (store w')
             = MemStorage.users (store Fixtures.mem_office1)
           ∧ sent w'
             = sent Fixtures.mem_office1
                 ++ revoke_requests Fixtures.env_up
                      (EnrichedOffice.voiceChannelId om)
                      (EnrichedMember.userId <$> EnrichedOffice.members om)
                 ++ delete_channel_requests Fixtures.env_up
                      (EnrichedOffice.voiceChannelId om))
    ∧ (∃ w', DatabaseStorage.deleteOffice Fixtures.env_up 1
               Fixtures.db_office1
             = (Returned tt, w')
             ∧ DatabaseStorage.getOfficeById 1 (store w') = None
             ∧ DatabaseStorage.getOfficeMembers 1 (store w') = []
             ∧ (∀ id', id' ≠ 1 →
                  EnrichedOffice.office
                    <$> DatabaseStorage.getOfficeById id' (store w')
                  = EnrichedOffice.office
                      <$> DatabaseStorage.getOfficeById id'
                            (store Fixtures.db_office1))
             ∧ (∀ id', id' ≠ 1 →
                  rows_of_office id' (Db.officeMembers (store w'))
                  = rows_of_office id'
                      (Db.officeMembers (store Fixtures.db_office1)))
             ∧ Db.users (store w') = Db.users (store Fixtures.db_office1)
             ∧ sent w'
               = sent Fixtures.db_office1
                   ++ delete_channel_requests Fixtures.env_up
                        (EnrichedOffice.voiceChannelId od)).
Proof.
  eexists _, _.
  apply (deleteOffice_removes_office Fixtures.env_up 1 _ _
           Fixtures.mem_office1 Fixtures.db_office1); reflexivity.
Defined.

(** ** The ids of offices *)

Lemma Forall_set {K V} `{EqDecision K} (P : K * V → Prop) k v m :
  Forall P m → P (k, v) → Forall P (JsMap.set k v m).
Proof.
  intros Hm Hkv. apply list.Forall_forall.
  intros e [->|He]%elem_of_set; [done|].
  by eapply list.Forall_forall in Hm.
Qed.

Lemma Forall_delete {K V} `{EqDecision K} (P : K * V → Prop) k m :
  Forall P m → Forall P (JsMap.delete k m).
Proof.
  intros Hm. apply list.Forall_forall. intros e He.
  eapply list.Forall_forall in Hm; [done|].
  eapply elem_of_sublist; [done|apply delete_sublist].
Qed.

Lemma set_absent {K V} `{EqDecision K} (k : K) (v : V) m :
  JsMap.get k m = None → JsMap.set k v m = m ++ [(k, v)].
Proof.
  induction m as [|[k' v'] r IH]; cbn [JsMap.get JsMap.set]; [done|].
  destruct (decide (k = k')); [done|]. intros Hr. by rewrite IH.
Qed.

Lemma mem_offices_fresh_get s :
  mem_offices_fresh s →
  JsMap.get (MemStorage.currentOfficeId s) (MemStorage.offices s) = None.
Proof.
  intros Hs. apply get_None_keys.
  intros ([k o] & Hk & Hin)%list_elem_of_fmap. cbn in Hk.
  eapply list.Forall_forall in Hs; [|exact Hin]. cbn in Hs. lia.
Qed.

(** What [MemStorage.createOffice] leaves in the store and in the log. *)
Lemma mem_createOffice_offices env office (w : World MemStorage.t) :
  let id := MemStorage.currentOfficeId (store w) in
  let channel := created_channel env (sent w) (InsertOffice.name office) in
  let w' := (MemStorage.createOffice env office w).2 in
  MemStorage.currentOfficeId (store w') = id + 1
  ∧ MemStorage.users (store w') = MemStorage.users (store w)
  ∧ MemStorage.offices (store w')
    = JsMap.set id (Office.with_voiceChannelId channel
                      (mem_office office id (now w)))
                (MemStorage.offices (store w))
  ∧ sent w'
    = sent w
        ++ create_channel_request env
             ("Office-" +:+ InsertOffice.name office) (Env.VC_CATEGORY_ID env)
           :: permission_requests env channel (InsertOffice.ownerId office)
                None None.
Proof.
  cbv zeta. pose proof (mem_createOffice_run env office w) as Hrun.
  cbv zeta in Hrun. rewrite Hrun. clear Hrun. cbn [snd].
  match goal with
  | |- context [MemStorage.addOfficeMember env ?m ?w3] =>
      pose proof (mem_addOfficeMember_run env m w3) as Hadd
  end.
  cbv zeta in Hadd. rewrite Hadd. clear Hadd.
  rewrite mem_channel_of. unfold MemStorage.set_officeMembers, created_channel.
  cbn [snd store sent MemStorage.currentOfficeId MemStorage.users
       MemStorage.offices owner_member InsertOfficeMember.officeId
       InsertOfficeMember.userId].
  rewrite <- app_assoc. cbn [app].
  destruct (createVoiceChannel env _ _ _).1 as [channel|e];
    unfold MemStorage.set_offices;
    cbn [MemStorage.currentOfficeId MemStorage.users MemStorage.offices].
  - rewrite set_set, get_set_eq. by split_and!.
  - rewrite get_set_eq. by split_and!.
Qed.

Section MemFresh.
Variable env : Env.t.

Lemma mem_call_keeps_fresh c :
  transforms (keeps mem_offices_fresh)
             (run_call (storage := MemStorage_IStorage env) c).
Proof.
  destruct c; cbn [run_call createUser updateUser createOffice deleteOffice
                   addOfficeMember removeOfficeMember MemStorage_IStorage].
  3: { intros w Hw. unfold bind.
       pose proof (mem_createOffice_offices env office w) as Ho.
       cbv zeta in Ho.
       destruct (MemStorage.createOffice env office w) as [[r|e] w']; cbn in *.
       all: destruct Ho as (Hid & _ & Hoff & _);
         unfold mem_offices_fresh; rewrite Hid, Hoff;
         (apply Forall_set; [|cbn; split; [done|lia]]);
         (eapply list.Forall_impl; [exact Hw|]);
         intros [k o] [? ?]; cbn in *; split; [done|lia]. }
  all: unfold MemStorage.createUser, MemStorage.updateUser,
         MemStorage.deleteOffice, MemStorage.addOfficeMember,
         MemStorage.removeOfficeMember;
       transforms_steps; try done.
  by apply Forall_delete.
Qed.

Lemma mem_reachable_fresh w :
  reachable (MemStorage_IStorage env) MemStorage.new w →
  mem_offices_fresh (store w).
Proof.
  induction 1 as [t|w c Hw IH|w t Hw IH]; simpl.
  - constructor.
  - by apply mem_call_keeps_fresh.
  - done.
Qed.

End MemFresh.

Lemma keeps_both {S A} (I1 I2 : S → Prop) (m : M S A) :
  transforms (keeps I1) m → transforms (keeps I2) m →
  transforms (keeps (λ s, I1 s ∧ I2 s)) m.
Proof. intros H1 H2 w [? ?]. split; [by apply H1|by apply H2]. Qed.

(** What [Db.insert_office] does: it rejects without a change, or appends
    one row under the next serial id. *)
Lemma db_insert_office_cases name description isPrivate ownerId
    (w : World Db.t) :
  let r := Db.insert_office name description isPrivate ownerId w in
  let next := Db.offices_id_seq (store w) in
  let row := Office.mk next name description (default true isPrivate)
                       ownerId "active" (now w) None in
  sent r.2 = sent w ∧ now r.2 = now w
  ∧ Db.users (store r.2) = Db.users (store w)
  ∧ Db.officeMembers (store r.2) = Db.officeMembers (store w)
  ∧ Db.office_members_id_seq (store r.2) = Db.office_members_id_seq (store w)
  ∧ Db.offices_id_seq (store r.2) = next + 1
  ∧ if negb (Db.has_office next (store w)) && Db.has_user ownerId (store w)
    then r.1 = Returned row
         ∧ Db.offices (store r.2) = Db.offices (store w) ++ [row]
    else (∃ e, r.1 = Thrown e)
         ∧ Db.offices (store r.2) = Db.offices (store w).
Proof.
  unfold Db.insert_office, Db.next_office_id. run. cbn [store sent now].
  unfold Db.has_office, Db.has_user. cbn [Db.offices Db.users].
  destruct (existsb _ (Db.offices (store w))); cbn [negb andb];
    [split_and!; eauto|].
  destruct (existsb _ (Db.users (store w))); cbn [negb andb];
    split_and!; eauto.
Qed.

Lemma fmap_if_app_last {A} (p : A → bool) (f : A → A) (l extra : list A) :
  existsb p l = false →
  (λ x, if p x then f x else x) <$> (l ++ extra)
  = l ++ ((λ x, if p x then f x else x) <$> extra).
Proof. intros Hl. by rewrite fmap_app, fmap_if_absent. Qed.

Section DbCreateOffice.
Variable env : Env.t.

Lemma db_addOfficeMember_keeps_offices (I : list Office.t → Prop) member :
  transforms (keeps (λ d, I (Db.offices d)))
             (DatabaseStorage.addOfficeMember env member).
Proof.
  intros w Hw. pose proof (db_addOfficeMember_cases env member w) as Hc.
  cbv zeta in Hc. destruct Hc as (_ & -> & _). done.
Qed.

Lemma db_createOffice_appends office (w : World Db.t) :
  Db_ids_fresh (store w) →
  appended_to (Db.offices (store w)) (Db.offices_id_seq (store w))
              (store (DatabaseStorage.createOffice env office w).2).
Proof.
  intros [Ho _]. set (old := Db.offices (store w)).
  set (next := Db.offices_id_seq (store w)).
  assert (existsb (λ o, bool_decide (Office.id o = next)) old = false)
    as Hnext.
  { apply not_true_iff_false.
    intros (o & Hin & Hid%bool_decide_eq_true)%existsb_exists.
    apply list_elem_of_In in Hin.
    eapply list.Forall_forall in Ho; [|exact Hin]. subst next. lia. }
  unfold DatabaseStorage.createOffice.
  pose proof (db_insert_office_cases (InsertOffice.name office)
                (or_null (InsertOffice.description office))
                (InsertOffice.isPrivate office) (InsertOffice.ownerId office)
                w) as Hins.
  cbv zeta in Hins. destruct Hins as (_ & _ & _ & _ & _ & _ & Hcase).
  destruct (Db.insert_office _ _ _ _ w) as [[row|e] w1] eqn:Hrun;
    cbn [fst snd] in Hcase.
  - erewrite bind_returned; [|exact Hrun].
    destruct (_ && _); [|by destruct Hcase as [[? [=]] _]].
    destruct Hcase as [[= Hrow] Hoff]. fold old next in Hrow, Hoff.
    assert (Office.id row = next) as Hid by by rewrite Hrow.
    rewrite <- Hrow in Hoff. clear Hrow Hrun.
    match goal with
    | |- appended_to _ _ (store (?m w1).2) =>
        assert (transforms (keeps (appended_to old next)) m) as Hk
    end.
    { unfold Db.update_offices.
      repeat first
        [ apply (db_addOfficeMember_keeps_offices (λ l, ∃ extra, l = _ ++ extra ∧ _))
        | transforms_step ]; try done.
      match goal with
      | H : appended_to _ _ _ |- _ => destruct H as (extra & Hoff' & Hex & Hlen)
      end.
      unfold appended_to. cbn [Db.offices]. rewrite Hoff', Hid.
      rewrite fmap_if_app_last by done.
      eexists. split; [done|]. split; [|by rewrite length_fmap].
      apply Forall_fmap. eapply list.Forall_impl; [exact Hex|].
      intros o Hoid. cbn. by destruct (bool_decide _). }
    apply Hk. exists [row]. split; [done|]. split; [|simpl; lia].
    by constructor.
  - erewrite bind_thrown; [|exact Hrun]. cbn [snd].
    destruct (_ && _); [by destruct Hcase as [[=] _]|].
    destruct Hcase as [_ Hoff]. exists []. rewrite app_nil_r.
    split; [done|]. split; [constructor|simpl; lia].
Qed.

End DbCreateOffice.

Lemma bind_ret_world {S A B} (m : M S A) (b : B) (w : World S) :
  (bind m (λ _, ret b) w).2 = (m w).2.
Proof. unfold bind, ret. by destruct (m w) as [[a|e] w']. Qed.

Lemma NoDup_ids_appended old next d :
  Forall (λ o, Office.id o < next) old →
  NoDup (Office.id <$> old) → appended_to old next d →
  db_office_ids_unique d.
Proof.
  intros Hlt Hnd (extra & Hoff & Hex & Hlen). unfold db_office_ids_unique.
  rewrite Hoff, fmap_app. apply list.NoDup_app. split; [done|]. split.
  - intros x (o & -> & Ho)%list_elem_of_fmap (o' & Heq & Ho')%list_elem_of_fmap.
    eapply list.Forall_forall in Hlt; [|exact Ho].
    eapply list.Forall_forall in Hex; [|exact Ho']. cbn in *. lia.
  - destruct extra as [|o [|o' extra]]; [constructor|apply NoDup_singleton|].
    simpl in Hlen. lia.
Qed.

Section DbUnique.
Variable env : Env.t.

Lemma db_call_keeps_unique c :
  transforms (keeps (λ d, Db_ids_fresh d ∧ db_office_ids_unique d))
             (run_call (storage := DatabaseStorage_IStorage env) c).
Proof.
  destruct c.
  3: { intros w [Hf Hu]. split; [by apply (db_call_keeps_fresh env)|].
       cbn [run_call createOffice DatabaseStorage_IStorage].
       rewrite bind_ret_world.
       eapply NoDup_ids_appended; [apply Hf|exact Hu|].
       by apply db_createOffice_appends. }
  all: apply keeps_both; [apply db_call_keeps_fresh|].
  all: cbn [run_call createUser updateUser deleteOffice addOfficeMember
            removeOfficeMember DatabaseStorage_IStorage];
       unfold DatabaseStorage.createUser, DatabaseStorage.updateUser,
         DatabaseStorage.deleteOffice, DatabaseStorage.addOfficeMember,
         DatabaseStorage.removeOfficeMember,
         Db.insert_user, Db.update_users, Db.delete_offices,
         Db.insert_member, Db.delete_members, Db.next_member_id;
       transforms_steps; try done.
  unfold db_office_ids_unique in *. cbn [Db.offices].
  eapply sublist_NoDup; [eassumption|]. apply fmap_sublist, filter_sublist.
Qed.

Lemma db_reachable_unique w :
  reachable (DatabaseStorage_IStorage env) Db.empty w →
  Db_ids_fresh (store w) ∧ db_office_ids_unique (store w).
Proof.
  induction 1 as [t|w c Hw IH|w t Hw IH]; simpl.
  - split; [split; constructor|constructor].
  - by apply db_call_keeps_unique.
  - done.
Qed.

End DbUnique.

(** X12. In every state a backend can reach, [createOffice] only adds:
    the offices stored before are all still stored, unchanged and in
    their order, and at most one office follows them, under an id that
    no stored office had.  The memory store always adds one, under the
    value its counter had. *)
Theorem createOffice_only_appends env office (wm : World MemStorage.t)
    (wd : World Db.t) :
  reachable (MemStorage_IStorage env) MemStorage.new wm →
  reachable (DatabaseStorage_IStorage env) Db.empty wd →
  let id := MemStorage.currentOfficeId (store wm) in
  let next := Db.offices_id_seq (store wd) in
  (MemStorage.getOfficeById id (store wm) = None
   ∧ ∃ new,
       MemStorage.offices (store (MemStorage.createOffice env office wm).2)
       = MemStorage.offices (store wm) ++ [(id, new)]
       ∧ Office.id new = id
       ∧ Office.ownerId new = InsertOffice.ownerId office)
  ∧ (DatabaseStorage.getOfficeById next (store wd) = None
     ∧ ∃ extra,
         Db.offices (store (DatabaseStorage.createOffice env office wd).2)
         = Db.offices (store wd) ++ extra
         ∧ Forall (λ o, Office.id o = next) extra
         ∧ (length extra ≤ 1)%nat).
Proof.
  intros Hm Hd id next. split.
  - apply (mem_reachable_fresh env) in Hm.
    apply mem_offices_fresh_get in Hm. fold id in Hm.
    split; [unfold MemStorage.getOfficeById; by rewrite Hm|].
    pose proof (mem_createOffice_offices env office wm) as Ho.
    cbv zeta in Ho. destruct Ho as (_ & _ & -> & _). fold id.
    rewrite set_absent by done. by eexists.
  - apply (db_reachable_fresh env) in Hd. split.
    + pose proof (fresh_office_id _ Hd) as Hno. fold next in Hno.
      unfold Db.has_office in Hno. apply head_filter_None in Hno.
      unfold DatabaseStorage.getOfficeById. by rewrite Hno.
    + by apply db_createOffice_appends.
Qed.

Lemma createOffice_only_appends_witness :
  let wm := run_calls (storage := MemStorage_IStorage Fixtures.env_up)
              [CreateUser (InsertUser.mk "U1" "alice" "0001" None (Some true)
                             None None None);
               CreateOffice Fixtures.alpha]
              (mkWorld MemStorage.new [] 100) in
  let wd := run_calls (storage := DatabaseStorage_IStorage Fixtures.env_up)
              [CreateUser (InsertUser.mk "U1" "alice" "0001" None (Some true)
                             None None None);
               CreateOffice Fixtures.alpha]
              (mkWorld Db.empty [] 100) in
  let id := MemStorage.currentOfficeId (store wm) in
  let next := Db.offices_id_seq (store wd) in
  (MemStorage.getOfficeById id (store wm) = None
   ∧ ∃ new,
       MemStorage.offices
         (store (MemStorage.createOffice Fixtures.env_up Fixtures.alpha wm).2)
       = MemStorage.offices (store wm) ++ [(id, new)]
       ∧ Office.id new = id
       ∧ Office.ownerId new = InsertOffice.ownerId Fixtures.alpha)
  ∧ (DatabaseStorage.getOfficeById next (store wd) = None
     ∧ ∃ extra,
         Db.offices
           (store (DatabaseStorage.createOffice Fixtures.env_up
                     Fixtures.alpha wd).2)
         = Db.offices (store wd) ++ extra
         ∧ Forall (λ o, Office.id o = next) extra
         ∧ (length extra ≤ 1)%nat).
Proof.
  apply (createOffice_only_appends Fixtures.env_up Fixtures.alpha);
    apply reachable_run_calls, reachable_init.
Defined.

Lemma db_userHasOffice_owner u d :
  DatabaseStorage.userHasOffice u d = true →
  ∃ office, office ∈ Db.offices d ∧ Office.ownerId office = u.
Proof.
  unfold DatabaseStorage.userHasOffice.
  destruct (List.filter _ _) as [|office l] eqn:E; [done|]. intros _.
  assert (office ∈ office :: l) as Hin by left. rewrite <- E in Hin.
  apply list_elem_of_In, filter_In in Hin as [Hin Ho%bool_decide_eq_true].
  exists office. split; [by apply list_elem_of_In|done].
Qed.

(** X13. In every state the database can reach, a user for whom
    [userHasOffice] answers [true] gets from [getUserOffice] an office
    they own, whatever offices they are a member of besides, and that
    office is what [GET /api/offices/me] answers them with. *)
Theorem db_getUserOffice_owned env req u (w : World Db.t) :
  reachable (DatabaseStorage_IStorage env) Db.empty w →
  HttpRequest.session_userId req = Some u → u ≠ EmptyString →
  DatabaseStorage.userHasOffice u (store w) = true →
  ∃ view, DatabaseStorage.getUserOffice u (store w) = Some view
          ∧ EnrichedOffice.ownerId view = u
          ∧ DatabaseStorage.getOfficeById (EnrichedOffice.id view) (store w)
            = Some view
          ∧ get_offices_me (storage := DatabaseStorage_IStorage env) req w
            = (Returned (HttpResponse.mk 200 (OfficeJson view)), w).
Proof.
  intros [_ Hu]%db_reachable_unique Hs Hne
    (office & Hin & Hown)%db_userHasOffice_owner.
  destruct (db_getUserOffice_owner_first _ _ _ Hu Hin Hown)
    as (view & Hview & Hrow & Howner).
  exists view. split; [done|]. split; [done|]. split.
  - unfold DatabaseStorage.getUserOffice in Hview.
    destruct (head _) as [mine|] eqn:Hmine.
    + unfold DatabaseStorage.getOfficeById in Hview |- *.
      destruct (head (List.filter
                        (λ o, bool_decide (Office.id o = Office.id mine)) _))
        as [found|] eqn:Hfound; [|done].
      injection Hview as <-.
      change (EnrichedOffice.id (enrich found _ _)) with (Office.id found).
      pose proof (head_filter_holds _ _ _ Hfound)
        as [Hid%bool_decide_eq_true _].
      by rewrite Hid, Hfound.
    + apply head_filter_None in Hmine. apply not_true_iff_false in Hmine.
      exfalso. apply Hmine, existsb_exists. exists office.
      split; [by apply list_elem_of_In|by apply bool_decide_eq_true].
  - unfold get_offices_me, truthy. rewrite Hs.
    destruct (String.eqb_spec u EmptyString); [done|]. cbn [negb].
    change (default EmptyString (Some u)) with u. rewrite bind_gets.
    change (getUserOffice u (store w))
      with (DatabaseStorage.getUserOffice u (store w)).
    by rewrite Hview.
Qed.

Lemma db_getUserOffice_owned_witness :
  let env := Fixtures.env_up in
  let req := HttpRequest.mk (Some "U1") None None None in
  let w := run_calls (storage := DatabaseStorage_IStorage env)
             [CreateUser (InsertUser.mk "U1" "alice" "0001" None (Some true)
                            None None None);
              CreateOffice Fixtures.alpha]
             (mkWorld Db.empty [] 100) in
  ∃ view, DatabaseStorage.getUserOffice "U1" (store w) = Some view
          ∧ EnrichedOffice.ownerId view = "U1"
          ∧ DatabaseStorage.getOfficeById (EnrichedOffice.id view) (store w)
            = Some view
          ∧ get_offices_me (storage := DatabaseStorage_IStorage env) req w
            = (Returned (HttpResponse.mk 200 (OfficeJson view)), w).
Proof.
  apply (db_getUserOffice_owned Fixtures.env_up
           (HttpRequest.mk (Some "U1") None None None) "U1").
  - apply reachable_run_calls, reachable_init.
  - reflexivity.
  - discriminate.
  - reflexivity.
Defined.

(** ** Creating an office *)

(** [MemStorage.createOffice] always returns the view of the office it
    stored. *)
Lemma mem_createOffice_result env office (w : World MemStorage.t) :
  let id := MemStorage.currentOfficeId (store w) in
  let channel := created_channel env (sent w) (InsertOffice.name office) in
  ∃ w',
    MemStorage.createOffice env office w
    = (Returned
         (Some (enrich (Office.with_voiceChannelId channel
                          (mem_office office id (now w)))
                  (MemStorage.getUserById (InsertOffice.ownerId office)
                                          (store w))
                  (MemStorage.getOfficeMembers id (store w')))),
       w')
    ∧ MemStorage.isOfficeMember id (InsertOffice.ownerId office) (store w')
      = true.
Proof.
  intros id channel.
  pose proof (mem_createOffice_offices env office w) as Ho. cbv zeta in Ho.
  pose proof (mem_createOffice_run env office w) as Hrun. cbv zeta in Hrun.
  destruct (MemStorage.createOffice env office w) as [out w'] eqn:E.
  cbn [snd] in Ho. destruct Ho as (_ & Hu & Hoff & _).
  injection Hrun as Hout Hw'. rewrite <- Hw' in Hout.
  fold id channel in Hout, Hoff. exists w'. split.
  - rewrite Hout. do 2 f_equal. unfold MemStorage.getOfficeById.
    rewrite Hoff, get_set_eq. unfold MemStorage.getUserById.
    by rewrite Hu.
  - match type of Hw' with
    | _ = (MemStorage.addOfficeMember env ?m ?w3).2 =>
        destruct (mem_addOfficeMember_member env m w3)
          as (m' & w4 & Heq & Hmem & _)
    end.
    rewrite Heq in Hw'. cbn [snd] in Hw'. by subst w'.
Qed.

Lemma grant_request env channelId userId :
  channelId ≠ EmptyString →
  permission_requests env (Some channelId) userId None None
  = [permissions_request env channelId userId 3145728 0].
Proof.
  intros Hne. unfold permission_requests, truthy.
  by destruct (String.eqb_spec channelId EmptyString).
Qed.

(** X14. When Discord answers the creation of the voice channel with a
    channel id, [MemStorage.createOffice] returns the new office with that
    id as its voice channel and with the owner as a member, and what it
    sent is the creation of the channel followed by one permission update
    that grants the owner CONNECT and SPEAK on it and denies nothing. *)
Theorem mem_createOffice_with_channel env office c (w : World MemStorage.t) :
  let id := MemStorage.currentOfficeId (store w) in
  let name := "Office-" +:+ InsertOffice.name office in
  createChannel_returns env (sent w) name (Env.VC_CATEGORY_ID env) (Some c) →
  c ≠ EmptyString →
  ∃ view w',
    MemStorage.createOffice env office w = (Returned (Some view), w')
    ∧ EnrichedOffice.id view = id
    ∧ EnrichedOffice.ownerId view = InsertOffice.ownerId office
    ∧ EnrichedOffice.voiceChannelId view = Some c
    ∧ MemStorage.getOfficeById id (store w') = Some view
    ∧ MemStorage.isOfficeMember id (InsertOffice.ownerId office) (store w')
      = true
    ∧ sent w'
      = sent w
          ++ [create_channel_request env name (Env.VC_CATEGORY_ID env);
              permissions_request env c (InsertOffice.ownerId office)
                3145728 0]
    ∧ Request.body (permissions_request env c (InsertOffice.ownerId office)
                      3145728 0)
      = PermissionsBody (PermissionBody.mk "3145728" "0" 1).
Proof.
  intros id name Hc Hne.
  assert (created_channel env (sent w) (InsertOffice.name office) = Some c)
    as Hch.
  { unfold created_channel. unfold createChannel_returns in Hc.
    fold name. by rewrite Hc. }
  destruct (mem_createOffice_result env office w) as (w' & Hrun & Hmem).
  pose proof (mem_createOffice_offices env office w) as Ho. cbv zeta in Ho.
  rewrite Hrun in Ho. cbn [snd] in Ho. destruct Ho as (_ & Hu & Hoff & Hsent).
  rewrite Hch in Hrun, Hoff, Hsent. fold id in Hrun, Hoff, Hmem.
  eexists _, w'. split; [exact Hrun|]. split_and!; try done.
  - unfold MemStorage.getOfficeById. rewrite Hoff, get_set_eq.
    unfold MemStorage.getUserById. by rewrite Hu.
  - rewrite Hsent. by rewrite grant_request.
Qed.

Lemma mem_createOffice_with_channel_witness :
  ∃ view w',
    MemStorage.createOffice Fixtures.env_up Fixtures.alpha
      Fixtures.mem_one_user
    = (Returned (Some view), w')
    ∧ EnrichedOffice.id view = 1
    ∧ EnrichedOffice.ownerId view = "U1"
    ∧ EnrichedOffice.voiceChannelId view = Some "C1"
    ∧ MemStorage.getOfficeById 1 (store w') = Some view
    ∧ MemStorage.isOfficeMember 1 "U1" (store w') = true
    ∧ sent w'
      = [create_channel_request Fixtures.env_up "Office-Alpha" None;
         permissions_request Fixtures.env_up "C1" "U1" 3145728 0]
    ∧ Request.body (permissions_request Fixtures.env_up "C1" "U1" 3145728 0)
      = PermissionsBody (PermissionBody.mk "3145728" "0" 1).
Proof.
  apply (mem_createOffice_with_channel Fixtures.env_up Fixtures.alpha "C1"
           Fixtures.mem_one_user); [reflexivity|discriminate].
Defined.

(** X15. An office for an owner who has no user record: the memory store
    creates it all the same and shows the placeholder user as its owner;
    the relational backend rejects the insertion (the foreign key of
    [offices.owner_id]), throws before anything is sent to Discord and
    leaves no office and no membership behind. *)
Theorem createOffice_unknown_owner env office (wm : World MemStorage.t)
    (wd : World Db.t) :
  MemStorage.getUserById (InsertOffice.ownerId office) (store wm) = None →
  DatabaseStorage.getUserById (InsertOffice.ownerId office) (store wd) = None →
  (∃ view w',
     MemStorage.createOffice env office wm = (Returned (Some view), w')
     ∧ EnrichedOffice.ownerId view = InsertOffice.ownerId office
     ∧ EnrichedOffice.owner view = User.unknown (InsertOffice.ownerId office)
     ∧ MemStorage.isOfficeMember (EnrichedOffice.id view)
         (InsertOffice.ownerId office) (store w') = true
     ∧ MemStorage.getUserById (InsertOffice.ownerId office) (store w') = None)
  ∧ (∃ e w',
       DatabaseStorage.createOffice env office wd = (Thrown e, w')
       ∧ Db.offices (store w') = Db.offices (store wd)
       ∧ Db.officeMembers (store w') = Db.officeMembers (store wd)
       ∧ Db.users (store w') = Db.users (store wd)
       ∧ sent w' = sent wd).
Proof.
  intros Hm Hd. split.
  - destruct (mem_createOffice_result env office wm) as (w' & Hrun & Hmem).
    pose proof (mem_createOffice_offices env office wm) as Ho.
    cbv zeta in Ho. rewrite Hrun in Ho. cbn [snd] in Ho.
    destruct Ho as (_ & Hu & _ & _).
    eexists _, w'. split; [exact Hrun|]. rewrite Hm. split_and!; try done.
    unfold MemStorage.getUserById in *. by rewrite Hu.
  - apply db_getUserById_has_user in Hd.
    pose proof (db_insert_office_cases (InsertOffice.name office)
                  (or_null (InsertOffice.description office))
                  (InsertOffice.isPrivate office)
                  (InsertOffice.ownerId office) wd) as Hins.
    cbv zeta in Hins. rewrite Hd, andb_false_r in Hins.
    destruct Hins as (Hsent & _ & Hu & Hrows & _ & _ & [e He] & Hoff).
    unfold DatabaseStorage.createOffice.
    destruct (Db.insert_office _ _ _ _ wd) as [[row|e'] w1] eqn:Hrun;
      cbn [fst snd] in *; [done|].
    erewrite bind_thrown; [|exact Hrun]. by eexists _, _.
Qed.

Lemma createOffice_unknown_owner_witness :
  let office := InsertOffice.mk "Haunted" None (Some true) "ghost" in
  (∃ view w',
     MemStorage.createOffice Fixtures.env_up office Fixtures.mem_one_user
     = (Returned (Some view), w')
     ∧ EnrichedOffice.ownerId view = "ghost"
     ∧ EnrichedOffice.owner view = User.unknown "ghost"
     ∧ MemStorage.isOfficeMember (EnrichedOffice.id view) "ghost" (store w')
       = true
     ∧ MemStorage.getUserById "ghost" (store w') = None)
  ∧ (∃ e w',
       DatabaseStorage.createOffice Fixtures.env_up office
         Fixtures.db_one_user
       = (Thrown e, w')
       ∧ Db.offices (store w') = Db.offices (store Fixtures.db_one_user)
       ∧ Db.officeMembers (store w')
         = Db.officeMembers (store Fixtures.db_one_user)
       ∧ Db.users (store w') = Db.users (store Fixtures.db_one_user)
       ∧ sent w' = sent Fixtures.db_one_user).
Proof.
  apply (createOffice_unknown_owner Fixtures.env_up
           (InsertOffice.mk "Haunted" None (Some true) "ghost")
           Fixtures.mem_one_user Fixtures.db_one_user); reflexivity.
Defined.

(** ** The gateway and the look-up of the admin role *)

(** X16. Whatever [allow] and [deny] it is called with,
    [updateChannelPermissions] sends exactly one request, a [PUT] whose
    body never carries [allow = "0"]: a missing or zero [allow] is sent
    as [3145728], so that no call can clear the allowed bits of a member.
    [deny] is sent as given, [0] when it is left out. *)
Theorem updateChannelPermissions_allow_never_zero env {S} channelId userId
    allow deny (w : World S) :
  ∃ b,
    sent (updateChannelPermissions env channelId userId allow deny w).2
    = sent w
        ++ [Request.mk "PUT"
              ("https://discord.com/api/channels/" +:+ channelId
                 +:+ "/permissions/" +:+ userId)
              (bot_json_headers env) (PermissionsBody b)]
    ∧ PermissionBody.allow b ≠ "0"
    ∧ PermissionBody.allow b
      = (if Z.eqb (default 0 allow) 0 then "3145728"
         else pretty (default 0 allow))
    ∧ PermissionBody.deny b = pretty (default 0 deny)
    ∧ PermissionBody.type b = 1.
Proof.
  rewrite updateChannelPermissions_world. eexists. split; [reflexivity|].
  cbn [PermissionBody.allow PermissionBody.deny PermissionBody.type].
  unfold num_or. split_and!; try done.
  - destruct (Z.eqb_spec (default 0 allow) 0) as [_|Hne]; [done|].
    intros Heq. apply Hne. by apply (inj pretty).
  - by destruct (Z.eqb (default 0 allow) 0).
Qed.

(** X17. The look-up of the admin role that the handlers make never
    throws and sends exactly one request, the [GET] of the guild member.
    It answers [true] exactly when [ADMIN_ROLE] is set and Discord
    answered that request with a member whose roles include it; when the
    request fails, when Discord answers 404 or an error, or when the role
    is not configured, the caller is not an admin. *)
Theorem check_admin_role_sound env {S} user (w : World S) :
  ∃ b,
    check_admin_role env user w
    = (Returned b, log_request (guild_member_request env (User.id user)) w)
    ∧ (b = true ↔
       ∃ role, Env.ADMIN_ROLE env = Some role ∧ role ≠ EmptyString
               ∧ discord_lists_role env (sent w) (User.id user) role).
Proof.
  assert (∀ P : Prop, ¬ P → (false = true ↔ P)) as Hfalse
    by (intros P HP; split; [done|by intros ?%HP]).
  unfold check_admin_role, try_catch, bind at 1, getGuildMember, bind at 1.
  fold (guild_member_request env (User.id user)).
  unfold fetch, log_request, discord_lists_role.
  destruct (Env.network env (sent w) _) as [resp|] eqn:Hnet; cycle 1.
  { eexists. split; [reflexivity|]. apply Hfalse.
    by intros (role & _ & _ & resp & j & [=] & _). }
  destruct (Z.eqb_spec (Response.status resp) 404) as [H404|H404].
  { eexists. split; [reflexivity|]. apply Hfalse.
    intros (role & _ & _ & resp' & j & [= <-] & Hne & _). done. }
  destruct (Response.ok resp) eqn:Hok; cbn [negb]; cycle 1.
  { eexists. split; [reflexivity|]. apply Hfalse.
    intros (role & _ & _ & resp' & j & [= <-] & _ & Hok' & _). congruence. }
  unfold response_json, bind.
  destruct (Response.json resp) as [j|] eqn:Hj; cycle 1.
  { eexists. split; [reflexivity|]. apply Hfalse.
    intros (role & _ & _ & resp' & j & [= <-] & _ & _ & Hj' & _). congruence. }
  unfold ret at 1 2.
  destruct (Env.ADMIN_ROLE env) as [role|] eqn:Hrole; cbn [truthy]; cycle 1.
  { eexists. split; [reflexivity|]. apply Hfalse. by intros (role & [=] & _). }
  destruct (String.eqb_spec role EmptyString) as [->|Hne]; cbn [negb].
  { eexists. split; [reflexivity|]. apply Hfalse.
    by intros (role & [= <-] & Hne & _). }
  eexists. split; [reflexivity|]. cbn [default]. unfold getMemberRoles.
  rewrite bool_decide_eq_true. split.
  - intros Hin. exists role. split; [done|]. split; [done|].
    exists resp, j. by split_and!.
  - intros (role' & [= <-] & _ & resp' & j' & [= <-] & _ & _ & Hj' & Hin).
    rewrite Hj in Hj'. by injection Hj' as <-.
Qed.

(** ** The route handlers *)

Section MoreRouteFacts.
Variable env : Env.t.
Context {S : Type} {storage : IStorage S}.
Implicit Types w : World S.

Lemma check_admin_role_returns user w :
  ∃ b, check_admin_role env user w
       = (Returned b, log_request (guild_member_request env (User.id user)) w).
Proof.
  unfold check_admin_role, try_catch, bind.
  pose proof (getGuildMember_world env (User.id user) w) as Hw.
  fold (guild_member_request env (User.id user)) in Hw.
  destruct (getGuildMember env (User.id user) w) as [[[m|]|e] w'];
    simpl in Hw; subst w'; unfold ret.
  - destruct (truthy (Env.ADMIN_ROLE env)); eauto.
  - eauto.
  - eauto.
Qed.

Ltac refused :=
  unfold ret;
  first [ reflexivity
        | by eexists
        | eexists _, _; split; [reflexivity|by repeat constructor] ].

(** X18. A request whose session names no stored user is refused by the
    handlers that describe the caller, list all offices, create or delete
    an office, invite a user or remove a member: they answer 400, 401 or
    404, leave the storage object as it was and send nothing to Discord.
    The handlers that show the caller's office and the available offices
    never change anything, whoever asks. *)
Theorem routes_need_stored_user req body_userId w :
  no_stored_user req (store w) →
  (∃ message, get_auth_me env req w = (Returned (Refused 401 message), w))
  ∧ (∃ message, get_offices env req w = (Returned (Refused 401 message), w))
  ∧ (∃ message,
       post_offices env req w
       = (Returned (HttpResponse.mk 401 (Message message)), w))
  ∧ (∃ status message,
       delete_office env req w
       = (Returned (HttpResponse.mk status (Message message)), w)
       ∧ status ∈ [400; 401; 404])
  ∧ (∃ status message,
       post_office_invite env req body_userId w
       = (Returned (HttpResponse.mk status (Message message)), w)
       ∧ status ∈ [400; 401; 404])
  ∧ (∃ status message,
       delete_office_member env req w
       = (Returned (HttpResponse.mk status (Message message)), w)
       ∧ status ∈ [400; 401; 404])
  ∧ (get_offices_me req w).2 = w
  ∧ (get_offices_available req w).2 = w.
Proof.
  intros Hno.
  unfold get_auth_me, get_offices, post_offices, delete_office,
    post_office_invite, delete_office_member, get_offices_me,
    get_offices_available.
  destruct Hno as [Hs|Hu].
  - apply negb_true_iff in Hs. rewrite Hs. split_and!; refused.
  - destruct (negb (truthy (HttpRequest.session_userId req)));
      [split_and!; refused|].
    rewrite !bind_gets, Hu. split_and!; try refused.
    1-3: destruct (HttpRequest.params_id req) as [officeId|]; [|refused];
         rewrite bind_gets; destruct (getOfficeById officeId (store w));
         [rewrite bind_gets, Hu|]; refused.
    by destruct (getUserOffice _ (store w)).
Qed.

Lemma admin_check_run user w :
  ∃ b w1,
    admin_check env user w = (Returned b, w1)
    ∧ store w1 = store w
    ∧ (if User.isAdmin user then b = true ∧ w1 = w
       else check_admin_role env user w = (Returned b, w1)).
Proof.
  unfold admin_check. destruct (User.isAdmin user).
  - by exists true, w.
  - destruct (check_admin_role_returns user w) as [b Hb].
    exists b, (log_request (guild_member_request env (User.id user)) w).
    by rewrite Hb.
Qed.

(** X19. The list of all offices is for admins: to a stored user whose
    admin flag is set [GET /api/offices] answers every office without
    asking Discord; to any other stored user it answers them only when
    the look-up of the admin role succeeds, and 403 otherwise, as does
    [POST /api/offices], which then leaves the storage object as it
    was. *)
Theorem offices_for_admins_only req sid user w :
  HttpRequest.session_userId req = Some sid → sid ≠ EmptyString →
  getUserById sid (store w) = Some user →
  ∃ b w1,
    admin_check env user w = (Returned b, w1)
    ∧ store w1 = store w
    ∧ (User.isAdmin user = true → b = true ∧ w1 = w)
    ∧ get_offices env req w
      = (Returned (if b then OfficeList (getAllOffices (store w))
                   else Refused 403 "Insufficient permissions"), w1)
    ∧ (b = false →
       post_offices env req w
       = (Returned (HttpResponse.mk 403 (Message "Insufficient permissions")),
          w1)).
Proof.
  intros Hs Hne Hu.
  destruct (admin_check_run user w) as (b & w1 & Hrun & Hst & Hb).
  exists b, w1. split; [done|]. split; [done|]. split.
  { intros Ha. by rewrite Ha in Hb. }
  unfold get_offices, post_offices, truthy. rewrite Hs.
  destruct (String.eqb_spec sid EmptyString) as [|_]; [done|].
  cbn [negb]. change (default EmptyString (Some sid)) with sid.
  rewrite !bind_gets, Hu. fold (@admin_check env S user). split.
  - erewrite bind_returned; [|exact Hrun].
    destruct b; cbn [negb]; [|done]. by rewrite bind_gets, Hst.
  - intros ->. by erewrite bind_returned; [|exact Hrun].
Qed.

End MoreRouteFacts.

Lemma routes_need_stored_user_witness :
  let req := HttpRequest.mk None (Some 1) (Some "U2") None in
  let w := Fixtures.mem_office1 in
  let env := Fixtures.env_up in
  (∃ message,
     get_auth_me (storage := MemStorage_IStorage env) env req w
     = (Returned (Refused 401 message), w))
  ∧ (∃ message,
       get_offices (storage := MemStorage_IStorage env) env req w
       = (Returned (Refused 401 message), w))
  ∧ (∃ message,
       post_offices (storage := MemStorage_IStorage env) env req w
       = (Returned (HttpResponse.mk 401 (Message message)), w))
  ∧ (∃ status message,
       delete_office (storage := MemStorage_IStorage env) env req w
       = (Returned (HttpResponse.mk status (Message message)), w)
       ∧ status ∈ [400; 401; 404])
  ∧ (∃ status message,
       post_office_invite (storage := MemStorage_IStorage env) env req
         (Some "U2") w
       = (Returned (HttpResponse.mk status (Message message)), w)
       ∧ status ∈ [400; 401; 404])
  ∧ (∃ status message,
       delete_office_member (storage := MemStorage_IStorage env) env req w
       = (Returned (HttpResponse.mk status (Message message)), w)
       ∧ status ∈ [400; 401; 404])
  ∧ (get_offices_me (storage := MemStorage_IStorage env) req w).2 = w
  ∧ (get_offices_available (storage := MemStorage_IStorage env) req w).2 = w.
Proof.
  apply (routes_need_stored_user Fixtures.env_up
           (storage := MemStorage_IStorage Fixtures.env_up)).
  by left.
Defined.

Lemma offices_for_admins_only_witness :
  let req := HttpRequest.mk (Some "U2") None None None in
  let w := Fixtures.mem_office1 in
  let env := Fixtures.env_up in
  ∃ b w1,
    admin_check env Fixtures.bob w = (Returned b, w1)
    ∧ store w1 = store w
    ∧ (User.isAdmin Fixtures.bob = true → b = true ∧ w1 = w)
    ∧ get_offices (storage := MemStorage_IStorage env) env req w
      = (Returned (if b then OfficeList (MemStorage.getAllOffices (store w))
                   else Refused 403 "Insufficient permissions"), w1)
    ∧ (b = false →
       post_offices (storage := MemStorage_IStorage env) env req w
       = (Returned (HttpResponse.mk 403 (Message "Insufficient permissions")),
          w1)).
Proof.
  apply (offices_for_admins_only Fixtures.env_up
           (storage := MemStorage_IStorage Fixtures.env_up)
           (HttpRequest.mk (Some "U2") None None None) "U2" Fixtures.bob
           Fixtures.mem_office1); [reflexivity|discriminate|reflexivity].
Defined.

(** ** Joining an office and being invited to one *)

Section JoinInvite.
Variable env : Env.t.
Context {S : Type} {storage : IStorage S}.
Implicit Types w : World S.

Ltac refused4 :=
  unfold ret;
  eexists _, _; split; [reflexivity|by repeat constructor].

(** [POST /api/offices/:id/join] refuses without a change, or adds the
    caller to a public office of which they are not a member. *)
Lemma post_office_join_cases req w :
  (∃ status message,
     post_office_join req w
     = (Returned (HttpResponse.mk status (Message message)), w)
     ∧ status ∈ [400; 401; 403; 404])
  ∨ (∃ sid officeId office,
       HttpRequest.session_userId req = Some sid ∧ sid ≠ EmptyString
       ∧ HttpRequest.params_id req = Some officeId
       ∧ getOfficeById officeId (store w) = Some office
       ∧ EnrichedOffice.isPrivate office = false
       ∧ isOfficeMember officeId sid (store w) = false
       ∧ post_office_join req w
         = (addOfficeMember (plain_member officeId sid) ;;
            ret (HttpResponse.mk 200
                   (Message "Successfully joined the office"))) w).
Proof.
  unfold post_office_join, truthy.
  destruct (HttpRequest.session_userId req) as [sid|]; [|left; refused4].
  destruct (String.eqb_spec sid EmptyString) as [|Hne]; [left; refused4|].
  cbn [negb]. change (default EmptyString (Some sid)) with sid.
  destruct (HttpRequest.params_id req) as [officeId|]; [|left; refused4].
  rewrite bind_gets.
  destruct (getOfficeById officeId (store w)) as [office|] eqn:Ho;
    [|left; refused4].
  destruct (EnrichedOffice.isPrivate office) eqn:Hp; [left; refused4|].
  rewrite bind_gets.
  destruct (isOfficeMember officeId sid (store w)) eqn:Hm; [left; refused4|].
  right. exists sid, officeId, office. by split_and!.
Qed.

(** [POST /api/offices/:id/invite] refuses without a change of the
    storage object, or adds a stored user who is not a member; it may
    have looked the caller's roles up before. *)
Lemma post_office_invite_cases req body_userId w :
  ∃ w1,
    store w1 = store w
    ∧ ((∃ status message,
          post_office_invite env req body_userId w
          = (Returned (HttpResponse.mk status (Message message)), w1)
          ∧ status ∈ [400; 401; 403; 404])
       ∨ (∃ officeId userId target,
            HttpRequest.params_id req = Some officeId
            ∧ body_userId = Some userId ∧ userId ≠ EmptyString
            ∧ getUserById userId (store w) = Some target
            ∧ isOfficeMember officeId userId (store w) = false
            ∧ post_office_invite env req body_userId w
              = (addOfficeMember (plain_member officeId userId) ;;
                 ret (HttpResponse.mk 200
                        (Message "User invited to the office"))) w1)).
Proof.
  unfold post_office_invite.
  destruct (negb (truthy (HttpRequest.session_userId req)));
    [exists w; split; [done|left; refused4]|].
  destruct (HttpRequest.params_id req) as [officeId|];
    [|exists w; split; [done|left; refused4]].
  rewrite bind_gets.
  destruct (getOfficeById officeId (store w)) as [office|];
    [|exists w; split; [done|left; refused4]].
  rewrite bind_gets.
  destruct (getUserById _ (store w)) as [user|];
    [|exists w; split; [done|left; refused4]].
  set (isOwner := bool_decide (EnrichedOffice.ownerId office = _)).
  assert (∃ isAdmin w1,
            (if negb (User.isAdmin user) && negb isOwner
             then check_admin_role env user
             else ret (User.isAdmin user)) w = (Returned isAdmin, w1)
            ∧ store w1 = store w) as (isAdmin & w1 & Hrun & Hst).
  { destruct (negb (User.isAdmin user) && negb isOwner).
    - destruct (check_admin_role_returns env user w) as [b Hb].
      by eexists _, _.
    - by eexists _, _. }
  erewrite bind_returned; [|exact Hrun].
  exists w1. split; [done|].
  destruct (negb isAdmin && negb isOwner); [left; refused4|].
  unfold truthy.
  destruct body_userId as [userId|]; [|left; refused4].
  destruct (String.eqb_spec userId EmptyString) as [|Hne]; [left; refused4|].
  cbn [negb]. change (default EmptyString (Some userId)) with userId.
  rewrite bind_gets, Hst.
  destruct (getUserById userId (store w)) as [target|] eqn:Ht;
    [|left; refused4].
  rewrite bind_gets, Hst.
  destruct (isOfficeMember officeId userId (store w)) eqn:Hm;
    [left; refused4|].
  right. exists officeId, userId, target. by split_and!.
Qed.

End JoinInvite.

Lemma membership_of_pair o u row :
  membership_of o u row = true ↔
  OfficeMember.officeId row = o ∧ OfficeMember.userId row = u.
Proof.
  unfold membership_of. rewrite andb_true_iff, !bool_decide_eq_true. done.
Qed.

Lemma membership_unique_snoc rows row :
  membership_unique rows →
  holds_membership (OfficeMember.userId row) (OfficeMember.officeId row) rows
  = false →
  membership_unique (rows ++ [row]).
Proof.
  intros Hu Hno o u. rewrite filter_app, length_app. cbn [List.filter].
  destruct (membership_of o u row) eqn:Hm; [|specialize (Hu o u); simpl; lia].
  apply membership_of_pair in Hm as [<- <-].
  unfold holds_membership in Hno.
  rewrite (filter_existsb_false _ _ Hno). simpl. lia.
Qed.

Lemma db_addOfficeMember_keeps_unique env member (w : World Db.t) :
  DatabaseStorage.isOfficeMember (InsertOfficeMember.officeId member)
    (InsertOfficeMember.userId member) (store w) = false →
  membership_unique (Db.officeMembers (store w)) →
  membership_unique
    (Db.officeMembers (store (DatabaseStorage.addOfficeMember env member w).2)).
Proof.
  intros Hno Hu. rewrite db_isOfficeMember_holds in Hno.
  pose proof (db_addOfficeMember_cases env member w) as Hc. cbv zeta in Hc.
  destruct Hc as (_ & _ & Hc). destruct (_ && _ && _).
  - destruct Hc as [_ ->]. by apply membership_unique_snoc.
  - by destruct Hc as (_ & -> & _).
Qed.

(** X20. Through the handlers that join an office and that invite a user
    the relational backend never gets a second row for a pair: when no
    user belongs to an office twice before the request, none does after
    it, whatever the request and whatever Discord answers. *)
Theorem db_join_invite_keep_unique env req body_userId (w : World Db.t) :
  membership_unique (Db.officeMembers (store w)) →
  membership_unique
    (Db.officeMembers
       (store (post_office_join (storage := DatabaseStorage_IStorage env)
                 req w).2))
  ∧ membership_unique
      (Db.officeMembers
         (store (post_office_invite env
                   (storage := DatabaseStorage_IStorage env)
                   req body_userId w).2)).
Proof.
  intros Hu. split.
  - destruct (post_office_join_cases (storage := DatabaseStorage_IStorage env)
                req w)
      as [(status & message & -> & _)
         |(sid & officeId & office & _ & _ & _ & _ & _ & Hno & ->)];
      [done|].
    rewrite bind_ret_world. by apply db_addOfficeMember_keeps_unique.
  - destruct (post_office_invite_cases env
                (storage := DatabaseStorage_IStorage env) req body_userId w)
      as (w1 & Hst & [(status & message & -> & _)
                     |(officeId & userId & target & _ & _ & _ & _ & Hno & ->)]).
    + cbn [snd]. by rewrite Hst.
    + rewrite bind_ret_world.
      apply db_addOfficeMember_keeps_unique; by rewrite Hst.
Qed.

Lemma db_join_invite_keep_unique_witness :
  let env := Fixtures.env_up in
  let req := HttpRequest.mk (Some "U1") (Some 2) None None in
  let w := Fixtures.db_two_offices in
  membership_unique
    (Db.officeMembers
       (store (post_office_join (storage := DatabaseStorage_IStorage env)
                 req w).2))
  ∧ membership_unique
      (Db.officeMembers
         (store (post_office_invite env
                   (storage := DatabaseStorage_IStorage env)
                   req (Some "U2") w).2)).
Proof.
  apply (db_join_invite_keep_unique Fixtures.env_up).
  intros o u. unfold membership_of. cbn.
  repeat (case_bool_decide; cbn [andb List.filter length]);
    first [lia|congruence].
Defined.

(** X21. Joining needs no user record.  The handler that joins an office
    never looks the caller up: on the memory store a caller whose session
    id has no record becomes a member of a public office all the same
    (the answer is 200 and the membership has no user behind it), while
    on the relational backend the insertion violates the foreign key of
    [office_members.user_id], the handler throws and no row is added. *)
Theorem join_needs_no_record env req sid officeId om od
    (wm : World MemStorage.t) (wd : World Db.t) :
  HttpRequest.session_userId req = Some sid → sid ≠ EmptyString →
  HttpRequest.params_id req = Some officeId →
  MemStorage.getOfficeById officeId (store wm) = Some om →
  EnrichedOffice.isPrivate om = false →
  MemStorage.isOfficeMember officeId sid (store wm) = false →
  MemStorage.getUserById sid (store wm) = None →
  DatabaseStorage.getOfficeById officeId (store wd) = Some od →
  EnrichedOffice.isPrivate od = false →
  DatabaseStorage.isOfficeMember officeId sid (store wd) = false →
  DatabaseStorage.getUserById sid (store wd) = None →
  (∃ w', post_office_join (storage := MemStorage_IStorage env) req wm
         = (Returned (HttpResponse.mk 200
                        (Message "Successfully joined the office")), w')
         ∧ MemStorage.isOfficeMember officeId sid (store w') = true
         ∧ MemStorage.getUserById sid (store w') = None)
  ∧ (∃ e w', post_office_join (storage := DatabaseStorage_IStorage env) req wd
             = (Thrown e, w')
             ∧ Db.officeMembers (store w') = Db.officeMembers (store wd)
             ∧ sent w' = sent wd).
Proof.
  intros Hs Hne Hid Hom Hpm Hmm Hum Hod Hpd Hmd Hud.
  unfold post_office_join, truthy. rewrite Hs, Hid.
  destruct (String.eqb_spec sid EmptyString); [done|]. cbn [negb].
  change (default EmptyString (Some sid)) with sid.
  fold (plain_member officeId sid). rewrite !bind_gets. split.
  - change (getOfficeById officeId (store wm))
      with (MemStorage.getOfficeById officeId (store wm)).
    rewrite Hom, Hpm, bind_gets.
    change (isOfficeMember officeId sid (store wm))
      with (MemStorage.isOfficeMember officeId sid (store wm)).
    rewrite Hmm.
    destruct (mem_addOfficeMember_member env (plain_member officeId sid) wm)
      as (m & w' & Hadd & Hmem & Hu).
    change (addOfficeMember (plain_member officeId sid))
      with (MemStorage.addOfficeMember env (plain_member officeId sid)).
    erewrite bind_returned; [|exact Hadd].
    exists w'. split; [done|]. split; [done|].
    unfold MemStorage.getUserById in *. by rewrite Hu.
  - change (getOfficeById officeId (store wd))
      with (DatabaseStorage.getOfficeById officeId (store wd)).
    rewrite Hod, Hpd, bind_gets.
    change (isOfficeMember officeId sid (store wd))
      with (DatabaseStorage.isOfficeMember officeId sid (store wd)).
    rewrite Hmd.
    pose proof (db_addOfficeMember_cases env (plain_member officeId sid) wd)
      as Hc. cbv zeta in Hc. destruct Hc as (_ & _ & Hc).
    apply db_getUserById_has_user in Hud.
    cbn [plain_member InsertOfficeMember.userId] in Hc.
    rewrite Hud, andb_false_r in Hc. destruct Hc as ([e He] & Hrows & Hsent).
    change (addOfficeMember (plain_member officeId sid))
      with (DatabaseStorage.addOfficeMember env (plain_member officeId sid)).
    destruct (DatabaseStorage.addOfficeMember env _ wd) as [[m|e'] w1]
      eqn:Hadd; [done|].
    erewrite bind_thrown; [|exact Hadd]. by eexists _, _.
Qed.

Lemma join_needs_no_record_witness :
  let env := Fixtures.env_up in
  let req := HttpRequest.mk (Some "U9") (Some 1) None None in
  (∃ w', post_office_join (storage := MemStorage_IStorage env) req
           Fixtures.mem_two_offices
         = (Returned (HttpResponse.mk 200
                        (Message "Successfully joined the office")), w')
         ∧ MemStorage.isOfficeMember 1 "U9" (store w') = true
         ∧ MemStorage.getUserById "U9" (store w') = None)
  ∧ (∃ e w', post_office_join (storage := DatabaseStorage_IStorage env) req
               Fixtures.db_two_offices
             = (Thrown e, w')
             ∧ Db.officeMembers (store w')
               = Db.officeMembers (store Fixtures.db_two_offices)
             ∧ sent w' = sent Fixtures.db_two_offices).
Proof.
  eapply (join_needs_no_record Fixtures.env_up
            (HttpRequest.mk (Some "U9") (Some 1) None None) "U9" 1 _ _
            Fixtures.mem_two_offices Fixtures.db_two_offices);
    first [reflexivity|discriminate].
Defined.

(** X22. An invitation cannot leave a membership without a user behind
    it: on the memory store, when every membership belongs to a user who
    has a record before [POST /api/offices/:id/invite], the same holds
    after it, whatever the request and whatever Discord answers. *)
Theorem mem_invite_keeps_members_known env req body_userId
    (w : World MemStorage.t) :
  mem_members_known (store w) →
  mem_members_known
    (store (post_office_invite env (storage := MemStorage_IStorage env)
              req body_userId w).2).
Proof.
  intros Hk.
  destruct (post_office_invite_cases env
              (storage := MemStorage_IStorage env) req body_userId w)
    as (w1 & Hst & [(status & message & -> & _)
                   |(officeId & userId & target & _ & _ & _ & Ht & _ & ->)]).
  - cbn [snd]. by rewrite Hst.
  - rewrite bind_ret_world.
    change (addOfficeMember (plain_member officeId userId))
      with (MemStorage.addOfficeMember env (plain_member officeId userId)).
    pose proof (mem_addOfficeMember_run env (plain_member officeId userId) w1)
      as Hrun. cbv zeta in Hrun. rewrite Hrun. cbn [snd store].
    change (MemStorage.getUserById userId (store w) = Some target) in Ht.
    rewrite Hst. unfold mem_members_known, MemStorage.getUserById,
      MemStorage.set_officeMembers in *.
    cbn [MemStorage.users MemStorage.officeMembers].
    apply Forall_set; [done|]. cbn. by rewrite Ht.
Qed.

Lemma mem_invite_keeps_members_known_witness :
  let env := Fixtures.env_up in
  mem_members_known
    (store (post_office_invite env (storage := MemStorage_IStorage env)
              (HttpRequest.mk (Some "U1") (Some 2) None None) (Some "U2")
              Fixtures.mem_two_offices).2).
Proof.
  apply (mem_invite_keeps_members_known Fixtures.env_up).
  repeat constructor; by eexists.
Defined.

(** ** Deleting an office whose members all have a record *)

Lemma elem_of_delete {K V} `{EqDecision K} (k : K) (m : list (K * V)) e :
  e ∈ JsMap.delete k m → e ∈ m ∧ e.1 ≠ k.
Proof.
  induction m as [|[k' v'] r IH]; cbn [JsMap.delete]; [by intros ?%elem_of_nil|].
  destruct (decide (k = k')) as [->|Hne].
  - intros [? ?]%IH. split; [by right|done].
  - intros [->|He]%elem_of_cons; [split; [left|cbn; congruence]|].
    destruct (IH He). split; [by right|done].
Qed.

Section FoldDelete.
Context {K V A : Type} `{EqDecision K} (f : A → K).
Implicit Types (m : list (K * V)) (xs : list A).

Lemma elem_of_foldl_delete xs m e :
  e ∈ foldl (λ m x, JsMap.delete (f x) m) m xs →
  e ∈ m ∧ ∀ x, x ∈ xs → e.1 ≠ f x.
Proof.
  revert m. induction xs as [|x xs IH]; intros m; cbn [foldl].
  - intros He. split; [done|]. by intros x ?%elem_of_nil.
  - intros [[He Hx]%elem_of_delete Hxs]%IH. split; [done|].
    intros x' [->|Hin]%elem_of_cons; [done|by apply Hxs].
Qed.

Lemma get_foldl_delete xs m k :
  (∀ x, x ∈ xs → k ≠ f x) →
  JsMap.get k (foldl (λ m x, JsMap.delete (f x) m) m xs) = JsMap.get k m.
Proof.
  revert m. induction xs as [|x xs IH]; intros m Hk; cbn [foldl]; [done|].
  rewrite IH by (intros x' Hin; apply Hk; by right).
  apply get_delete_ne. intros Heq. by apply (Hk x); [left|].
Qed.

Lemma Forall_foldl_delete (P : K * V → Prop) xs m :
  Forall P m → Forall P (foldl (λ m x, JsMap.delete (f x) m) m xs).
Proof.
  revert m. induction xs as [|x xs IH]; intros m Hm; cbn [foldl]; [done|].
  by apply IH, Forall_delete.
Qed.

End FoldDelete.

(** X23. The memberships [MemStorage.deleteOffice] leaves behind are
    only those of users without a record: in a state the memory store
    can reach in which every membership belongs to a user who has a
    record, no membership of the deleted office is left, the memberships
    of the other offices are as before, and every membership still
    belongs to a user who has a record. *)
Theorem mem_deleteOffice_clean env id (w : World MemStorage.t) :
  reachable (MemStorage_IStorage env) MemStorage.new w →
  mem_members_known (store w) →
  let w' := (MemStorage.deleteOffice env id w).2 in
  rows_of_office id (JsMap.values (MemStorage.officeMembers (store w'))) = []
  ∧ (∀ o u, o ≠ id →
       MemStorage.isOfficeMember o u (store w')
       = MemStorage.isOfficeMember o u (store w))
  ∧ mem_members_known (store w').
Proof.
  intros [Hkeys _]%(mem_reachable_keys env) Hknown w'. subst w'.
  pose proof (mem_deleteOffice_run env id w) as Hrun. cbv zeta in Hrun.
  rewrite Hrun. clear Hrun. cbn [snd store].
  unfold MemStorage.isOfficeMember, mem_members_known, MemStorage.getUserById.
  cbn [MemStorage.officeMembers MemStorage.users].
  split_and!.
  - unfold rows_of_office.
    destruct (List.filter _ _) as [|row l] eqn:E; [done|]. exfalso.
    assert (row ∈ row :: l) as Hin by left. rewrite <- E in Hin.
    apply list_elem_of_In, filter_In in Hin as [Hin Hid%bool_decide_eq_true].
    apply list_elem_of_In, list_elem_of_fmap in Hin as ([k row'] & -> & Hin).
    cbn [snd] in Hid.
    apply elem_of_foldl_delete in Hin as [Hin Hx].
    eapply list.Forall_forall in Hkeys as Hk; [|exact Hin].
    eapply list.Forall_forall in Hknown as [user Huser]; [|exact Hin].
    cbn [fst snd] in *. unfold MemStorage.getUserById in Huser.
    apply (Hx (EnrichedMember.mk row' user)).
    + apply list_elem_of_omap. exists (k, row'). split; [done|].
      cbn. by rewrite bool_decide_eq_true_2, Huser.
    + by rewrite Hk, Hid.
  - intros o u Hne. unfold JsMap.has. rewrite get_foldl_delete; [done|].
    intros x _ Heq%member_key_inj. by destruct Heq.
  - by apply Forall_foldl_delete.
Qed.

Lemma mem_deleteOffice_clean_witness :
  let env := Fixtures.env_down in
  let w := run_calls (storage := MemStorage_IStorage env)
             [CreateUser (InsertUser.mk "U1" "alice" "0001" None (Some true)
                            None None None);
              CreateUser (InsertUser.mk "U2" "bob" "0002" None None
                            None None None);
              CreateOffice (InsertOffice.mk "Lobby" None None "U2");
              AddOfficeMember (InsertOfficeMember.mk 1 "U1" None)]
             (mkWorld MemStorage.new [] 100) in
  let w' := (MemStorage.deleteOffice env 1 w).2 in
  rows_of_office 1 (JsMap.values (MemStorage.officeMembers (store w'))) = []
  ∧ (∀ o u, o ≠ 1 →
       MemStorage.isOfficeMember o u (store w')
       = MemStorage.isOfficeMember o u (store w))
  ∧ mem_members_known (store w').
Proof.
  apply (mem_deleteOffice_clean Fixtures.env_down 1).
  - apply reachable_run_calls, reachable_init.
  - repeat constructor; by eexists.
Defined.

(** ** The admin flag of the caller *)

Lemma getGuildMember_lists env {S} userId role (w : World S) :
  discord_lists_role env (sent w) userId role →
  ∃ member,
    getGuildMember env userId w
    = (Returned (Some member), log_request (guild_member_request env userId) w)
    ∧ role ∈ getMemberRoles member.
Proof.
  intros (resp & j & Hnet & H404 & Hok & Hj & Hin).
  unfold getGuildMember, bind at 1, fetch.
  fold (guild_member_request env userId). rewrite Hnet.
  destruct (Z.eqb_spec (Response.status resp) 404); [done|].
  rewrite Hok. cbn [negb]. unfold response_json. rewrite Hj.
  rewrite bind_ret. by eexists.
Qed.

Section AuthMe.
Variable env : Env.t.
Context {S : Type} {storage : IStorage S}.
Implicit Types w : World S.

Lemma get_auth_me_stored_admin req sid user w :
  HttpRequest.session_userId req = Some sid → sid ≠ EmptyString →
  getUserById sid (store w) = Some user → User.isAdmin user = true →
  get_auth_me env req w
  = (Returned (me_json user true (userHasOffice (User.id user) (store w))), w).
Proof.
  intros Hs Hne Hu Ha. unfold get_auth_me, truthy at 1. rewrite Hs.
  destruct (String.eqb_spec sid EmptyString); [done|]. cbn [negb].
  change (default EmptyString (Some sid)) with sid.
  rewrite bind_gets, Hu, Ha. cbn [negb andb]. by rewrite bind_ret, bind_gets.
Qed.

Lemma get_auth_me_promotes req sid user role w out w' :
  HttpRequest.session_userId req = Some sid → sid ≠ EmptyString →
  getUserById sid (store w) = Some user →
  User.isAdmin user = false → User.id user ≠ EmptyString →
  Env.ADMIN_ROLE env = Some role → role ≠ EmptyString →
  discord_lists_role env (sent w) (User.id user) role →
  updateUser (User.id user) (isAdmin_update true)
    (log_request (guild_member_request env (User.id user)) w) = (out, w') →
  get_auth_me env req w
  = (Returned (me_json user true (userHasOffice (User.id user) (store w'))),
     w').
Proof.
  intros Hs Hne Hu Ha Hid Hrole Hrne Hlists Hupd.
  unfold get_auth_me, truthy at 1. rewrite Hs.
  destruct (String.eqb_spec sid EmptyString); [done|]. cbn [negb].
  change (default EmptyString (Some sid)) with sid.
  rewrite bind_gets, Hu, Ha. cbn [negb andb]. unfold truthy at 1.
  destruct (String.eqb_spec (User.id user) EmptyString); [done|]. cbn [negb].
  destruct (getGuildMember_lists env _ _ w Hlists) as (member & Hget & Hin).
  match goal with
  | |- bind (try_catch ?m ?h) _ _ = _ =>
      assert (try_catch m h w = (Returned true, w')) as Htry
  end.
  { unfold try_catch at 1. erewrite bind_returned; [|exact Hget].
    rewrite Hrole. unfold truthy.
    destruct (String.eqb_spec role EmptyString); [done|]. cbn [negb].
    change (default EmptyString (Some role)) with role.
    rewrite bool_decide_eq_true_2 by done. cbn [Bool.eqb negb].
    unfold try_catch, bind at 1, bind at 1. rewrite Hupd.
    by destruct out. }
  erewrite bind_returned; [|exact Htry]. by rewrite bind_gets.
Qed.

End AuthMe.

(** X24. [GET /api/auth/me] stores the admin flag it finds and trusts
    the flag it has stored.  When a stored user whose flag is not set asks
    while Discord lists the admin role for them, the answer says admin and
    the flag is written to the record of the user, on either backend.
    Whenever the record of the caller has the flag set, the handler
    answers admin without a request to Discord and without a change,
    whatever the environment is: this handler does not notice a role taken
    away on Discord.  (Other code may write the flag again, as the login
    of [server/auth.ts] does through [updateUser].) *)
Theorem auth_me_stores_admin_flag env env' req sid role user
    (wm : World MemStorage.t) (wd : World Db.t) :
  HttpRequest.session_userId req = Some sid → sid ≠ EmptyString →
  Env.ADMIN_ROLE env = Some role → role ≠ EmptyString →
  User.id user = sid → User.isAdmin user = false →
  MemStorage.getUserById sid (store wm) = Some user →
  discord_lists_role env (sent wm) sid role →
  DatabaseStorage.getUserById sid (store wd) = Some user →
  discord_lists_role env (sent wd) sid role →
  let promoted := apply_user_updates user (isAdmin_update true) in
  (∃ hasOffice w1,
     get_auth_me (storage := MemStorage_IStorage env) env req wm
     = (Returned (me_json user true hasOffice), w1)
     ∧ MemStorage.getUserById sid (store w1) = Some promoted)
  ∧ (∃ hasOffice w1,
       get_auth_me (storage := DatabaseStorage_IStorage env) env req wd
       = (Returned (me_json user true hasOffice), w1)
       ∧ DatabaseStorage.getUserById sid (store w1) = Some promoted)
  ∧ User.isAdmin promoted = true
  ∧ (∀ (w2 : World MemStorage.t) stored,
       MemStorage.getUserById sid (store w2) = Some stored →
       User.isAdmin stored = true →
       get_auth_me (storage := MemStorage_IStorage env') env' req w2
       = (Returned (me_json stored true
                      (MemStorage.userHasOffice (User.id stored) (store w2))),
          w2))
  ∧ (∀ (w2 : World Db.t) stored,
       DatabaseStorage.getUserById sid (store w2) = Some stored →
       User.isAdmin stored = true →
       get_auth_me (storage := DatabaseStorage_IStorage env') env' req w2
       = (Returned (me_json stored true
                      (DatabaseStorage.userHasOffice (User.id stored)
                         (store w2))),
          w2)).
Proof.
  intros Hs Hne Hrole Hrne Hid Ha Hm Hlm Hd Hld promoted.
  assert (User.id user ≠ EmptyString) as Hid' by by rewrite Hid.
  rewrite <- Hid in Hlm, Hld. split_and!.
  - destruct (mem_updateUser_present (User.id user) (isAdmin_update true) user
                (log_request (guild_member_request env (User.id user)) wm))
      as (w1 & Hupd & Hget & _); [by rewrite Hid|].
    exists (MemStorage.userHasOffice (User.id user) (store w1)), w1.
    split; [|by rewrite <- Hid].
    by eapply (get_auth_me_promotes env (storage := MemStorage_IStorage env)
                 req sid user role wm _ w1).
  - destruct (db_updateUser_present (User.id user) (isAdmin_update true) user
                (log_request (guild_member_request env (User.id user)) wd))
      as (w1 & Hupd & Hget & _); [done|done|by rewrite Hid|].
    exists (DatabaseStorage.userHasOffice (User.id user) (store w1)), w1.
    split; [|by rewrite <- Hid].
    by eapply (get_auth_me_promotes env
                 (storage := DatabaseStorage_IStorage env)
                 req sid user role wd _ w1).
  - done.
  - intros w2 stored Hst Hadm.
    by apply (get_auth_me_stored_admin env'
                (storage := MemStorage_IStorage env') req sid stored w2).
  - intros w2 stored Hst Hadm.
    by apply (get_auth_me_stored_admin env'
                (storage := DatabaseStorage_IStorage env') req sid stored w2).
Qed.

Lemma auth_me_stores_admin_flag_witness :
  let env := Scenarios.env_admin in
  let env' := Fixtures.env_down in
  let req := Scenarios.who_am_i in
  let promoted := apply_user_updates Fixtures.bob (isAdmin_update true) in
  (∃ hasOffice w1,
     get_auth_me (storage := MemStorage_IStorage env) env req
       Fixtures.mem_office1
     = (Returned (me_json Fixtures.bob true hasOffice), w1)
     ∧ MemStorage.getUserById "U2" (store w1) = Some promoted)
  ∧ (∃ hasOffice w1,
       get_auth_me (storage := DatabaseStorage_IStorage env) env req
         Fixtures.db_office1
       = (Returned (me_json Fixtures.bob true hasOffice), w1)
       ∧ DatabaseStorage.getUserById "U2" (store w1) = Some promoted)
  ∧ User.isAdmin promoted = true
  ∧ (∀ (w2 : World MemStorage.t) stored,
       MemStorage.getUserById "U2" (store w2) = Some stored →
       User.isAdmin stored = true →
       get_auth_me (storage := MemStorage_IStorage env') env' req w2
       = (Returned (me_json stored true
                      (MemStorage.userHasOffice (User.id stored) (store w2))),
          w2))
  ∧ (∀ (w2 : World Db.t) stored,
       DatabaseStorage.getUserById "U2" (store w2) = Some stored →
       User.isAdmin stored = true →
       get_auth_me (storage := DatabaseStorage_IStorage env') env' req w2
       = (Returned (me_json stored true
                      (DatabaseStorage.userHasOffice (User.id stored)
                         (store w2))),
          w2)).
Proof.
  apply (auth_me_stores_admin_flag Scenarios.env_admin Fixtures.env_down
           Scenarios.who_am_i "U2" "R" Fixtures.bob Fixtures.mem_office1
           Fixtures.db_office1);
    try first [reflexivity|discriminate];
    (eexists _, _; split_and!; [reflexivity|discriminate|reflexivity
                               |reflexivity|by left]).
Defined.

(** ** The references between the rows of the database *)

Lemma existsb_app_l {A} (p : A → bool) (l l' : list A) :
  existsb p l = true → existsb p (l ++ l') = true.
Proof. intros H. by rewrite existsb_app, H. Qed.

Lemma existsb_fmap_same {A} (p : A → bool) (g : A → A) (l : list A) :
  (∀ x, p (g x) = p x) → existsb p (g <$> l) = existsb p l.
Proof.
  intros Hg. induction l as [|a l IH]; [done|].
  rewrite fmap_cons. cbn [existsb]. by rewrite Hg, IH.
Qed.

Section DbReferences.
Variable env : Env.t.

Lemma references_more_users d users' :
  (∀ id, Db.has_user id d = true →
         existsb (λ u, bool_decide (User.id u = id)) users' = true) →
  db_references_hold d →
  db_references_hold
    (Db.mk users' (Db.offices d) (Db.officeMembers d) (Db.offices_id_seq d)
           (Db.office_members_id_seq d)).
Proof.
  intros Hmore [Ho Hm]. split.
  - eapply list.Forall_impl; [exact Ho|]. intros o Hu. by apply Hmore.
  - eapply list.Forall_impl; [exact Hm|]. intros m [Hmo Hmu].
    split; [done|by apply Hmore].
Qed.

Lemma insert_user_keeps_refs u :
  transforms (keeps db_references_hold) (Db.insert_user u).
Proof.
  intros w Hw. unfold Db.insert_user. rewrite bind_gets.
  destruct (Db.has_user _ _); [done|]. rewrite bind_modify. cbn [snd store].
  apply references_more_users; [|done].
  intros id Hid. by apply existsb_app_l.
Qed.

(** A user the table loses by an update is one of the rows that got
    another [id]. *)
Lemma updated_users_keeps_id p f d a :
  Db.has_user a d = true →
  existsb (λ u, bool_decide (User.id u = a)) (Db.updated_users p f d) = false →
  ∃ u, u ∈ Db.moved_users p f d ∧ User.id u = a.
Proof.
  unfold Db.has_user, Db.updated_users, Db.moved_users.
  induction (Db.users d) as [|u l IH]; [done|].
  rewrite fmap_cons. cbn [existsb List.filter].
  intros Hhas [Hu Hl]%orb_false_iff.
  destruct (bool_decide (User.id u = a)) eqn:Ea.
  - apply bool_decide_eq_true in Ea. destruct (p u) eqn:Hp.
    + cbn [andb]. destruct (bool_decide (User.id (f u) = User.id u)) eqn:Ef.
      * apply bool_decide_eq_true in Ef. apply bool_decide_eq_false in Hu.
        destruct Hu. congruence.
      * cbn [negb]. exists u. split; [left|done].
    + apply bool_decide_eq_false in Hu. by destruct Hu.
  - cbn [orb] in Hhas. destruct (IH Hhas Hl) as (u' & Hin & Hid).
    exists u'. split; [|done]. destruct (p u && _); [right|]; done.
Qed.

Lemma update_users_keeps_refs p f :
  transforms (keeps db_references_hold) (Db.update_users p f).
Proof.
  intros w [Ho Hm]. rewrite db_update_users_run.
  destruct (Db.update_takes_id p f (store w)); [done|].
  destruct (Db.update_leaves_owner p f (store w)) eqn:Eo; [done|].
  destruct (Db.update_leaves_member p f (store w)) eqn:Em; [done|].
  cbn [snd store]. split.
  - apply list.Forall_forall. intros o Hin.
    pose proof (proj1 (list.Forall_forall _ _) Ho o Hin) as Hu.
    unfold Db.has_user at 1. cbn [Db.users].
    destruct (existsb _ (Db.updated_users p f (store w))) eqn:E; [done|].
    destruct (updated_users_keeps_id p f _ _ Hu E) as (u & Hmv & Hid).
    assert (Db.update_leaves_owner p f (store w) = true) as Habs;
      [|congruence].
    apply existsb_exists. exists u. split; [by apply list_elem_of_In|].
    rewrite Hid, E. apply existsb_exists. exists o.
    split; [by apply list_elem_of_In|by apply bool_decide_eq_true].
  - apply list.Forall_forall. intros m Hin.
    pose proof (proj1 (list.Forall_forall _ _) Hm m Hin) as [Hoff Hu].
    split; [exact Hoff|].
    unfold Db.has_user at 1. cbn [Db.users].
    destruct (existsb _ (Db.updated_users p f (store w))) eqn:E; [done|].
    destruct (updated_users_keeps_id p f _ _ Hu E) as (u & Hmv & Hid).
    assert (Db.update_leaves_member p f (store w) = true) as Habs;
      [|congruence].
    apply existsb_exists. exists u. split; [by apply list_elem_of_In|].
    rewrite Hid, E. apply existsb_exists. exists m.
    split; [by apply list_elem_of_In|by apply bool_decide_eq_true].
Qed.

Lemma references_more_offices d d' :
  Db.users d' = Db.users d → Db.officeMembers d' = Db.officeMembers d →
  (∃ extra, Db.offices d' = Db.offices d ++ extra
            ∧ Forall (λ o, Db.has_user (Office.ownerId o) d = true) extra) →
  db_references_hold d → db_references_hold d'.
Proof.
  intros Hu Hrows (extra & Hoff & Hex) [Ho Hm].
  assert (∀ id, Db.has_user id d' = Db.has_user id d) as Hsame
    by (intros id; unfold Db.has_user; by rewrite Hu).
  split.
  - rewrite Hoff. apply Forall_app. split.
    + eapply list.Forall_impl; [exact Ho|]. intros o ?. by rewrite Hsame.
    + eapply list.Forall_impl; [exact Hex|]. intros o ?. by rewrite Hsame.
  - rewrite Hrows. eapply list.Forall_impl; [exact Hm|].
    intros m [Hmo Hmu]. rewrite Hsame. split; [|done].
    unfold Db.has_office in *. rewrite Hoff. by apply existsb_app_l.
Qed.

Lemma insert_office_keeps_refs name description isPrivate ownerId :
  transforms (keeps db_references_hold)
             (Db.insert_office name description isPrivate ownerId).
Proof.
  intros w Hw.
  pose proof (db_insert_office_cases name description isPrivate ownerId w)
    as Hc. cbv zeta in Hc.
  destruct Hc as (_ & _ & Hu & Hrows & _ & _ & Hcase).
  apply (references_more_offices (store w)); try done.
  destruct (negb (Db.has_office _ _)); cbn [andb] in Hcase.
  - destruct (Db.has_user ownerId (store w)) eqn:Hown.
    + destruct Hcase as [_ ->]. eexists. split; [done|]. by constructor.
    + destruct Hcase as [_ ->]. exists []. by rewrite app_nil_r.
  - destruct Hcase as [_ ->]. exists []. by rewrite app_nil_r.
Qed.

Lemma update_offices_keeps_refs p f :
  (∀ o, Office.id (f o) = Office.id o) →
  (∀ o, Office.ownerId (f o) = Office.ownerId o) →
  transforms (keeps db_references_hold) (Db.update_offices p f).
Proof.
  intros Hid Hown w [Ho Hm]. unfold Db.update_offices. run. cbn [snd store].
  split; cbn [Db.offices Db.officeMembers].
  - apply Forall_fmap. eapply list.Forall_impl; [exact Ho|].
    intros o Hu. cbn. destruct (p o); [by rewrite Hown|done].
  - eapply list.Forall_impl; [exact Hm|]. intros m [Hmo Hmu].
    split; [|done]. unfold Db.has_office in *. cbn [Db.offices].
    rewrite existsb_fmap_same; [done|].
    intros o. destruct (p o); [by rewrite Hid|done].
Qed.

Lemma insert_member_keeps_refs officeId userId isOwner :
  transforms (keeps db_references_hold)
             (Db.insert_member officeId userId isOwner).
Proof.
  intros w [Ho Hm].
  pose proof (db_insert_member_cases officeId userId isOwner w) as Hc.
  cbv zeta in Hc. destruct Hc as (_ & _ & Hu & Hoff & _ & _ & Hcase).
  assert (∀ id, Db.has_user id (store (Db.insert_member officeId userId
                                         isOwner w).2)
                = Db.has_user id (store w)) as Hsu
    by (intros id; unfold Db.has_user; by rewrite Hu).
  assert (∀ id, Db.has_office id (store (Db.insert_member officeId userId
                                           isOwner w).2)
                = Db.has_office id (store w)) as Hso
    by (intros id; unfold Db.has_office; by rewrite Hoff).
  split.
  - rewrite Hoff. eapply list.Forall_impl; [exact Ho|].
    intros o ?. by rewrite Hsu.
  - assert (Forall (λ m, Db.has_office (OfficeMember.officeId m)
                           (store (Db.insert_member officeId userId isOwner
                                     w).2) = true
                         ∧ Db.has_user (OfficeMember.userId m)
                             (store (Db.insert_member officeId userId isOwner
                                       w).2) = true)
                   (Db.officeMembers (store w))) as Hold.
    { eapply list.Forall_impl; [exact Hm|]. intros m [? ?].
      by rewrite Hsu, Hso. }
    destruct (negb (Db.has_member_id _ _)); cbn [andb] in Hcase;
      [|by destruct Hcase as [_ ->]].
    destruct (Db.has_office officeId (store w)) eqn:Hfo; cbn [andb] in Hcase;
      [|by destruct Hcase as [_ ->]].
    destruct (Db.has_user userId (store w)) eqn:Hfu;
      [|by destruct Hcase as [_ ->]].
    destruct Hcase as [_ ->]. apply Forall_app. split; [done|].
    constructor; [|done]. cbn. by rewrite Hsu, Hso.
Qed.

Lemma delete_members_keeps_refs p :
  transforms (keeps db_references_hold) (Db.delete_members p).
Proof.
  intros w [Ho Hm]. unfold Db.delete_members, modify. cbn [snd store].
  split; [done|]. cbn [Db.officeMembers]. by apply Forall_filter_keep.
Qed.

Lemma delete_offices_keeps_refs p :
  transforms (keeps db_references_hold) (Db.delete_offices p).
Proof.
  intros w [Ho Hm]. unfold Db.delete_offices. rewrite bind_gets.
  destruct (existsb _ (Db.offices (store w))) eqn:Href; [done|].
  unfold modify. cbn [snd store]. split; cbn [Db.offices Db.officeMembers].
  - by apply Forall_filter_keep.
  - apply list.Forall_forall. intros m Hin.
    eapply list.Forall_forall in Hm as [Hmo Hmu]; [|exact Hin].
    split; [|done]. unfold Db.has_office in *. cbn [Db.offices].
    apply existsb_exists in Hmo as (o & Hino & Hid).
    apply existsb_exists. exists o. split; [|done].
    apply filter_In. split; [done|]. apply negb_true_iff.
    destruct (p o) eqn:Hp; [|done]. exfalso.
    apply not_true_iff_false in Href. apply Href, existsb_exists.
    exists o. split; [done|]. rewrite Hp. cbn [andb].
    apply existsb_exists. exists m.
    split; [by apply list_elem_of_In|].
    apply bool_decide_eq_true in Hid. by apply bool_decide_eq_true.
Qed.

Lemma db_call_keeps_refs c :
  transforms (keeps db_references_hold)
             (run_call (storage := DatabaseStorage_IStorage env) c).
Proof.
  destruct c; cbn [run_call createUser updateUser createOffice deleteOffice
                   addOfficeMember removeOfficeMember
                   DatabaseStorage_IStorage];
    unfold DatabaseStorage.createUser, DatabaseStorage.updateUser,
      DatabaseStorage.createOffice, DatabaseStorage.deleteOffice,
      DatabaseStorage.addOfficeMember, DatabaseStorage.removeOfficeMember;
    repeat first
      [ apply insert_user_keeps_refs
      | apply update_users_keeps_refs; done
      | apply insert_office_keeps_refs
      | apply update_offices_keeps_refs; done
      | apply insert_member_keeps_refs
      | apply delete_members_keeps_refs
      | apply delete_offices_keeps_refs
      | transforms_step ].
Qed.

Lemma db_reachable_refs w :
  reachable (DatabaseStorage_IStorage env) Db.empty w →
  db_references_hold (store w).
Proof.
  induction 1 as [t|w c Hw IH|w t Hw IH]; simpl.
  - split; constructor.
  - by apply db_call_keeps_refs.
  - done.
Qed.

End DbReferences.

Lemma db_has_user_get id d :
  Db.has_user id d = true →
  ∃ u, DatabaseStorage.getUserById id d = Some u.
Proof.
  intros Hu. destruct (DatabaseStorage.getUserById id d) as [u|] eqn:E;
    [by exists u|].
  apply db_getUserById_has_user in E. congruence.
Qed.

(** X25. In every state the database can reach the views resolve: the
    owner shown for an office listed by [getAllOffices] is the stored
    user with the owner id and the user shown for each of its members is
    the stored user with the member's user id, never the placeholder;
    and [getOfficeById] returns the same view for the id of the office. *)
Theorem db_views_resolve env (w : World Db.t) view :
  reachable (DatabaseStorage_IStorage env) Db.empty w →
  view ∈ DatabaseStorage.getAllOffices (store w) →
  DatabaseStorage.getUserById (EnrichedOffice.ownerId view) (store w)
  = Some (EnrichedOffice.owner view)
  ∧ Forall (λ m, DatabaseStorage.getUserById (EnrichedMember.userId m)
                   (store w) = Some (EnrichedMember.user m))
           (EnrichedOffice.members view)
  ∧ DatabaseStorage.getOfficeById (EnrichedOffice.id view) (store w)
    = Some view.
Proof.
  intros Hw (office & -> & Hin)%list_elem_of_fmap.
  pose proof (db_reachable_refs env w Hw) as [Ho Hm].
  pose proof (db_reachable_unique env w Hw) as [_ Hu].
  unfold DatabaseStorage.enrich_office.
  cbn [EnrichedOffice.ownerId EnrichedOffice.owner EnrichedOffice.members
       EnrichedOffice.office enrich].
  change (EnrichedOffice.id (enrich office _ _)) with (Office.id office).
  change (EnrichedOffice.ownerId (enrich office _ _))
    with (Office.ownerId office).
  split_and!.
  - eapply list.Forall_forall in Ho; [|exact Hin].
    apply db_has_user_get in Ho as [u Hget]. by rewrite Hget.
  - unfold DatabaseStorage.getOfficeMembers. apply Forall_fmap.
    apply list.Forall_forall. intros m Hmin%list_elem_of_In%filter_In.
    destruct Hmin as [Hmin _]. apply list_elem_of_In in Hmin.
    eapply list.Forall_forall in Hm as [_ Hmu]; [|exact Hmin].
    apply db_has_user_get in Hmu as [u Hget]. cbn.
    unfold EnrichedMember.userId. cbn. by rewrite Hget.
  - unfold DatabaseStorage.getOfficeById.
    destruct (head_filter_Some (λ o, bool_decide (Office.id o = Office.id office))
                (Db.offices (store w)) office Hin)
      as (found & -> & Hfound & Hid); [by apply bool_decide_eq_true|].
    apply bool_decide_eq_true in Hid.
    assert (found = office) as -> by by eapply NoDup_fmap_eq.
    done.
Qed.

Lemma db_views_resolve_witness :
  let w := run_calls (storage := DatabaseStorage_IStorage Fixtures.env_up)
             [CreateUser (InsertUser.mk "U1" "alice" "0001" None (Some true)
                            None None None);
              CreateOffice Fixtures.alpha]
             (mkWorld Db.empty [] 100) in
  ∃ view,
    DatabaseStorage.getUserById (EnrichedOffice.ownerId view) (store w)
    = Some (EnrichedOffice.owner view)
    ∧ Forall (λ m, DatabaseStorage.getUserById (EnrichedMember.userId m)
                     (store w) = Some (EnrichedMember.user m))
             (EnrichedOffice.members view)
    ∧ DatabaseStorage.getOfficeById (EnrichedOffice.id view) (store w)
      = Some view.
Proof.
  eexists.
  apply (db_views_resolve Fixtures.env_up).
  - apply reachable_run_calls, reachable_init.
  - left.
Defined.

(** ** Deleting an office through the HTTP route *)

(** X26. [DELETE /api/offices/:id] on the relational backend, asked by a
    stored user for a stored office: an admin (by the stored flag or by
    the look-up on Discord) or the owner gets 204, after which the office
    is not found and has no membership row left, the only request sent
    on top of the look-up being the deletion of the voice channel; any
    other caller gets 403 and the storage object is as it was. *)
Theorem db_delete_office_route env req sid id office user (w : World Db.t) :
  HttpRequest.session_userId req = Some sid → sid ≠ EmptyString →
  HttpRequest.params_id req = Some id →
  DatabaseStorage.getOfficeById id (store w) = Some office →
  DatabaseStorage.getUserById sid (store w) = Some user →
  ∃ b w1,
    admin_check env user w = (Returned b, w1)
    ∧ store w1 = store w
    ∧ if b || bool_decide (EnrichedOffice.ownerId office = User.id user) then
        ∃ w',
          delete_office env (storage := DatabaseStorage_IStorage env) req w
          = (Returned (HttpResponse.mk 204 NoContent), w')
          ∧ DatabaseStorage.getOfficeById id (store w') = None
          ∧ rows_of_office id (Db.officeMembers (store w')) = []
          ∧ Db.users (store w') = Db.users (store w)
          ∧ sent w'
            = sent w1
                ++ delete_channel_requests env
                     (EnrichedOffice.voiceChannelId office)
      else
        delete_office env (storage := DatabaseStorage_IStorage env) req w
        = (Returned (HttpResponse.mk 403 (Message "Insufficient permissions")),
           w1).
Proof.
  intros Hs Hne Hid Ho Hu.
  destruct (admin_check_run env user w) as (b & w1 & Hrun & Hst & _).
  exists b, w1. split; [done|]. split; [done|].
  unfold delete_office, truthy. rewrite Hs, Hid.
  destruct (String.eqb_spec sid EmptyString); [done|]. cbn [negb].
  change (default EmptyString (Some sid)) with sid. rewrite bind_gets.
  change (getOfficeById id (store w))
    with (DatabaseStorage.getOfficeById id (store w)).
  rewrite Ho, bind_gets.
  change (getUserById sid (store w))
    with (DatabaseStorage.getUserById sid (store w)).
  rewrite Hu. fold (@admin_check env Db.t user).
  erewrite bind_returned; [|exact Hrun].
  rewrite <- negb_orb.
  destruct (b || bool_decide _); cbn [negb]; [|done].
  pose proof (db_getOfficeById_office id (store w)) as Hrow.
  rewrite Ho in Hrow. cbn in Hrow. symmetry in Hrow. rewrite <- Hst in Hrow.
  change (deleteOffice id) with (DatabaseStorage.deleteOffice env id).
  erewrite bind_returned; [|by apply db_deleteOffice_run].
  eexists. split; [reflexivity|]. cbn [store sent Db.users Db.officeMembers].
  rewrite Hst. split_and!; try done.
  - unfold DatabaseStorage.getOfficeById. cbn [Db.offices].
    by rewrite filter_filter_same.
  - unfold rows_of_office. by rewrite filter_filter_same.
Qed.

Lemma db_delete_office_route_witness :
  let env := Fixtures.env_up in
  let req := HttpRequest.mk (Some "U2") (Some 1) None None in
  let w := Fixtures.db_office1 in
  ∃ office b w1,
    admin_check env Fixtures.bob w = (Returned b, w1)
    ∧ store w1 = store w
    ∧ if b || bool_decide (EnrichedOffice.ownerId office
                           = User.id Fixtures.bob) then
        ∃ w',
          delete_office env (storage := DatabaseStorage_IStorage env) req w
          = (Returned (HttpResponse.mk 204 NoContent), w')
          ∧ DatabaseStorage.getOfficeById 1 (store w') = None
          ∧ rows_of_office 1 (Db.officeMembers (store w')) = []
          ∧ Db.users (store w') = Db.users (store w)
          ∧ sent w'
            = sent w1
                ++ delete_channel_requests env
                     (EnrichedOffice.voiceChannelId office)
      else
        delete_office env (storage := DatabaseStorage_IStorage env) req w
        = (Returned (HttpResponse.mk 403 (Message "Insufficient permissions")),
           w1).
Proof.
  eexists.
  apply (db_delete_office_route Fixtures.env_up
           (HttpRequest.mk (Some "U2") (Some 1) None None) "U2" 1 _
           Fixtures.bob Fixtures.db_office1);
    first [reflexivity|discriminate].
Defined.

(** ** Posting an office to the memory store *)

(** X27. [POST /api/offices] on the memory store, asked by a stored
    admin with the owner given by id: the answer is 201 with the new
    office, and although the handler adds the owner after [createOffice]
    has done so, the office has exactly one owner row, provided no
    membership was stored for the id before the office got it. *)
Theorem mem_post_offices_one_owner_row env req sid user office
    (w : World MemStorage.t) :
  let id := MemStorage.currentOfficeId (store w) in
  let owner := InsertOffice.ownerId office in
  HttpRequest.session_userId req = Some sid → sid ≠ EmptyString →
  MemStorage.getUserById sid (store w) = Some user →
  User.isAdmin user = true →
  HttpRequest.body req = Some office → includes "#" owner = false →
  Forall (λ m, OfficeMember.officeId m ≠ id)
         (JsMap.values (MemStorage.officeMembers (store w))) →
  ∃ view w',
    post_offices env (storage := MemStorage_IStorage env) req w
    = (Returned (HttpResponse.mk 201 (OfficeJson view)), w')
    ∧ EnrichedOffice.id view = id
    ∧ EnrichedOffice.ownerId view = owner
    ∧ owner_rows id (JsMap.values (MemStorage.officeMembers (store w')))
      = [OfficeMember.mk 0 id owner true (now w)]
    ∧ MemStorage.isOfficeMember id owner (store w') = true.
Proof.
  intros id owner Hs Hne Hu Ha Hb Hinc Hfresh.
  pose proof (mem_owner_row_after_post env office w Hfresh) as [_ Hrows].
  destruct (mem_createOffice_result env office w) as (w1 & Hrun & _).
  rewrite Hrun in Hrows. cbn [snd] in Hrows. fold id owner in Hrows.
  destruct (mem_addOfficeMember_member env (owner_member id owner) w1)
    as (m & w2 & Hadd & Hmem & _).
  rewrite Hadd in Hrows. cbn [snd] in Hrows.
  unfold post_offices, truthy. rewrite Hs.
  destruct (String.eqb_spec sid EmptyString); [done|]. cbn [negb].
  change (default EmptyString (Some sid)) with sid. rewrite bind_gets.
  change (getUserById sid (store w))
    with (MemStorage.getUserById sid (store w)).
  rewrite Hu, Ha, bind_ret. cbn [negb]. rewrite Hb. fold owner. rewrite Hinc.
  assert (InsertOffice.with_ownerId owner office = office) as ->
    by by destruct office.
  change (createOffice office) with (MemStorage.createOffice env office).
  erewrite bind_returned; [|exact Hrun]. cbv beta iota.
  match goal with
  | |- context [addOfficeMember ?x] =>
      change (addOfficeMember x)
        with (MemStorage.addOfficeMember env (owner_member id owner))
  end.
  erewrite bind_returned; [|exact Hadd].
  by eexists _, w2.
Qed.

Lemma mem_post_offices_one_owner_row_witness :
  let env := Fixtures.env_up in
  ∃ view w',
    post_offices env (storage := MemStorage_IStorage env) Fixtures.post_alpha
      Fixtures.mem_one_user
    = (Returned (HttpResponse.mk 201 (OfficeJson view)), w')
    ∧ EnrichedOffice.id view = 1
    ∧ EnrichedOffice.ownerId view = "U1"
    ∧ owner_rows 1 (JsMap.values (MemStorage.officeMembers (store w')))
      = [OfficeMember.mk 0 1 "U1" true 100]
    ∧ MemStorage.isOfficeMember 1 "U1" (store w') = true.
Proof.
  apply (mem_post_offices_one_owner_row Fixtures.env_up Fixtures.post_alpha
           "U1" Fixtures.admin Fixtures.alpha Fixtures.mem_one_user);
    first [reflexivity|discriminate|constructor].
Defined.

(** X28. On the memory store a user for whom [userHasOffice] answers
    [true] has an office by [getUserOffice], one they own or one they are
    a listed member of, and it is what [GET /api/offices/me] answers;
    when [getUserOffice] finds none the handler answers 404 and
    [userHasOffice] is [false]. *)
Theorem mem_userHasOffice_getUserOffice req u (w : World MemStorage.t) :
  HttpRequest.session_userId req = Some u → u ≠ EmptyString →
  match MemStorage.getUserOffice u (store w) with
  | Some view =>
      (EnrichedOffice.ownerId view = u ∨ some_member u view = true)
      ∧ view ∈ MemStorage.getAllOffices (store w)
      ∧ ∀ env, get_offices_me (storage := MemStorage_IStorage env) req w
               = (Returned (HttpResponse.mk 200 (OfficeJson view)), w)
  | None =>
      MemStorage.userHasOffice u (store w) = false
      ∧ ∀ env, get_offices_me (storage := MemStorage_IStorage env) req w
               = (Returned (HttpResponse.mk 404 (Message "No office found")),
                  w)
  end.
Proof.
  intros Hs Hne.
  assert (∀ env, get_offices_me (storage := MemStorage_IStorage env) req w
                 = match MemStorage.getUserOffice u (store w) with
                   | Some view =>
                       (Returned (HttpResponse.mk 200 (OfficeJson view)), w)
                   | None =>
                       (Returned (HttpResponse.mk 404
                                    (Message "No office found")), w)
                   end) as Hroute.
  { intros env. unfold get_offices_me, truthy. rewrite Hs.
    destruct (String.eqb_spec u EmptyString); [done|]. cbn [negb].
    change (default EmptyString (Some u)) with u. rewrite bind_gets.
    change (getUserOffice u (store w))
      with (MemStorage.getUserOffice u (store w)).
    by destruct (MemStorage.getUserOffice u (store w)). }
  unfold MemStorage.getUserOffice in *.
  destruct (List.find _ _) as [view|] eqn:Hfind.
  - apply find_some in Hfind as [Hin Hp]. split_and!; [|by apply list_elem_of_In|done].
    apply orb_true_iff in Hp as [Hp%bool_decide_eq_true|Hp]; auto.
  - split; [|done]. unfold MemStorage.userHasOffice.
    apply not_true_iff_false.
    intros (office & Hin & Hown%bool_decide_eq_true)%existsb_exists.
    eapply find_none in Hfind.
    + cbn beta in Hfind. apply orb_false_iff in Hfind as [Hfind _].
      apply bool_decide_eq_false in Hfind. apply Hfind.
      instantiate (1 := MemStorage.enrich_office (store w) office). done.
    + unfold MemStorage.getAllOffices. apply in_map_iff.
      exists office. by split.
Qed.

Lemma mem_userHasOffice_getUserOffice_witness :
  let req := HttpRequest.mk (Some "U1") None None None in
  let w := Fixtures.mem_two_offices in
  match MemStorage.getUserOffice "U1" (store w) with
  | Some view =>
      (EnrichedOffice.ownerId view = "U1" ∨ some_member "U1" view = true)
      ∧ view ∈ MemStorage.getAllOffices (store w)
      ∧ ∀ env, get_offices_me (storage := MemStorage_IStorage env) req w
               = (Returned (HttpResponse.mk 200 (OfficeJson view)), w)
  | None =>
      MemStorage.userHasOffice "U1" (store w) = false
      ∧ ∀ env, get_offices_me (storage := MemStorage_IStorage env) req w
               = (Returned (HttpResponse.mk 404 (Message "No office found")),
                  w)
  end.
Proof.
  apply (mem_userHasOffice_getUserOffice
           (HttpRequest.mk (Some "U1") None None None) "U1"
           Fixtures.mem_two_offices); [reflexivity|discriminate].
Defined.

(** ** An owner named by username and discriminator *)

Lemma append_assoc (a b c : string) : (a +:+ b) +:+ c = a +:+ (b +:+ c).
Proof.
  induction a as [|x a IH]; [done|].
  change (String x ((a +:+ b) +:+ c) = String x (a +:+ (b +:+ c))).
  by rewrite IH.
Qed.

Lemma append_nil_r (a : string) : a +:+ EmptyString = a.
Proof.
  induction a as [|x a IH]; [done|].
  change (String x (a +:+ EmptyString) = String x a). by rewrite IH.
Qed.

Lemma rev_app_append (s t : string) :
  String.rev_app s t = String.rev_app s EmptyString +:+ t.
Proof.
  revert t. induction s as [|x s IH]; intros t; [done|]. cbn.
  rewrite (IH (String x t)), (IH (String x EmptyString)).
  by rewrite append_assoc.
Qed.

Lemma rev_cons x (acc : string) :
  String.rev (String x acc) = String.rev acc +:+ String x EmptyString.
Proof. unfold String.rev. cbn. apply rev_app_append. Qed.

Lemma split_go_last c acc b :
  includes c b = false → split_go c acc b = [String.rev acc +:+ b].
Proof.
  revert acc. induction b as [|x b IH]; intros acc; cbn [split_go includes].
  - by rewrite append_nil_r.
  - destruct (Ascii.eqb x c); [done|]. intros Hb.
    rewrite IH by done. by rewrite rev_cons, append_assoc.
Qed.

Lemma split_go_piece c acc a r :
  includes c a = false →
  split_go c acc (a +:+ String c r)
  = (String.rev acc +:+ a) :: split_go c EmptyString r.
Proof.
  revert acc. induction a as [|x a IH]; intros acc.
  - intros _. change (EmptyString +:+ String c r) with (String c r).
    cbn [split_go]. by rewrite Ascii.eqb_refl, append_nil_r.
  - change (String x a +:+ String c r) with (String x (a +:+ String c r)).
    cbn [split_go includes].
    destruct (Ascii.eqb x c); [done|]. intros Ha.
    rewrite IH by done. by rewrite rev_cons, append_assoc.
Qed.

Lemma split_two c a b :
  includes c a = false → includes c b = false →
  split c (a +:+ String c b) = [a; b].
Proof.
  intros Ha Hb. unfold split.
  by rewrite split_go_piece, split_go_last.
Qed.

Lemma includes_separator c a b : includes c (a +:+ String c b) = true.
Proof.
  induction a as [|x a IH].
  - change (EmptyString +:+ String c b) with (String c b).
    cbn [includes]. by rewrite Ascii.eqb_refl.
  - change (String x a +:+ String c b) with (String x (a +:+ String c b)).
    cbn [includes]. by destruct (Ascii.eqb x c).
Qed.

Lemma fetchGuildMembers_world env {S} (w : World S) :
  (fetchGuildMembers env w).2 = log_request (guild_members_request env) w.
Proof.
  unfold fetchGuildMembers, response_json. run.
  fold (guild_members_request env).
  pose proof (fetch_world env (guild_members_request env) w) as Hf.
  destruct (fetch env (guild_members_request env) w) as [[resp|e] w'];
    simpl in Hf; subst; [|done].
  destruct (negb (Response.ok resp)); [done|].
  by destruct (Response.json resp) as [[]|].
Qed.

Lemma find_guild_member_user username discriminator members m :
  find_guild_member username discriminator members = Some m →
  ∃ u, DiscordGuildMember.user m = Some u
       ∧ DiscordUser.username u = username
       ∧ DiscordUser.discriminator u = discriminator.
Proof.
  unfold find_guild_member. intros [_ Hp]%find_some.
  destruct (DiscordGuildMember.user m) as [u|]; [|done].
  apply andb_true_iff in Hp as [?%bool_decide_eq_true ?%bool_decide_eq_true].
  by exists u.
Qed.

Lemma mem_createUser_stores user (w : World MemStorage.t) :
  ∃ u w',
    MemStorage.createUser user w = (Returned u, w')
    ∧ MemStorage.getUserById (InsertUser.id user) (store w') = Some u.
Proof.
  unfold MemStorage.createUser. rewrite bind_modify. unfold ret.
  eexists _, _. split; [reflexivity|].
  unfold MemStorage.getUserById, MemStorage.set_users.
  cbn [store MemStorage.users User.id]. apply get_set_eq.
Qed.

(** X29. [POST /api/offices] with the owner named as
    [username#discriminator], asked by a stored admin on the memory
    store, once Discord has answered with the members of the guild.  When
    no member has that name and discriminator the answer is 404 and
    nothing is stored.  When one has, the office is created for the
    member's Discord id: the answer is 201, and the owner shown is a
    stored user with that id, the one stored before or else the one the
    handler creates from the member. *)
Theorem mem_post_offices_owner_by_tag env req sid user office username
    discriminator members (w : World MemStorage.t) :
  HttpRequest.session_userId req = Some sid → sid ≠ EmptyString →
  MemStorage.getUserById sid (store w) = Some user →
  User.isAdmin user = true →
  HttpRequest.body req = Some office →
  InsertOffice.ownerId office = username +:+ String "#" discriminator →
  includes "#" username = false → includes "#" discriminator = false →
  (fetchGuildMembers env w).1 = Returned members →
  match find_guild_member username discriminator members with
  | None =>
      post_offices env (storage := MemStorage_IStorage env) req w
      = (Returned (HttpResponse.mk 404
                     (Message "Owner not found on Discord server")),
         log_request (guild_members_request env) w)
  | Some member =>
      ∃ u view w',
        DiscordGuildMember.user member = Some u
        ∧ DiscordUser.username u = username
        ∧ DiscordUser.discriminator u = discriminator
        ∧ post_offices env (storage := MemStorage_IStorage env) req w
          = (Returned (HttpResponse.mk 201 (OfficeJson view)), w')
        ∧ EnrichedOffice.ownerId view = DiscordUser.id u
        ∧ MemStorage.getUserById (DiscordUser.id u) (store w')
          = Some (EnrichedOffice.owner view)
        ∧ MemStorage.isOfficeMember (EnrichedOffice.id view)
            (DiscordUser.id u) (store w') = true
  end.
Proof.
  intros Hs Hne Hu Ha Hb Hown Hiu Hid Hfetch.
  pose proof (fetchGuildMembers_world env w) as Hworld.
  destruct (fetchGuildMembers env w) as [out w1] eqn:Hrun.
  cbn [fst snd] in *. subst out w1.
  unfold post_offices, truthy. rewrite Hs.
  destruct (String.eqb_spec sid EmptyString); [done|]. cbn [negb].
  change (default EmptyString (Some sid)) with sid. rewrite bind_gets.
  change (getUserById sid (store w))
    with (MemStorage.getUserById sid (store w)).
  rewrite Hu, Ha, bind_ret. cbn [negb]. rewrite Hb, Hown.
  rewrite includes_separator, split_two by done. cbn [lookup list_lookup].
  change (default EmptyString (Some username)) with username.
  change (default EmptyString (Some discriminator)) with discriminator.
  erewrite bind_returned; [|exact Hrun].
  destruct (find_guild_member username discriminator members) as [member|]
    eqn:Hfind; [|done].
  destruct (find_guild_member_user _ _ _ _ Hfind) as (u & Hmu & Hun & Hud).
  rewrite Hmu. set (wl := log_request (guild_members_request env) w).
  set (owner := DiscordUser.id u).
  set (office' := InsertOffice.with_ownerId owner office).
  fold (owner_record u). rewrite bind_gets.
  change (getUserById owner (store wl))
    with (MemStorage.getUserById owner (store wl)).
  assert (∃ w2,
            (match MemStorage.getUserById owner (store wl) with
             | Some _ => ret tt
             | None =>
                 @createUser _ (MemStorage_IStorage env) (owner_record u) ;;
                 ret tt
             end) wl = (Returned tt, w2)
            ∧ is_Some (MemStorage.getUserById owner (store w2)))
    as (w2 & Hensure & [stored Hstored]).
  { destruct (MemStorage.getUserById owner (store wl)) as [stored|] eqn:Hst.
    - exists wl. by split.
    - change (@createUser _ (MemStorage_IStorage env) (owner_record u))
        with (MemStorage.createUser (owner_record u)).
      destruct (mem_createUser_stores (owner_record u) wl)
        as (u' & w2 & Hcreate & Hget).
      erewrite bind_returned; [|exact Hcreate].
      exists w2. split; [done|]. by eexists. }
  erewrite bind_returned; [|exact Hensure].
  change (createOffice office') with (MemStorage.createOffice env office').
  destruct (mem_createOffice_result env office' w2) as (w3 & Hcreate & _).
  pose proof (mem_createOffice_offices env office' w2) as Hoff.
  cbv zeta in Hoff. rewrite Hcreate in Hoff. cbn [snd] in Hoff.
  destruct Hoff as (_ & Husers & _ & _).
  erewrite bind_returned; [|exact Hcreate]. cbv beta iota.
  match goal with
  | |- context [addOfficeMember ?x] =>
      change (addOfficeMember x)
        with (MemStorage.addOfficeMember env
                (owner_member (MemStorage.currentOfficeId (store w2)) owner))
  end.
  destruct (mem_addOfficeMember_member env
              (owner_member (MemStorage.currentOfficeId (store w2)) owner) w3)
    as (m & w4 & Hadd & Hmem & Husers').
  erewrite bind_returned; [|exact Hadd].
  eexists u, _, w4. split_and!; try done.
  cbn [EnrichedOffice.owner enrich InsertOffice.ownerId office'
       InsertOffice.with_ownerId].
  unfold MemStorage.getUserById in *. rewrite Husers', Husers, Hstored. done.
Qed.

Lemma mem_post_offices_owner_by_tag_witness :
  let env := Scenarios.env_guild in
  ∃ u view w',
    Some Scenarios.carol = Some u
    ∧ DiscordUser.username u = "carol"
    ∧ DiscordUser.discriminator u = "0003"
    ∧ post_offices env (storage := MemStorage_IStorage env)
        Scenarios.post_for_carol Fixtures.mem_one_user
      = (Returned (HttpResponse.mk 201 (OfficeJson view)), w')
    ∧ EnrichedOffice.ownerId view = DiscordUser.id u
    ∧ MemStorage.getUserById (DiscordUser.id u) (store w')
      = Some (EnrichedOffice.owner view)
    ∧ MemStorage.isOfficeMember (EnrichedOffice.id view)
        (DiscordUser.id u) (store w')
      = true.
Proof.
  apply (mem_post_offices_owner_by_tag Scenarios.env_guild
           Scenarios.post_for_carol "U1" Fixtures.admin
           (InsertOffice.mk "Studio" None None "carol#0003") "carol" "0003"
           [DiscordGuildMember.mk (Some Scenarios.carol) None []]
           Fixtures.mem_one_user);
    first [reflexivity|discriminate].
Defined.
